(** * VIZON: the input-to-table normalisation pipeline of [app.py]

    A shallow embedding of the helper functions of [app.py]
    ([clean_json_string], [gemini_data_extractor], [scrape_url]), of the
    credential check that precedes them, of the sidebar dispatch and the
    dashboard guard that follow them and of the three tabs of the dashboard,
    together with the parts of the Python libraries they call: [str]
    methods, the [json] decoder, the records path of the [pandas.DataFrame]
    constructor and BeautifulSoup's [get_text]. *)

From Stdlib Require Import List NArith ZArith Bool Lia Ascii.
From Stdlib Require String DecimalString.
Import ListNotations String.StringSyntax.
Delimit Scope string_scope with string.

Set Implicit Arguments.

(* ------------------------------------------------------------------ *)
(** * Python strings *)

(** A Python [str] is a sequence of Unicode code points. *)
Module PyStr.

Definition char := N.
Definition str := list char.

(** ASCII literals of the source, as code points. *)
Definition py (s : String.string) : str :=
  map N_of_ascii (String.list_ascii_of_string s).
Arguments py s%_string.

Definition LF : char := 10%N.
Definition BACKTICK : char := 96%N.
Definition QUOTE : char := 34%N.

(** Literals that hold double quotes are written with single quotes: [pyq]
    turns every single quote (39) into a double quote (34). *)
Definition pyq (s : String.string) : str :=
  map (fun c => if N.eqb c 39 then QUOTE else c) (py s).
Arguments pyq s%_string.

Definition str_eqb (a b : str) : bool :=
  if list_eq_dec N.eq_dec a b then true else false.

(** [str.isspace] for one character: [Py_UNICODE_ISSPACE]. *)
Definition isspace (c : char) : bool :=
  ((9 <=? c) && (c <=? 13) || (28 <=? c) && (c <=? 32)
   || (c =? 133) || (c =? 160) || (c =? 5760)
   || (8192 <=? c) && (c <=? 8202)
   || (c =? 8232) || (c =? 8233) || (c =? 8239) || (c =? 8287)
   || (c =? 12288))%N.

Fixpoint dropwhile (f : char -> bool) (s : str) : str :=
  match s with
  | [] => []
  | c :: s' => if f c then dropwhile f s' else s
  end.

Definition lstrip (s : str) : str := dropwhile isspace s.
Definition rstrip (s : str) : str := rev (dropwhile isspace (rev s)).

(** [s.strip()]: the slice between the first and the last character that is
    not white space. *)
Definition strip (s : str) : str := rstrip (lstrip s).

(** [s.startswith(p)]. *)
Fixpoint startswith (p s : str) : bool :=
  match p, s with
  | [], _ => true
  | _ :: _, [] => false
  | a :: p', b :: s' => N.eqb a b && startswith p' s'
  end.

(** [p in s]. *)
Fixpoint contains (p s : str) : bool :=
  startswith p s ||
  match s with
  | [] => false
  | _ :: s' => contains p s'
  end.

(** The scan of [str.replace] for a pattern that is not empty: occurrences
    are found from the left and do not overlap; [skip] counts the characters
    of the current occurrence still to be passed over. *)
Fixpoint replace_from (old new : str) (skip : nat) (s : str) : str :=
  match s with
  | [] => []
  | c :: s' =>
      match skip with
      | S k => replace_from old new k s'
      | O =>
          if startswith old s
          then new ++ replace_from old new (length old - 1) s'
          else c :: replace_from old new 0 s'
      end
  end.

(** [s.replace(old, new)]; an empty [old] matches before every character and
    at the end. *)
Definition str_replace (old new s : str) : str :=
  match old with
  | [] => new ++ flat_map (fun c => c :: new) s
  | _ :: _ => replace_from old new 0 s
  end.

(** [s.endswith(p)]. *)
Definition endswith (p s : str) : bool := startswith (rev p) (rev s).

(** [sep.join(parts)]. *)
Fixpoint join (sep : str) (parts : list str) : str :=
  match parts with
  | [] => []
  | [p] => p
  | p :: rest => p ++ sep ++ join sep rest
  end.

(** [str(n)] for a natural number. *)
Definition str_of_nat (n : nat) : str :=
  py (DecimalString.NilZero.string_of_uint (Nat.to_uint n)).

End PyStr.
Import PyStr.

(* ------------------------------------------------------------------ *)
(** * Exceptions *)

(** A raised Python exception, with the text [str(e)] gives for it. *)
Inductive exc_class :=
| JSONDecodeErrorT | ValueErrorT | OtherErrorT.

Record exception := Exception { exc_type : exc_class; exc_str : str }.

Inductive result (A : Type) :=
| Ok (v : A)
| Raise (e : exception).
Arguments Ok {A} v.
Arguments Raise {A} e.

(* ------------------------------------------------------------------ *)
(** * The [json] decoder *)

(** [json.loads] on a [str], after CPython's decoder ([json/decoder.py] with
    the scanner of [_json.c], versions up to 3.12): strict strings, the
    constants [NaN], [Infinity] and [-Infinity] accepted, no hooks.  A float
    is kept as its lexeme.  The limits of the interpreter (the recursion
    limit, the longest integer literal [int] converts) are not modelled. *)
Module Json.

#[warning="-register-all"]
Inductive json :=
| JNull
| JBool (b : bool)
| JInt (i : Z)
| JFloat (lexeme : str)
| JStr (s : str)
| JArray (items : list json)
| JObject (d : list (str * json)).

(** A [dict] keeps its keys in insertion order; [d[k] = v] on a key that is
    present replaces the value where the key stands. *)
Fixpoint dict_set (A : Type) (d : list (str * A)) (k : str) (v : A)
  : list (str * A) :=
  match d with
  | [] => [(k, v)]
  | (k', v') :: d' =>
      if str_eqb k' k then (k', v) :: d' else (k', v') :: dict_set d' k v
  end.

Fixpoint dict_get (A : Type) (d : list (str * A)) (k : str) : option A :=
  match d with
  | [] => None
  | (k', v) :: d' => if str_eqb k' k then Some v else dict_get d' k
  end.

Definition dict_keys (A : Type) (d : list (str * A)) : list str := map fst d.

(** What a scanning function gives: a value with the rest of the text and
    its index, [StopIteration(idx)], or [JSONDecodeError(msg, doc, pos)]. *)
Inductive scan (A : Type) :=
| Scanned (v : A) (rest : str) (pos : nat)
| StopIteration (pos : nat)
| DecodeError (msg : str) (pos : nat)
| OutOfFuel.
Arguments Scanned {A} v rest pos.
Arguments StopIteration {A} pos.
Arguments DecodeError {A} msg pos.
Arguments OutOfFuel {A}.

Definition scan_map (A B : Type) (f : A -> B) (r : scan A) : scan B :=
  match r with
  | Scanned v rest pos => Scanned (f v) rest pos
  | StopIteration pos => StopIteration pos
  | DecodeError msg pos => DecodeError msg pos
  | OutOfFuel => OutOfFuel
  end.

Definition is_ws (c : char) : bool :=
  ((c =? 32) || (c =? 9) || (c =? 10) || (c =? 13))%N.

Fixpoint skip_ws (s : str) (pos : nat) : str * nat :=
  match s with
  | [] => ([], pos)
  | c :: r => if is_ws c then skip_ws r (S pos) else (s, pos)
  end.

Definition is_digit (c : char) : bool := ((48 <=? c) && (c <=? 57))%N.

Fixpoint span_digits (s : str) : str * str :=
  match s with
  | [] => ([], [])
  | c :: r =>
      if is_digit c
      then let (ds, rest) := span_digits r in (c :: ds, rest)
      else ([], s)
  end.

Definition hex_digit (c : char) : option N :=
  (if (48 <=? c) && (c <=? 57) then Some (c - 48)
   else if (97 <=? c) && (c <=? 102) then Some (c - 87)
   else if (65 <=? c) && (c <=? 70) then Some (c - 55)
   else None)%N.

Definition hex4 (a b c d : char) : option N :=
  match hex_digit a, hex_digit b, hex_digit c, hex_digit d with
  | Some x, Some y, Some z, Some w =>
      Some (N.lor (N.shiftl (N.lor (N.shiftl (N.lor (N.shiftl x 4) y) 4) z) 4) w)
  | _, _, _, _ => None
  end.

Definition is_high_surrogate (u : N) : bool := ((55296 <=? u) && (u <=? 56319))%N.
Definition is_low_surrogate (u : N) : bool := ((56320 <=? u) && (u <=? 57343))%N.
Definition join_surrogates (u u2 : N) : N :=
  (65536 + N.lor (N.shiftl (u - 55296) 10) (u2 - 56320))%N.

(** The escapes of one character after a backslash. *)
Definition backslash (c : char) : option char :=
  (if c =? 34 then Some 34 else if c =? 92 then Some 92
   else if c =? 47 then Some 47 else if c =? 98 then Some 8
   else if c =? 102 then Some 12 else if c =? 110 then Some 10
   else if c =? 114 then Some 13 else if c =? 116 then Some 9
   else None)%N.

Definition scan_cons (c : char) (r : scan str) : scan str :=
  scan_map (cons c) r.

(** [scanstring(s, end)]: [s] is the text after the opening quote, [pos] its
    index and [begin] the index of the opening quote. *)
Fixpoint scanstring (s : str) (pos begin : nat) : scan str :=
  match s with
  | [] => DecodeError (py "Unterminated string starting at") begin
  | c :: r =>
      if (c =? 34)%N then Scanned [] r (S pos)
      else if (c =? 92)%N then
        match r with
        | [] => DecodeError (py "Unterminated string starting at") begin
        | e :: r1 =>
            if (e =? 117)%N then
              match r1 with
              | h1 :: h2 :: h3 :: h4 :: ((_ :: _) as r2) =>
                  match hex4 h1 h2 h3 h4 with
                  | None => DecodeError (py "Invalid \uXXXX escape") (S pos)
                  | Some u =>
                      match r2 with
                      | 92%N :: 117%N :: g1 :: g2 :: g3 :: g4 :: ((_ :: _) as r3) =>
                          if is_high_surrogate u then
                            match hex4 g1 g2 g3 g4 with
                            | None =>
                                DecodeError (py "Invalid \uXXXX escape") (pos + 7)
                            | Some u2 =>
                                if is_low_surrogate u2
                                then scan_cons (join_surrogates u u2)
                                       (scanstring r3 (pos + 12) begin)
                                else scan_cons u (scanstring r2 (pos + 6) begin)
                            end
                          else scan_cons u (scanstring r2 (pos + 6) begin)
                      | _ => scan_cons u (scanstring r2 (pos + 6) begin)
                      end
                  end
              | _ => DecodeError (py "Invalid \uXXXX escape") (S pos)
              end
            else
              match backslash e with
              | Some c' => scan_cons c' (scanstring r1 (pos + 2) begin)
              | None => DecodeError (py "Invalid \escape") pos
              end
        end
      else if (c <=? 31)%N then
        DecodeError (py "Invalid control character at") pos
      else scan_cons c (scanstring r (S pos) begin)
  end.

Fixpoint int_of_digits (acc : Z) (ds : str) : Z :=
  match ds with
  | [] => acc
  | c :: r => int_of_digits (10 * acc + Z.of_N (c - 48)) r
  end.

(** [int(lexeme)] for an optional minus sign and digits. *)
Definition parse_int (lexeme : str) : Z :=
  match lexeme with
  | 45%N :: ds => (- int_of_digits 0 ds)%Z
  | _ => int_of_digits 0 lexeme
  end.

(** The number at the start of [s]: an optional minus sign, then 0 or a
    digit from 1 to 9 with more digits; then, if present, a point with one
    digit or more; then, if present, e or E, an optional sign and one digit
    or more. *)
Definition match_number (s : str) : option (json * str) :=
  let (sign, s1) :=
    match s with
    | 45%N :: r => ([45%N], r)
    | _ => ([], s)
    end in
  let integer :=
    match s1 with
    | [] => None
    | c :: r =>
        if (c =? 48)%N then Some (sign ++ [c], r)
        else if is_digit c
        then let (ds, rest) := span_digits r in Some (sign ++ c :: ds, rest)
        else None
    end in
  match integer with
  | None => None
  | Some (int, s2) =>
      let (frac, s3) :=
        match s2 with
        | 46%N :: d :: r =>
            if is_digit d
            then let (ds, rest) := span_digits r in (46%N :: d :: ds, rest)
            else ([], s2)
        | _ => ([], s2)
        end in
      let (exp, s4) :=
        match s3 with
        | e :: r =>
            if ((e =? 101) || (e =? 69))%N then
              let (sgn, r1) :=
                match r with
                | g :: r' =>
                    if ((g =? 43) || (g =? 45))%N then ([g], r') else ([], r)
                | [] => ([], r)
                end in
              match span_digits r1 with
              | ([], _) => ([], s3)
              | (ds, rest) => (e :: sgn ++ ds, rest)
              end
            else ([], s3)
        | [] => ([], s3)
        end in
      match frac, exp with
      | [], [] => Some (JInt (parse_int int), s4)
      | _, _ => Some (JFloat (int ++ frac ++ exp), s4)
      end
  end.

(** [scan_once], with the loops of [_parse_array] and [_parse_object].
    [fuel] bounds the calls still allowed; [json_loads] gives enough of it
    for the whole text. *)
Fixpoint scan_once (fuel : nat) (s : str) (pos : nat) {struct fuel} : scan json :=
  match fuel with
  | O => OutOfFuel
  | S fuel' =>
      match s with
      | [] => StopIteration pos
      | c :: r =>
          if (c =? 34)%N then scan_map JStr (scanstring r (S pos) pos)
          else if (c =? 123)%N then
            let (s1, p1) := skip_ws r (S pos) in
            match s1 with
            | 125%N :: r1 => Scanned (JObject []) r1 (S p1)
            | _ => parse_object_items fuel' [] s1 p1
            end
          else if (c =? 91)%N then
            let (s1, p1) := skip_ws r (S pos) in
            match s1 with
            | 93%N :: r1 => Scanned (JArray []) r1 (S p1)
            | _ => parse_array_items fuel' [] s1 p1
            end
          else if startswith (py "null") s then Scanned JNull (skipn 4 s) (pos + 4)
          else if startswith (py "true") s
          then Scanned (JBool true) (skipn 4 s) (pos + 4)
          else if startswith (py "false") s
          then Scanned (JBool false) (skipn 5 s) (pos + 5)
          else if startswith (py "NaN") s
          then Scanned (JFloat (py "NaN")) (skipn 3 s) (pos + 3)
          else if startswith (py "Infinity") s
          then Scanned (JFloat (py "Infinity")) (skipn 8 s) (pos + 8)
          else if startswith (py "-Infinity") s
          then Scanned (JFloat (py "-Infinity")) (skipn 9 s) (pos + 9)
          else
            match match_number s with
            | Some (v, rest) => Scanned v rest (pos + (length s - length rest))
            | None => StopIteration pos
            end
      end
  end

with parse_array_items (fuel : nat) (acc : list json) (s : str) (pos : nat)
  {struct fuel} : scan json :=
  match fuel with
  | O => OutOfFuel
  | S fuel' =>
      match scan_once fuel' s pos with
      | Scanned v r p =>
          let (s1, p1) := skip_ws r p in
          match s1 with
          | 93%N :: r1 => Scanned (JArray (rev (v :: acc))) r1 (S p1)
          | 44%N :: r1 =>
              let (s2, p2) := skip_ws r1 (S p1) in
              parse_array_items fuel' (v :: acc) s2 p2
          | _ => DecodeError (py "Expecting ',' delimiter") p1
          end
      | other => other
      end
  end

with parse_object_items (fuel : nat) (d : list (str * json)) (s : str)
  (pos : nat) {struct fuel} : scan json :=
  match fuel with
  | O => OutOfFuel
  | S fuel' =>
      match s with
      | 34%N :: r =>
          match scanstring r (S pos) pos with
          | Scanned key r0 p0 =>
              let (s1, p1) := skip_ws r0 p0 in
              match s1 with
              | 58%N :: r1 =>
                  let (s2, p2) := skip_ws r1 (S p1) in
                  match scan_once fuel' s2 p2 with
                  | Scanned v r3 p3 =>
                      let d' := dict_set d key v in
                      let (s4, p4) := skip_ws r3 p3 in
                      match s4 with
                      | 125%N :: r5 => Scanned (JObject d') r5 (S p4)
                      | 44%N :: r5 =>
                          let (s6, p6) := skip_ws r5 (S p4) in
                          parse_object_items fuel' d' s6 p6
                      | _ => DecodeError (py "Expecting ',' delimiter") p4
                      end
                  | other => other
                  end
              | _ => DecodeError (py "Expecting ':' delimiter") p1
              end
          | StopIteration p => StopIteration p
          | DecodeError msg p => DecodeError msg p
          | OutOfFuel => OutOfFuel
          end
      | _ =>
          DecodeError
            (py "Expecting property name enclosed in double quotes") pos
      end
  end.

Fixpoint count_char (c : char) (s : str) : nat :=
  match s with
  | [] => 0
  | x :: r => (if N.eqb x c then 1 else 0) + count_char c r
  end.

(** [s.rfind(c)]: the highest index of [c] in [s]. *)
Fixpoint rfind_char (c : char) (s : str) : option nat :=
  match s with
  | [] => None
  | x :: r =>
      match rfind_char c r with
      | Some i => Some (S i)
      | None => if N.eqb x c then Some 0 else None
      end
  end.

(** [str(JSONDecodeError(msg, doc, pos))]. *)
Definition decode_error_str (msg doc : str) (pos : nat) : str :=
  let before := firstn pos doc in
  let lineno := count_char LF before + 1 in
  let colno :=
    match rfind_char LF before with
    | Some i => pos - i
    | None => pos + 1
    end in
  msg ++ py ": line " ++ str_of_nat lineno ++ py " column " ++ str_of_nat colno
      ++ py " (char " ++ str_of_nat pos ++ py ")".

Definition JSONDecodeError (msg doc : str) (pos : nat) : exception :=
  Exception JSONDecodeErrorT (decode_error_str msg doc pos).

Definition BOM : char := 65279%N.

(** [json.loads(s)].  The fuel given is never used up ([json_loads_total]
    below), so the last case does not arise. *)
Definition json_loads (s : str) : result json :=
  if startswith [BOM] s
  then Raise (JSONDecodeError
                (py "Unexpected UTF-8 BOM (decode using utf-8-sig)") s 0)
  else
    let (s0, p0) := skip_ws s 0 in
    match scan_once (2 * length s + 2) s0 p0 with
    | Scanned obj rest p =>
        match skip_ws rest p with
        | ([], _) => Ok obj
        | (_ :: _, e) => Raise (JSONDecodeError (py "Extra data") s e)
        end
    | StopIteration p => Raise (JSONDecodeError (py "Expecting value") s p)
    | DecodeError msg p => Raise (JSONDecodeError msg s p)
    | OutOfFuel =>
        Raise (Exception OtherErrorT (py "maximum recursion depth exceeded"))
    end.

End Json.
Import Json.

(* ------------------------------------------------------------------ *)
(** * [pandas.DataFrame] from records *)

Module Pandas.

(** A cell holds a value, or [NaN] where there is none. *)
Inductive cell :=
| Val (v : json)
| NaN.

(** The column labels in order and the rows in order (the index is the
    default [RangeIndex]); a row has one cell per column. *)
Record DataFrame := { columns : list str; rows : list (list cell) }.

(** [pd.DataFrame()]. *)
Definition empty_frame : DataFrame := {| columns := []; rows := [] |}.

(** [df.empty]: some axis has length 0. *)
Definition empty (df : DataFrame) : bool :=
  (length (columns df) =? 0) || (length (rows df) =? 0).

Definition str_in (k : str) (l : list str) : bool := existsb (str_eqb k) l.

(** [lib.fast_unique_multiple_list_gen(gen, sort=False)]: every value not
    seen before is appended to [uniques]. *)
Definition append_unseen (uniques : list str) (val : str) : list str :=
  if str_in val uniques then uniques else uniques ++ [val].

Definition fast_unique_multiple_list_gen (gen : list (list str)) : list str :=
  fold_left (fun uniques buf => fold_left append_unseen buf uniques) gen [].

(** [lib.dicts_to_array(dicts, columns)]. *)
Definition dicts_to_array (dicts : list (list (str * json)))
  (columns : list str) : list (list cell) :=
  map (fun row =>
         map (fun col =>
                match dict_get row col with
                | Some v => Val v
                | None => NaN
                end)
             columns)
      dicts.

(** A column of the array of objects ([content.T]): the cells of the records
    for one label. *)
Definition column_array (dicts : list (list (str * json))) (col : str)
  : list cell :=
  map (fun row =>
         match dict_get row col with
         | Some v => Val v
         | None => NaN
         end)
      dicts.

(** What the dtype of a column does to a cell: a value is cast, and a cell
    without a value stays without one. *)
Definition apply_cast (cast : json -> cell) (c : cell) : cell :=
  match c with
  | Val v => cast v
  | NaN => NaN
  end.

(** [convert_object_array]: the columns are converted one after the other.
    [infer] stands for the conversion of one column of objects (the dtype
    inference of [maybe_convert_objects] and of the string arrays): it gives
    the cast that the dtype found for the column applies to each of its
    values, or raises. *)
Fixpoint convert_columns (infer : list cell -> result (json -> cell))
  (arrays : list (list cell)) : result (list (json -> cell)) :=
  match arrays with
  | [] => Ok []
  | arr :: rest =>
      match infer arr with
      | Raise e => Raise e
      | Ok cast =>
          match convert_columns infer rest with
          | Raise e => Raise e
          | Ok casts => Ok (cast :: casts)
          end
      end
  end.

(** [_list_of_dict_to_arrays] with no columns given, the conversion of its
    columns, and the frame built from the converted arrays.  [ensure_index]
    stands for the construction of the [Index] of the labels: the index holds
    the labels it is given, in their order, or its construction raises. *)
Definition from_records (ensure_index : list str -> result unit)
  (infer : list cell -> result (json -> cell))
  (data : list (list (str * json))) : result DataFrame :=
  let pre_cols := fast_unique_multiple_list_gen (map (@dict_keys json) data) in
  match ensure_index pre_cols with
  | Raise e => Raise e
  | Ok _ =>
      let columns := pre_cols in
      let content := dicts_to_array data columns in
      match convert_columns infer (map (column_array data) columns) with
      | Raise e => Raise e
      | Ok casts =>
          Ok {| columns := columns;
                rows := map (fun row =>
                               map (fun cc => apply_cast (fst cc) (snd cc))
                                   (combine casts row))
                            content |}
      end
  end.

Fixpoint all_dicts (items : list json) : option (list (list (str * json))) :=
  match items with
  | [] => Some []
  | JObject d :: rest =>
      match all_dicts rest with
      | Some ds => Some (d :: ds)
      | None => None
      end
  | _ :: _ => None
  end.

(** [pd.DataFrame(data)] for what [json.loads] returned: an empty list gives
    the empty frame and a list of dicts the frame of these records, if the
    index of their labels can be built and their columns can be converted;
    what the constructor does with any other value is left to [other]. *)
Definition pd_DataFrame (ensure_index : list str -> result unit)
  (infer : list cell -> result (json -> cell))
  (other : json -> result DataFrame) (data : json) : result DataFrame :=
  match data with
  | JArray [] => Ok empty_frame
  | JArray ((JObject _ :: _) as items) =>
      match all_dicts items with
      | Some records => from_records ensure_index infer records
      | None => other data
      end
  | _ => other data
  end.

End Pandas.
Import Pandas.

(* ------------------------------------------------------------------ *)
(** * BeautifulSoup's [get_text] *)

(** The tree of a parsed page and [get_text] on its root, after bs4 4.9 and
    later, where the strings inside script, style and template tags have
    classes of their own. *)
Module Bs4.

Inductive string_class :=
| NavigableString | CData | Comment | Declaration | Doctype
| ProcessingInstruction | Script | Stylesheet | TemplateString
| RubyTextString | RubyParenthesisString.

#[warning="-register-all"]
Inductive element :=
| Str (cls : string_class) (text : str)
| Tag (name : str) (children : list element).

(** [tag.descendants]: the elements below a tag, in document order. *)
Fixpoint self_and_descendants (e : element) : list element :=
  e :: match e with
       | Str _ _ => []
       | Tag _ children => flat_map self_and_descendants children
       end.

Definition descendants (children : list element) : list element :=
  flat_map self_and_descendants children.

(** [interesting_string_types] of the [BeautifulSoup] object:
    [(NavigableString, CData)]. *)
Definition interesting (cls : string_class) : bool :=
  match cls with
  | NavigableString | CData => true
  | _ => false
  end.

(** [_all_strings(strip, types=default)]. *)
Fixpoint all_strings (strip_each : bool) (ds : list element) : list str :=
  match ds with
  | [] => []
  | Tag _ _ :: rest => all_strings strip_each rest
  | Str cls text :: rest =>
      if interesting cls then
        let text' := if strip_each then strip text else text in
        if strip_each && (length text' =? 0)
        then all_strings strip_each rest
        else text' :: all_strings strip_each rest
      else all_strings strip_each rest
  end.

(** [soup.get_text(separator, strip)]. *)
Definition get_text (separator : str) (strip_each : bool)
  (soup : list element) : str :=
  join separator (all_strings strip_each (descendants soup)).

End Bs4.
Import Bs4.

(* ------------------------------------------------------------------ *)
(** * The application *)

Module App.

Definition bytes := list N.

(** A decoded image, as PIL holds it. *)
Record Image := { pixels : bytes }.

(** A part of a request to the model: text or an image. *)
Inductive part :=
| TextPart (s : str)
| ImagePart (img : Image).

(** What [requests.get] gives: a response, whatever its status code, or an
    exception. *)
Record Response := { status_code : N; content : bytes }.

(** The collaborators outside the program: the model behind
    [model.generate_content(...).text], [requests.get], the html parser
    behind [BeautifulSoup(_, 'html.parser')], the construction of the index
    of the labels of a [DataFrame] and the conversion of one of its columns
    to its dtype, the [DataFrame] constructor on values that are not lists
    of records, the file readers and [Image.open]. *)
Record externals := {
  generate_content : list part -> result str;
  requests_get : str -> result Response;
  html_parser : bytes -> result (list element);
  ensure_index : list str -> result unit;
  infer_dtype : list cell -> result (json -> cell);
  DataFrame_other : json -> result DataFrame;
  read_csv : bytes -> result DataFrame;
  read_excel : bytes -> result DataFrame;
  Image_open : bytes -> result Image
}.

(** What the run shows or sends, in order. *)
Inductive event :=
| st_error (msg : str)
| sent (request : list part).

Definition bind (A B : Type) (r : result A) (f : A -> result B) : result B :=
  match r with
  | Ok v => f v
  | Raise e => Raise e
  end.

Notation "x <- r ;; k" := (bind r (fun x => k))
  (at level 61, r at next level, right associativity).

(** ** API setup *)

Definition GOOGLE_API_KEY : str := py "GOOGLE_API_KEY".

(** [st.secrets[key]]: [FileNotFoundError] without a secrets file ([None]),
    [KeyError] without the key. *)
Definition secrets_getitem (secrets : option (list (str * str))) (key : str)
  : result str :=
  match secrets with
  | None => Raise (Exception OtherErrorT (py "No secrets files found."))
  | Some d =>
      match dict_get d key with
      | Some v => Ok v
      | None => Raise (Exception OtherErrorT key)
      end
  end.

(** [os.getenv(key)]. *)
Definition os_getenv (environ : list (str * str)) (key : str) : option str :=
  dict_get environ key.

(** Lines 56 to 59: the key of the secrets store, or else of the
    environment. *)
Definition api_key (secrets : option (list (str * str)))
  (environ : list (str * str)) : option str :=
  match secrets_getitem secrets GOOGLE_API_KEY with
  | Ok v => Some v
  | Raise _ => os_getenv environ GOOGLE_API_KEY
  end.

(** [not api_key]: true for [None] and for the empty string. *)
Definition not_ (k : option str) : bool :=
  match k with
  | None | Some [] => true
  | Some (_ :: _) => false
  end.

Inductive startup :=
| Stopped (shown : list event)
| Configured (key : option str).

Definition API_KEY_MISSING : str :=
  [9888%N; 65039%N] ++ py " System Error: API Key missing.".

(** Lines 61 to 65. *)
Definition api_setup (secrets : option (list (str * str)))
  (environ : list (str * str)) : startup :=
  let key := api_key secrets environ in
  if not_ key then Stopped [st_error API_KEY_MISSING] else Configured key.

(** ** Helper functions *)

Definition FENCE_JSON : str := py "```json".
Definition FENCE : str := py "```".

(** [clean_json_string]: strip markdown code blocks from the reply. *)
Definition clean_json_string (text : str) : str :=
  strip (str_replace FENCE [] (str_replace FENCE_JSON [] text)).

Definition system_prompt : str :=
  [LF] ++ py "    You are a Data Extraction Engine. " ++
  [LF] ++ py "    Analyze the provided input and extract structured data." ++
  [LF] ++ py "    Output ONLY valid JSON. " ++
  [LF] ++ pyq "    Format: [{'Column1': 'Value', 'Column2': 10, ...}]" ++
  [LF] ++ py "    If dates exist, format as YYYY-MM-DD." ++
  [LF] ++ py "    Ensure numeric fields are numbers, not strings." ++
  [LF] ++ py "    ".

(** The request [gemini_data_extractor] sends. *)
Definition request_of (prompt : str) (content : part) : list part :=
  [TextPart system_prompt; TextPart prompt; content].

(** Lines 96 to 98: the reply cleaned, decoded and made a frame. *)
Definition normalize (X : externals) (text : str) : result DataFrame :=
  data <- json_loads (clean_json_string text) ;;
  pd_DataFrame (ensure_index X) (infer_dtype X) (DataFrame_other X) data.

(** The body of the [try] of [gemini_data_extractor]. *)
Definition extract (X : externals) (prompt : str) (content : part)
  : result DataFrame :=
  text <- generate_content X (request_of prompt content) ;;
  normalize X text.

(** [gemini_data_extractor]: the frame returned and what the call sent and
    showed. *)
Definition gemini_data_extractor (X : externals) (prompt : str)
  (content : part) : DataFrame * list event :=
  match extract X prompt content with
  | Ok df => (df, [sent (request_of prompt content)])
  | Raise e =>
      (empty_frame,
       [sent (request_of prompt content);
        st_error (py "AI Extraction Failed: " ++ exc_str e)])
  end.

#[warning="-abstract-large-number"]
Definition TEXT_LIMIT : nat := 10000.

(** [scrape_url]. *)
Definition scrape_url (X : externals) (url : str) : str :=
  match (page <- requests_get X url ;;
         soup <- html_parser X (content page) ;;
         Ok (firstn TEXT_LIMIT (get_text (py " ") true soup))) with
  | Ok text => text
  | Raise e => py "Error scraping URL: " ++ exc_str e
  end.

(** ** Sidebar *)

Record UploadedFile := { name : str; data : bytes }.

(** The widgets of the sidebar as the user left them. *)
Inductive sidebar_input :=
| UploadFile (uploaded_file : option UploadedFile)
| ImageAnalysis (uploaded_file : option UploadedFile) (button : bool)
| WebsiteURL (url : str) (button : bool)
| VideoIntelligence.

Definition IMAGE_PROMPT : str :=
  py "Extract all tabular data visible in this image. Focus on items, quantities, prices, categories, or dates.".

Definition URL_PROMPT : str :=
  py "Analyze this website text. Extract any lists, tables, or product data into a structured JSON.".

(** Lines 120 to 150: [df] after the sidebar, or the exception that no
    handler caught, with what was sent and shown. *)
Definition sidebar (X : externals) (input : sidebar_input)
  : result (option DataFrame) * list event :=
  match input with
  | UploadFile None => (Ok None, [])
  | UploadFile (Some f) =>
      if endswith (py ".csv") (name f)
      then (df <- read_csv X (data f) ;; Ok (Some df), [])
      else (df <- read_excel X (data f) ;; Ok (Some df), [])
  | ImageAnalysis (Some f) true =>
      match Image_open X (data f) with
      | Ok img =>
          let (df, events) :=
            gemini_data_extractor X IMAGE_PROMPT (ImagePart img) in
          (Ok (Some df), events)
      | Raise e => (Raise e, [])
      end
  | ImageAnalysis _ _ => (Ok None, [])
  | WebsiteURL ((_ :: _) as url) true =>
      let raw_text := scrape_url X url in
      let (df, events) :=
        gemini_data_extractor X URL_PROMPT (TextPart raw_text) in
      (Ok (Some df), events)
  | WebsiteURL _ _ => (Ok None, [])
  | VideoIntelligence => (Ok None, [])
  end.

(** ** Main dashboard *)

Inductive view :=
| Dashboard (df : DataFrame)
| Landing.

(** Line 158: [if df is not None and not df.empty]. *)
Definition main_dashboard (df : option DataFrame) : view :=
  match df with
  | Some d => if negb (empty d) then Dashboard d else Landing
  | None => Landing
  end.

(** ** The script from top to bottom *)

Inductive run_end :=
| StoppedAtStartup
| Uncaught (e : exception)
| Shown (v : view).

(** One run of the script up to the guard of line 158: the API setup, the
    sidebar, and the branch of the main area the run enters.  [Shown v] says
    which branch that is; what the dashboard branch then does (lines 160 to
    237), where an exception can still end the run, is [dashboard] below,
    and [page] is the run from top to bottom. *)
Definition script (secrets : option (list (str * str)))
  (environ : list (str * str)) (X : externals) (input : sidebar_input)
  : run_end * list event :=
  match api_setup secrets environ with
  | Stopped shown => (StoppedAtStartup, shown)
  | Configured _ =>
      match sidebar X input with
      | (Ok df, events) => (Shown (main_dashboard df), events)
      | (Raise e, events) => (Uncaught e, events)
      end
  end.

End App.
Import App.

(* ------------------------------------------------------------------ *)
(** * Vocabulary of the specification *)

Module Spec.

(** A reply wrapped in a markdown code fence: the opening fence on a line of
    its own, the reply, the closing fence on a line of its own. *)
Definition wrap (opening reply : str) : str :=
  opening ++ [LF] ++ reply ++ [LF] ++ FENCE.

(** The model behind [X] answering [reply] to every request. *)
Definition with_reply (X : externals) (reply : result str) : externals :=
  {| generate_content := fun _ => reply;
     requests_get := requests_get X;
     html_parser := html_parser X;
     ensure_index := ensure_index X;
     infer_dtype := infer_dtype X;
     DataFrame_other := DataFrame_other X;
     read_csv := read_csv X;
     read_excel := read_excel X;
     Image_open := Image_open X |}.

(** What [gemini_data_extractor] does with the reply [text]. *)
Definition outcome_of (X : externals) (prompt : str) (content : part)
  (text : str) : DataFrame * list event :=
  match normalize X text with
  | Ok df => (df, [sent (request_of prompt content)])
  | Raise e =>
      (empty_frame,
       [sent (request_of prompt content);
        st_error (py "AI Extraction Failed: " ++ exc_str e)])
  end.

(** The keys of a sequence in first-seen order: every key where it occurs
    first. *)
Fixpoint first_seen (keys : list str) : list str :=
  match keys with
  | [] => []
  | k :: rest => k :: filter (fun x => negb (str_eqb x k)) (first_seen rest)
  end.

Definition same_keys (d d' : list (str * json)) : Prop :=
  forall k, In k (dict_keys d) <-> In k (dict_keys d').

(** A scalar: a string, a number, a boolean or null. *)
Definition scalar (v : json) : bool :=
  match v with
  | JArray _ | JObject _ => false
  | _ => true
  end.

(** A flat object: every value is a scalar. *)
Definition flat (d : list (str * json)) : bool :=
  forallb (fun kv => scalar (snd kv)) d.

(** A value as a [dict]-based decoder builds it: no key twice in an
    object. *)
Fixpoint well_formed (v : json) : Prop :=
  match v with
  | JArray items => fold_right (fun x P => well_formed x /\ P) True items
  | JObject d =>
      NoDup (map fst d) /\
      fold_right (fun kv P => well_formed (snd kv) /\ P) True d
  | _ => True
  end.

Definition wf_items (l : list json) : Prop :=
  fold_right (fun x P => well_formed x /\ P) True l.

Definition wf_values (d : list (str * json)) : Prop :=
  fold_right (fun kv P => well_formed (snd kv) /\ P) True d.


(** The strings of a page that count as text, in document order. *)
Fixpoint visible_strings (e : element) : list str :=
  match e with
  | Str NavigableString text | Str CData text => [text]
  | Str _ _ => []
  | Tag _ children => flat_map visible_strings children
  end.


(** The pieces of some strings: each without the white space around it,
    the empty ones left out. *)
Definition pieces (l : list str) : list str :=
  filter (fun t => negb (length t =? 0)) (map strip l).

(** The pieces of text of a page: those of its visible strings. *)
Definition visible_pieces (soup : list element) : list str :=
  pieces (flat_map visible_strings soup).

(** An error description as [scrape_url] writes it. *)
Definition error_description (text : str) : bool :=
  startswith (py "Error scraping URL: ") text.

(** A response that reports an HTTP failure: a 4xx or 5xx status. *)
Definition http_failure (r : Response) : bool := (400 <=? status_code r)%N.

(** The key is absent from the secrets store and from the environment. *)
Definition absent_from_both (secrets : option (list (str * str)))
  (environ : list (str * str)) : Prop :=
  (secrets = None \/
   exists d, secrets = Some d /\ dict_get d GOOGLE_API_KEY = None) /\
  os_getenv environ GOOGLE_API_KEY = None.

(** The cell of a record for a column. *)
Definition cell_of (d : list (str * json)) (col : str) : cell :=
  match dict_get d col with
  | Some v => Val v
  | None => NaN
  end.

(** The labels of the records: their keys in first-seen order. *)
Definition labels (objs : list (list (str * json))) : list str :=
  first_seen (concat (map (@dict_keys json) objs)).

(** The [DataFrame] constructor returns a frame for the records: there is
    none, or the index of their labels is built and every column is
    converted. *)
Definition constructor_accepts (X : externals)
  (objs : list (list (str * json))) : Prop :=
  objs = [] \/
  (ensure_index X (labels objs) = Ok tt /\
   forall col, In col (labels objs) ->
     exists cast, infer_dtype X (column_array objs col) = Ok cast).

(** The [DataFrame] constructor raises [e] for the records: the construction
    of the index of their labels does, or the conversion of a column. *)
Definition constructor_raises (X : externals)
  (objs : list (list (str * json))) (e : exception) : Prop :=
  objs <> [] /\
  (ensure_index X (labels objs) = Raise e \/
   exists col, In col (labels objs) /\
               infer_dtype X (column_array objs col) = Raise e).




(** ** Collaborators for the examples *)

(** Nothing outside answers: the model and the network raise; pandas keeps
    the values of records as the objects they are and refuses what is not a
    list of records. *)
Definition offline : externals :=
  {| generate_content := fun _ => Raise (Exception OtherErrorT (py "offline"));
     requests_get := fun _ => Raise (Exception OtherErrorT (py "unreachable"));
     html_parser := fun _ => Ok [];
     ensure_index := fun _ => Ok tt;
     infer_dtype := fun _ => Ok Val;
     DataFrame_other := fun _ =>
       Raise (Exception ValueErrorT
                (py "DataFrame constructor not properly called!"));
     read_csv := fun _ => Ok empty_frame;
     read_excel := fun _ => Ok empty_frame;
     Image_open := fun b => Ok {| pixels := b |} |}.

(** A site that answers every request with [status] and [body], parsed as
    [tree]. *)
Definition site (status : N) (body : bytes) (tree : list element)
  : externals :=
  {| generate_content := generate_content offline;
     requests_get := fun _ => Ok {| status_code := status; content := body |};
     html_parser := fun _ => Ok tree;
     ensure_index := ensure_index offline;
     infer_dtype := infer_dtype offline;
     DataFrame_other := DataFrame_other offline;
     read_csv := read_csv offline;
     read_excel := read_excel offline;
     Image_open := Image_open offline |}.

(** A code point that UTF-8 does not encode. *)
Definition is_surrogate (c : char) : bool :=
  ((55296 <=? c) && (c <=? 57343))%N.

Fixpoint find_surrogate (s : str) (pos : nat) : option (nat * char) :=
  match s with
  | [] => None
  | c :: rest =>
      if is_surrogate c then Some (pos, c) else find_surrogate rest (S pos)
  end.

Definition hex_char (d : N) : char :=
  (if d <? 10 then 48 + d else 87 + d)%N.

Definition hex4_of (c : N) : str :=
  [hex_char (c / 4096); hex_char ((c / 256) mod 16);
   hex_char ((c / 16) mod 16); hex_char (c mod 16)]%N.

(** The [UnicodeEncodeError] for the surrogate [c] at index [pos] of a
    string, with the text of the codec: that the character cannot be
    encoded, its escape, its position, and that surrogates are not
    allowed. *)
Definition surrogates_not_allowed (c : char) (pos : nat) : exception :=
  Exception OtherErrorT
    (py "'utf-8' codec can't encode character '\u" ++ hex4_of c
     ++ py "' in position " ++ str_of_nat pos
     ++ py ": surrogates not allowed").

Fixpoint first_unencodable (column : list cell) : option exception :=
  match column with
  | [] => None
  | Val (JStr s) :: rest =>
      match find_surrogate s 0 with
      | Some (pos, c) => Some (surrogates_not_allowed c pos)
      | None => first_unencodable rest
      end
  | _ :: rest => first_unencodable rest
  end.

(** The conversion of pandas 3 with pyarrow, as far as the examples need
    it: a column whose values are all strings becomes an array of UTF-8
    strings, which a lone surrogate cannot enter; every other value is kept
    as it is.  The labels are strings, and their index is such an array. *)
Definition arrow_strings (column : list cell) : result (json -> cell) :=
  if forallb (fun c => match c with
                       | Val (JStr _) | Val JNull | NaN => true
                       | _ => false
                       end) column
  then match first_unencodable column with
       | Some e => Raise e
       | None => Ok Val
       end
  else Ok Val.

Definition pandas3 : externals :=
  {| generate_content := generate_content offline;
     requests_get := requests_get offline;
     html_parser := html_parser offline;
     ensure_index := fun labels =>
       match first_unencodable (map (fun k => Val (JStr k)) labels) with
       | Some e => Raise e
       | None => Ok tt
       end;
     infer_dtype := arrow_strings;
     DataFrame_other := DataFrame_other offline;
     read_csv := read_csv offline;
     read_excel := read_excel offline;
     Image_open := Image_open offline |}.

End Spec.
Import Spec.

(* ------------------------------------------------------------------ *)
(** * The application: the main area *)

Module MainArea.

(** A call of plotly express on the frame, by its other arguments. *)
Inductive px_call :=
| treemap (path : list str) (values : str) (color : str)
| sunburst (path : list str) (values : str)
| scatter (x y : str) (color : option str).

(** The two containers of [st.columns(2)]. *)
Inductive side := left_side | right_side.

(** What the overview tab puts on the page.  A chart is named by the call
    that built its figure. *)
Inductive widget :=
| subheader (text : str)
| metric (slot : nat) (label : str) (value : str)
| warning (msg : str)
| divider
| caption (s : side) (text : str)
| plotly_chart (s : side) (fig : px_call)
| info (s : side) (msg : str).

(** The sum of a column, as Python prints the number. *)
Definition total := str.

(** What the overview tab asks of the frame, of plotly and of Streamlit:
    [df[col].sum()], the format of a sum with two decimals, the figure of a
    call of plotly express on the frame, and [st.plotly_chart] on that
    figure.  Each of them returns or raises. *)
Record charting := {
  column_sum : str -> result total;
  format_total : total -> result str;
  px : px_call -> result unit;
  st_plotly_chart : px_call -> result unit
}.

(** A part of the script that puts widgets on the page as it goes: what it
    has put there, and its result or the exception that ended it. *)
Definition shown (A : Type) : Type := (list widget * result A)%type.

Definition emit (w : widget) : shown unit := ([w], Ok tt).

Definition lift (A : Type) (r : result A) : shown A := ([], r).

Definition then_ (A B : Type) (m : shown A) (k : A -> shown B) : shown B :=
  match m with
  | (ws, Ok a) => (ws ++ fst (k a), snd (k a))
  | (ws, Raise e) => (ws, Raise e)
  end.

Notation "x <~ m ;; k" := (then_ m (fun x => k))
  (at level 61, m at next level, right associativity).

(** [l[i]] for an index that is not negative: [IndexError] past the end. *)
Definition getitem (A : Type) (l : list A) (i : nat) : result A :=
  match nth_error l i with
  | Some v => Ok v
  | None => Raise (Exception OtherErrorT (py "list index out of range"))
  end.

(** [st.columns(n)]: [n] containers side by side, numbered from the left; a
    number of columns that is not positive is refused. *)
Definition st_columns (n : nat) : result (list nat) :=
  if n =? 0
  then Raise (Exception OtherErrorT
                (py "The spec argument to st.columns must be a positive integer"))
  else Ok (seq 0 n).

(** [enumerate(l)]. *)
Definition enumerate (A : Type) (l : list A) : list (nat * A) :=
  combine (seq 0 (length l)) l.

(** Lines 175 to 177: the loop over the numbered columns.  The sum is
    taken, then the container, then the sum is formatted and the card
    shown. *)
Fixpoint metric_loop (Y : charting) (cols : list nat) (l : list (nat * str))
  : shown unit :=
  match l with
  | [] => ([], Ok tt)
  | ic :: rest =>
      sum <~ lift (column_sum Y (snd ic)) ;;
      slot <~ lift (getitem cols (fst ic)) ;;
      value <~ lift (format_total Y sum) ;;
      _ <~ emit (metric slot (snd ic) value) ;;
      metric_loop Y cols rest
  end.

(** Lines 173 to 179: the metric cards. *)
Definition metric_cards (Y : charting) (numeric_cols : list str)
  : shown unit :=
  match numeric_cols with
  | [] => emit (warning (py "No numeric data found for metrics."))
  | _ :: _ =>
      cols <~ lift (st_columns (Nat.min (length numeric_cols) 4)) ;;
      metric_loop Y cols (enumerate (firstn 4 numeric_cols))
  end.

Definition TREEMAP_CAPTION : str := py "Categorical Breakdown (Treemap)".
Definition SUNBURST_CAPTION : str := py "Hierarchical View (Sunburst)".
Definition SCATTER_CAPTION : str := py "Correlation (Scatter)".
Definition NO_TREEMAP : str :=
  py "Need categorical and numeric data for Treemap.".
Definition NO_SECOND_CHART : str :=
  py "Not enough data dimensions for secondary chart.".

(** A figure is built and then shown. *)
Definition chart (Y : charting) (s : side) (call : px_call) : shown unit :=
  _ <~ lift (px Y call) ;;
  _ <~ lift (st_plotly_chart Y call) ;;
  emit (plotly_chart s call).

(** Lines 186 to 192: the chart on the left. *)
Definition left_chart (Y : charting) (numeric_cols categorical_cols : list str)
  : shown unit :=
  if (0 <? length categorical_cols) && (0 <? length numeric_cols)
  then
    _ <~ emit (caption left_side TREEMAP_CAPTION) ;;
    path <~ lift (getitem categorical_cols 0) ;;
    values <~ lift (getitem numeric_cols 0) ;;
    color <~ lift (getitem categorical_cols 0) ;;
    chart Y left_side (treemap [path] values color)
  else emit (info left_side NO_TREEMAP).

(** Lines 194 to 204: the chart on the right. *)
Definition right_chart (Y : charting)
  (numeric_cols categorical_cols : list str) : shown unit :=
  if (1 <? length categorical_cols) && (0 <? length numeric_cols)
  then
    _ <~ emit (caption right_side SUNBURST_CAPTION) ;;
    outer <~ lift (getitem categorical_cols 0) ;;
    inner <~ lift (getitem categorical_cols 1) ;;
    values <~ lift (getitem numeric_cols 0) ;;
    chart Y right_side (sunburst [outer; inner] values)
  else if 2 <=? length numeric_cols
  then
    _ <~ emit (caption right_side SCATTER_CAPTION) ;;
    x <~ lift (getitem numeric_cols 0) ;;
    y <~ lift (getitem numeric_cols 1) ;;
    color <~ match categorical_cols with
             | [] => lift (Ok None)
             | _ :: _ =>
                 c <~ lift (getitem categorical_cols 0) ;; lift (Ok (Some c))
             end ;;
    chart Y right_side (scatter x y color)
  else emit (info right_side NO_SECOND_CHART).

(** Lines 184 to 204: the two charts side by side, the left one first. *)
Definition visuals (Y : charting) (numeric_cols categorical_cols : list str)
  : shown unit :=
  sides <~ lift (st_columns 2) ;;
  _ <~ left_chart Y numeric_cols categorical_cols ;;
  right_chart Y numeric_cols categorical_cols.

(** Lines 169 to 204: the overview tab, for the numeric and the categorical
    columns [select_dtypes] gave. *)
Definition executive_overview (Y : charting)
  (numeric_cols categorical_cols : list str) : shown unit :=
  _ <~ emit (subheader (py "Executive Overview")) ;;
  _ <~ metric_cards Y numeric_cols ;;
  _ <~ emit divider ;;
  visuals Y numeric_cols categorical_cols.

(** ** The assistant tab *)

Inductive role := user | assistant.

(** An entry of [st.session_state.chat_history]. *)
Record message := { msg_role : role; msg_content : str }.

(** What the assistant tab writes and sends, in order. *)
Inductive chat_output :=
| chat_message (r : role) (text : str)
| chat_sent (request : list part)
| chat_error (msg : str).

(** The prompt of line 230, around the table as text and the question. *)
Definition ai_prompt (data_context prompt : str) : str :=
  py "Data Context:" ++ [LF] ++ data_context ++ [LF; LF]
  ++ py "User Question: " ++ prompt ++ [LF] ++ py "Answer as a Data Analyst.".

(** Lines 218 to 237: one run of the assistant tab.  [chat_history] is the
    stored history, [None] when the session has none yet; [chat_input] is
    what the user submitted in this run, if anything; [data_context] is
    [df.to_string()].  The result is the history stored afterwards and what
    was written. *)
Definition vi_assistant (X : externals) (data_context : str)
  (chat_history : option (list message)) (chat_input : option str)
  : list message * list chat_output :=
  let history :=
    match chat_history with
    | None => []
    | Some h => h
    end in
  let written :=
    map (fun m => chat_message (msg_role m) (msg_content m)) history in
  match chat_input with
  | Some ((_ :: _) as prompt) =>
      let asked := history ++ [{| msg_role := user; msg_content := prompt |}] in
      let request := [TextPart (ai_prompt data_context prompt)] in
      match generate_content X request with
      | Ok text =>
          (asked ++ [{| msg_role := assistant; msg_content := text |}],
           written ++ [chat_message user prompt; chat_sent request;
                       chat_message assistant text])
      | Raise e =>
          (asked,
           written ++ [chat_message user prompt; chat_sent request;
                       chat_error (py "Error: " ++ exc_str e)])
      end
  | _ => (history, written)
  end.

(** ** The dashboard branch *)

(** What the dashboard branch asks of the frame: the columns the two calls
    of [select_dtypes] give, the sums and the figures of the overview,
    [st.dataframe], the CSV export as bytes and [df.to_string()]. *)
Record frame_view := {
  numeric_cols : list str;
  categorical_cols : list str;
  plots : charting;
  st_dataframe : result unit;
  to_csv : result bytes;
  to_string : str
}.

(** Where a run of the dashboard branch got to: what the overview tab put on
    the page, the CSV the download button offers, the history stored and
    what the assistant tab wrote, and the exception that ended the run, if
    any. *)
Record dashboard_run := {
  overview : list widget;
  download : option bytes;
  chat : option (list message * list chat_output);
  raised : option exception
}.

(** Lines 160 to 237: the three tabs, one after the other.  Nothing here
    is inside a [try] but the call of the model in the assistant tab. *)
Definition dashboard (X : externals) (V : frame_view)
  (chat_history : option (list message)) (chat_input : option str)
  : dashboard_run :=
  match executive_overview (plots V) (numeric_cols V) (categorical_cols V) with
  | (ws, Raise e) =>
      {| overview := ws; download := None; chat := None; raised := Some e |}
  | (ws, Ok _) =>
      match _ <- st_dataframe V ;; to_csv V with
      | Raise e =>
          {| overview := ws; download := None; chat := None;
             raised := Some e |}
      | Ok csv =>
          {| overview := ws; download := Some csv;
             chat := Some (vi_assistant X (to_string V) chat_history
                             chat_input);
             raised := None |}
      end
  end.

(** One run of the script from top to bottom: how it ended, what the
    sidebar sent and showed, and the run of the dashboard branch if it was
    entered. *)
Record page_run := {
  page_end : run_end;
  page_events : list event;
  page_dashboard : option dashboard_run
}.

Definition page (secrets : option (list (str * str)))
  (environ : list (str * str)) (X : externals)
  (view : DataFrame -> frame_view) (chat_history : option (list message))
  (chat_input : option str) (input : sidebar_input) : page_run :=
  match script secrets environ X input with
  | (Shown (Dashboard df), events) =>
      let d := dashboard X (view df) chat_history chat_input in
      {| page_end := match raised d with
                     | Some e => Uncaught e
                     | None => Shown (Dashboard df)
                     end;
         page_events := events;
         page_dashboard := Some d |}
  | (ended, events) =>
      {| page_end := ended; page_events := events; page_dashboard := None |}
  end.

End MainArea.
Import MainArea.

(* ------------------------------------------------------------------ *)
(** * More vocabulary *)

Module Vocabulary.

(** [a] is [b] with some characters left out. *)
Inductive subsequence : str -> str -> Prop :=
| subsequence_nil : subsequence [] []
| subsequence_keep (c : char) (a b : str) :
    subsequence a b -> subsequence (c :: a) (c :: b)
| subsequence_drop (c : char) (a b : str) :
    subsequence a b -> subsequence a (c :: b).

(** The text neither starts nor ends with white space. *)
Definition trimmed (s : str) : Prop :=
  match s with [] => True | c :: _ => isspace c = false end /\
  match rev s with [] => True | c :: _ => isspace c = false end.

(** The requests among some events. *)
Fixpoint requests (events : list event) : list (list part) :=
  match events with
  | [] => []
  | sent r :: rest => r :: requests rest
  | st_error _ :: rest => requests rest
  end.

(** The sidebar has nothing to work on: no file, no click, no URL. *)
Definition idle (input : sidebar_input) : bool :=
  match input with
  | UploadFile None => true
  | UploadFile (Some _) => false
  | ImageAnalysis (Some _) true => false
  | ImageAnalysis _ _ => true
  | WebsiteURL (_ :: _) true => false
  | WebsiteURL _ _ => true
  | VideoIntelligence => true
  end.

(** Every answer in the history stands right after a question:
    [after_question] tells whether the entry before is one. *)
Fixpoint paired (after_question : bool) (h : list message) : bool :=
  match h with
  | [] => true
  | m :: rest =>
      match msg_role m with
      | user => paired true rest
      | assistant => after_question && paired false rest
      end
  end.

Definition answers_follow_questions (h : list message) : bool :=
  paired false h.

(** The history after a sequence of runs of the assistant tab, each with
    what the user submitted and the model behind it. *)
Fixpoint chat_session (data_context : str)
  (chat_history : option (list message))
  (runs : list (externals * option str)) : option (list message) :=
  match runs with
  | [] => chat_history
  | (X, chat_input) :: rest =>
      chat_session data_context
        (Some (fst (vi_assistant X data_context chat_history chat_input)))
        rest
  end.

(** The stored history, empty for a session that has none yet. *)
Definition stored (chat_history : option (list message)) : list message :=
  match chat_history with
  | None => []
  | Some h => h
  end.

(** The chart shown on a side of the overview, if there is one. *)
Fixpoint chart_at (s : side) (ws : list widget) : option px_call :=
  match ws with
  | [] => None
  | plotly_chart left_side fig :: rest =>
      match s with
      | left_side => Some fig
      | right_side => chart_at s rest
      end
  | plotly_chart right_side fig :: rest =>
      match s with
      | left_side => chart_at s rest
      | right_side => Some fig
      end
  | _ :: rest => chart_at s rest
  end.


(** The figure of the call is built and shown, or what raises on the
    way. *)
Definition drawn (Y : charting) (call : px_call) : result unit :=
  _ <- px Y call ;; st_plotly_chart Y call.

(** A frame whose sums are all 0.00 and whose figures plotly builds. *)
Definition plain : charting :=
  {| column_sum := fun _ => Ok (py "0");
     format_total := fun _ => Ok (py "0.00");
     px := fun _ => Ok tt;
     st_plotly_chart := fun _ => Ok tt |}.

(** What the dashboard branch shows when the overview, the table and the
    export raise nothing. *)
Definition tabs_raise_nothing (V : frame_view) : Prop :=
  snd (executive_overview (plots V) (numeric_cols V) (categorical_cols V))
  = Ok tt /\
  st_dataframe V = Ok tt /\
  exists csv, to_csv V = Ok csv.

(** The overview, the table or the export raises [e], in this order. *)
Definition tabs_raise (V : frame_view) (e : exception) : Prop :=
  snd (executive_overview (plots V) (numeric_cols V) (categorical_cols V))
  = Raise e \/
  (snd (executive_overview (plots V) (numeric_cols V) (categorical_cols V))
   = Ok tt /\
   (st_dataframe V = Raise e \/
    (st_dataframe V = Ok tt /\ to_csv V = Raise e))).

(** A frame that plotly refuses as the frame of a treemap or of a sunburst,
    as it does for some nulls in a path column. *)
Definition refused_path : charting :=
  {| column_sum := fun _ => Ok (py "0");
     format_total := fun _ => Ok (py "0.00");
     px := fun call =>
       match call with
       | scatter _ _ _ => Ok tt
       | _ => Raise (Exception ValueErrorT
                       (py "None entries cannot have not-None children"))
       end;
     st_plotly_chart := fun _ => Ok tt |}.

(** The view of a frame with the numeric column A and the categorical
    column B that plotly refuses as a path. *)
Definition refused_view : frame_view :=
  {| numeric_cols := [py "A"];
     categorical_cols := [py "B"];
     plots := refused_path;
     st_dataframe := Ok tt;
     to_csv := Ok [];
     to_string := [] |}.

End Vocabulary.
Import Vocabulary.

(* ------------------------------------------------------------------ *)
(** * Proof automation *)

(** Case analysis on the innermost scrutinee of a hypothesis. *)
Ltac break_match_hyp H :=
  match type of H with
  | context [match ?x with _ => _ end] =>
      match x with
      | context [match _ with _ => _ end] => fail 1
      | _ => let E := fresh "E" in destruct x eqn:E
      end
  | context [if ?x then _ else _] =>
      match x with
      | context [match _ with _ => _ end] => fail 1
      | _ => let E := fresh "E" in destruct x eqn:E
      end
  end.

(* ------------------------------------------------------------------ *)
(** * Properties of the string operations *)

Unset Implicit Arguments.

Module StrFacts.

Lemma str_eqb_eq (a b : str) : str_eqb a b = true <-> a = b.
Proof.
  unfold str_eqb. destruct (list_eq_dec N.eq_dec a b); split; congruence.
Qed.

Lemma str_eqb_refl (a : str) : str_eqb a a = true.
Proof. now apply str_eqb_eq. Qed.

Lemma str_eqb_neq (a b : str) : str_eqb a b = false <-> a <> b.
Proof.
  unfold str_eqb. destruct (list_eq_dec N.eq_dec a b); split; congruence.
Qed.

(** ** [startswith] and [contains] *)

Lemma startswith_iff (p s : str) :
  startswith p s = true <-> exists t, s = p ++ t.
Proof.
  revert s. induction p as [|a p IH]; intros s; simpl.
  - split; [intros _; now exists s | reflexivity].
  - destruct s as [|b s].
    + split; [discriminate | intros [t Ht]; discriminate].
    + rewrite andb_true_iff, N.eqb_eq, IH. split.
      * intros [-> [t ->]]. now exists t.
      * intros [t Ht]. injection Ht as -> ->. split; [reflexivity | now exists t].
Qed.

Lemma startswith_app (p t : str) : startswith p (p ++ t) = true.
Proof. apply startswith_iff. now exists t. Qed.

Lemma startswith_length (p s : str) :
  startswith p s = true -> length p <= length s.
Proof.
  intros H. apply startswith_iff in H as [t ->]. rewrite length_app. lia.
Qed.

Lemma startswith_skipn (p s : str) :
  startswith p s = true -> s = p ++ skipn (length p) s.
Proof.
  intros H. apply startswith_iff in H as [t ->].
  now rewrite skipn_app, skipn_all, Nat.sub_diag.
Qed.

Lemma contains_iff (p s : str) :
  contains p s = true <-> exists a b, s = a ++ p ++ b.
Proof.
  induction s as [|c s IH].
  - simpl. rewrite orb_false_r, startswith_iff. split.
    + intros [t Ht]. now exists [], t.
    + intros [a [b H]]. destruct a; [now exists b | discriminate].
  - cbn [contains]. rewrite orb_true_iff, IH, startswith_iff. split.
    + intros [[t Ht] | [a [b Hab]]].
      * now exists [], t.
      * exists (c :: a), b. now rewrite Hab.
    + intros [a [b H]]. destruct a as [|c' a].
      * left. now exists b.
      * right. injection H as _ H. now exists a, b.
Qed.

Lemma contains_infix (p a s b : str) :
  contains p s = true -> contains p (a ++ s ++ b) = true.
Proof.
  rewrite !contains_iff. intros [x [y ->]].
  exists (a ++ x), (y ++ b). now rewrite <- !app_assoc.
Qed.

Lemma contains_longer (p q s : str) :
  contains (p ++ q) s = true -> contains p s = true.
Proof.
  rewrite !contains_iff. intros [a [b ->]].
  exists a, (q ++ b). now rewrite <- app_assoc.
Qed.

(** ** [replace] *)

Lemma replace_from_skipn (old new : str) (k : nat) (s : str) :
  replace_from old new k s = replace_from old new 0 (skipn k s).
Proof.
  revert k. induction s as [|c s IH]; intros [|k]; try reflexivity.
  cbn [replace_from skipn]. apply IH.
Qed.

(** The scan of [replace], one step at a time. *)
Lemma str_replace_cons (o : char) (old new : str) (c : char) (s : str) :
  str_replace (o :: old) new (c :: s) =
  if startswith (o :: old) (c :: s)
  then new ++ str_replace (o :: old) new (skipn (length old) s)
  else c :: str_replace (o :: old) new s.
Proof.
  unfold str_replace. cbn [replace_from].
  destruct (startswith (o :: old) (c :: s)); [|reflexivity].
  rewrite replace_from_skipn.
  now replace (length (o :: old) - 1) with (length old) by (cbn [length]; lia).
Qed.

Lemma str_replace_nil (o : char) (old new : str) :
  str_replace (o :: old) new [] = [].
Proof. reflexivity. Qed.

(** Where [old] does not occur, [replace] changes nothing. *)
Lemma str_replace_absent (o : char) (old new s : str) :
  contains (o :: old) s = false -> str_replace (o :: old) new s = s.
Proof.
  induction s as [|c s IH]; [reflexivity|].
  cbn [contains]. rewrite orb_false_iff. intros [Hs Hc].
  rewrite str_replace_cons, Hs. f_equal. now apply IH.
Qed.

Lemma startswith_app_absent (p s t : str) (c : char) :
  ~ In c p -> startswith p (s ++ c :: t) = startswith p s.
Proof.
  revert s. induction p as [|a p IH]; intros s Hc; [reflexivity|].
  destruct s as [|b s]; cbn [app startswith].
  - destruct (N.eqb_spec a c) as [->|Hn]; [|reflexivity].
    exfalso. apply Hc. now left.
  - rewrite IH; [reflexivity|]. intros H. apply Hc. now right.
Qed.

(** A character that is not in [old] separates the scan: the text before it
    and the text after it are replaced on their own. *)
Lemma replace_from_sep (o : char) (old new : str) (c : char) (t : str) :
  ~ In c (o :: old) ->
  forall (s : str) (k : nat), k <= length s ->
    replace_from (o :: old) new k (s ++ c :: t) =
    replace_from (o :: old) new k s ++ c :: replace_from (o :: old) new 0 t.
Proof.
  intros Hc. induction s as [|a s IH]; intros k Hk.
  - cbn [length] in Hk. replace k with 0 by lia.
    cbn [app replace_from].
    replace (startswith (o :: old) (c :: t)) with false; [reflexivity|].
    symmetry. change (c :: t) with ([] ++ c :: t).
    now rewrite startswith_app_absent.
  - destruct k as [|k]; cbn [app replace_from].
    + change (a :: s ++ c :: t) with ((a :: s) ++ c :: t).
      rewrite startswith_app_absent by assumption.
      destruct (startswith (o :: old) (a :: s)) eqn:Hs.
      * apply startswith_length in Hs. cbn [length] in Hs.
        rewrite IH by (cbn [length]; lia). now rewrite app_assoc.
      * rewrite IH by lia. reflexivity.
    + cbn [length] in Hk. apply IH. lia.
Qed.

Lemma str_replace_sep (o : char) (old new s t : str) (c : char) :
  ~ In c (o :: old) ->
  str_replace (o :: old) new (s ++ c :: t) =
  str_replace (o :: old) new s ++ c :: str_replace (o :: old) new t.
Proof.
  intros Hc. unfold str_replace. apply replace_from_sep; [assumption | lia].
Qed.

Lemma str_replace_head (o : char) (old new t : str) (c : char) :
  ~ In c (o :: old) ->
  str_replace (o :: old) new (c :: t) = c :: str_replace (o :: old) new t.
Proof. intros Hc. exact (str_replace_sep o old new [] t c Hc). Qed.

Lemma str_replace_last (o : char) (old new s : str) (c : char) :
  ~ In c (o :: old) ->
  str_replace (o :: old) new (s ++ [c]) = str_replace (o :: old) new s ++ [c].
Proof. intros Hc. exact (str_replace_sep o old new s [] c Hc). Qed.

End StrFacts.

(** ** [strip] *)

Module StripFacts.
Import StrFacts.

Lemma dropwhile_suffix (f : char -> bool) (s : str) :
  exists pre, s = pre ++ dropwhile f s.
Proof.
  induction s as [|c s [pre IH]]; [now exists []|].
  cbn [dropwhile]. destruct (f c).
  - exists (c :: pre). cbn [app]. now f_equal.
  - now exists [].
Qed.

Lemma dropwhile_fixed (f : char -> bool) (s : str) :
  match s with [] => True | c :: _ => f c = false end -> dropwhile f s = s.
Proof. destruct s as [|c s]; [reflexivity|]. cbn. now intros ->. Qed.

Lemma dropwhile_head (f : char -> bool) (s : str) :
  match dropwhile f s with [] => True | c :: _ => f c = false end.
Proof.
  induction s as [|c s IH]; [exact I|].
  cbn [dropwhile]. destruct (f c) eqn:E; [exact IH | exact E].
Qed.

Lemma dropwhile_idem (f : char -> bool) (s : str) :
  dropwhile f (dropwhile f s) = dropwhile f s.
Proof. apply dropwhile_fixed, dropwhile_head. Qed.

Lemma rstrip_prefix (s : str) : exists post, s = rstrip s ++ post.
Proof.
  unfold rstrip. destruct (dropwhile_suffix isspace (rev s)) as [pre H].
  exists (rev pre). rewrite <- rev_app_distr, <- H. now rewrite rev_involutive.
Qed.

Lemma strip_infix (s : str) : exists pre post, s = pre ++ strip s ++ post.
Proof.
  unfold strip, lstrip.
  destruct (dropwhile_suffix isspace s) as [pre H].
  destruct (rstrip_prefix (dropwhile isspace s)) as [post H'].
  exists pre, post. now rewrite <- H', <- H.
Qed.

Lemma rstrip_idem (s : str) : rstrip (rstrip s) = rstrip s.
Proof. unfold rstrip. now rewrite rev_involutive, dropwhile_idem. Qed.

Lemma rstrip_app_space (s : str) (c : char) :
  isspace c = true -> rstrip (s ++ [c]) = rstrip s.
Proof.
  intros H. unfold rstrip. rewrite rev_app_distr. cbn [rev app dropwhile].
  now rewrite H.
Qed.

(** What [rstrip] leaves starts as the text started. *)
Lemma rstrip_head (s : str) :
  match s with [] => True | c :: _ => isspace c = false end ->
  match rstrip s with [] => True | c :: _ => isspace c = false end.
Proof.
  destruct (rstrip_prefix s) as [post H]. intros Hs.
  destruct (rstrip s) as [|c r]; [exact I|].
  rewrite H in Hs. exact Hs.
Qed.

Lemma strip_idem (s : str) : strip (strip s) = strip s.
Proof.
  unfold strip at 1. unfold lstrip.
  rewrite dropwhile_fixed.
  - unfold strip. apply rstrip_idem.
  - unfold strip. apply rstrip_head. apply (dropwhile_head isspace).
Qed.

(** White space around a text does not change what [strip] gives. *)
Lemma strip_cons_space (a : char) (s : str) :
  isspace a = true -> strip (a :: s) = strip s.
Proof. intros Ha. unfold strip, lstrip. cbn [dropwhile]. now rewrite Ha. Qed.

Lemma strip_app_space (b : char) (s : str) :
  isspace b = true -> strip (s ++ [b]) = strip s.
Proof.
  intros Hb. unfold strip, lstrip. induction s as [|c s IH].
  - cbn [app dropwhile]. now rewrite Hb.
  - cbn [app dropwhile]. destruct (isspace c); [exact IH|].
    change (c :: s ++ [b]) with ((c :: s) ++ [b]). now apply rstrip_app_space.
Qed.

Lemma strip_between_spaces (a b : char) (s : str) :
  isspace a = true -> isspace b = true -> strip (a :: s ++ [b]) = strip s.
Proof.
  intros Ha Hb. rewrite strip_cons_space by exact Ha.
  now apply strip_app_space.
Qed.

Lemma contains_strip (p s : str) :
  contains p (strip s) = true -> contains p s = true.
Proof.
  intros H. destruct (strip_infix s) as [pre [post E]].
  rewrite E. now apply contains_infix.
Qed.

End StripFacts.

(* ------------------------------------------------------------------ *)
(** * Properties of [clean_json_string] *)

Module CleanFacts.
Import StrFacts StripFacts.

Lemma FENCE_eq : FENCE = [BACKTICK; BACKTICK; BACKTICK].
Proof. reflexivity. Qed.

Lemma FENCE_JSON_eq : FENCE_JSON = FENCE ++ py "json".
Proof. reflexivity. Qed.

(** After [replace] by nothing, no run of three backticks is left. *)
Lemma no_fence_after_replace_bounded (n : nat) :
  forall s, length s <= n -> contains FENCE (str_replace FENCE [] s) = false.
Proof.
  rewrite FENCE_eq. unfold BACKTICK.
  induction n as [|n IH]; intros s Hn.
  - destruct s; [reflexivity | cbn [length] in Hn; lia].
  - destruct s as [|a s]; [reflexivity|].
    cbn [length] in Hn.
    destruct (N.eqb_spec 96 a) as [<-|Ha].
    2:{ rewrite str_replace_cons. cbn [startswith].
        apply N.eqb_neq in Ha. rewrite Ha. cbn [andb contains startswith].
        rewrite Ha. cbn [andb orb]. apply IH. lia. }
    destruct s as [|b s]; [reflexivity|].
    cbn [length] in Hn.
    destruct (N.eqb_spec 96 b) as [<-|Hb].
    2:{ rewrite str_replace_cons. cbn [startswith].
        apply N.eqb_neq in Hb. rewrite Hb, andb_false_r.
        rewrite str_replace_cons. cbn [startswith]. rewrite Hb.
        cbn [andb contains startswith]. rewrite Hb, !andb_false_r.
        cbn [andb orb]. apply IH. lia. }
    destruct s as [|c s]; [reflexivity|].
    cbn [length] in Hn.
    destruct (N.eqb_spec 96 c) as [<-|Hc].
    + rewrite str_replace_cons. cbn [startswith N.eqb Pos.eqb andb length skipn app].
      apply IH. lia.
    + apply N.eqb_neq in Hc.
      rewrite str_replace_cons. cbn [startswith]. rewrite Hc, !andb_false_r.
      rewrite str_replace_cons. cbn [startswith]. rewrite Hc, !andb_false_r.
      rewrite str_replace_cons. cbn [startswith]. rewrite Hc.
      cbn [andb contains startswith]. rewrite Hc, !andb_false_r.
      cbn [andb orb]. apply IH. lia.
Qed.

Lemma no_fence_after_replace (s : str) :
  contains FENCE (str_replace FENCE [] s) = false.
Proof. now apply (no_fence_after_replace_bounded (length s)). Qed.

Lemma clean_no_fence (text : str) :
  contains FENCE (clean_json_string text) = false.
Proof.
  unfold clean_json_string.
  destruct (contains FENCE (strip _)) eqn:E; [|reflexivity].
  apply contains_strip in E. now rewrite no_fence_after_replace in E.
Qed.

Lemma clean_no_fence_json (text : str) :
  contains FENCE_JSON (clean_json_string text) = false.
Proof.
  destruct (contains FENCE_JSON _) eqn:E; [|reflexivity].
  rewrite FENCE_JSON_eq in E. apply contains_longer in E.
  now rewrite clean_no_fence in E.
Qed.

(** A text without fences and without white space around it is left as it
    is. *)
Lemma clean_fixed (s : str) :
  contains FENCE s = false -> strip s = s -> clean_json_string s = s.
Proof.
  intros Hf Hs. unfold clean_json_string.
  assert (Hj : contains FENCE_JSON s = false).
  { destruct (contains FENCE_JSON s) eqn:E; [|reflexivity].
    rewrite FENCE_JSON_eq in E. apply contains_longer in E. congruence. }
  change FENCE_JSON with (96%N :: tl FENCE_JSON) in *.
  rewrite str_replace_absent by assumption.
  change FENCE with (96%N :: tl FENCE) in *.
  rewrite str_replace_absent by assumption. exact Hs.
Qed.

Lemma clean_idempotent (text : str) :
  clean_json_string (clean_json_string text) = clean_json_string text.
Proof.
  apply clean_fixed; [apply clean_no_fence|].
  unfold clean_json_string. apply strip_idem.
Qed.

Lemma clean_wrap (opening reply : str) :
  opening = FENCE_JSON \/ opening = FENCE ->
  clean_json_string (wrap opening reply) = clean_json_string reply.
Proof.
  intros Ho. unfold clean_json_string, wrap.
  assert (Hj : ~ In LF FENCE_JSON) by (cbv; intuition discriminate).
  assert (Hf : ~ In LF FENCE) by (cbv; intuition discriminate).
  change FENCE_JSON with (96%N :: tl FENCE_JSON) in *.
  change FENCE with (96%N :: tl FENCE) in * |-.
  cbn [app].
  set (R1 := str_replace (96%N :: tl FENCE_JSON) [] reply).
  assert (E1 : str_replace (96%N :: tl FENCE_JSON) []
                 (opening ++ LF :: reply ++ LF :: FENCE)
               = str_replace (96%N :: tl FENCE_JSON) [] opening
                   ++ LF :: R1 ++ LF :: FENCE).
  { rewrite str_replace_sep by assumption.
    rewrite str_replace_sep by assumption. reflexivity. }
  rewrite E1.
  assert (E2 : str_replace FENCE []
                 (str_replace (96%N :: tl FENCE_JSON) [] opening
                    ++ LF :: R1 ++ LF :: FENCE)
               = LF :: str_replace FENCE [] R1 ++ [LF]).
  { change FENCE with (96%N :: tl FENCE) at 1 3.
    rewrite str_replace_sep by assumption.
    rewrite str_replace_sep by assumption.
    destruct Ho as [-> | ->]; reflexivity. }
  rewrite E2. now apply strip_between_spaces.
Qed.

(** No character of the fences is white space. *)
Lemma space_not_in_fence (c : char) : isspace c = true -> ~ In c FENCE_JSON.
Proof.
  intros Hc Hin. change FENCE_JSON with [96; 96; 96; 106; 115; 111; 110]%N in Hin.
  cbn [In] in Hin.
  repeat (destruct Hin as [<-|Hin]; [discriminate Hc|]). exact Hin.
Qed.

Lemma clean_cons_space (c : char) (s : str) :
  isspace c = true -> clean_json_string (c :: s) = clean_json_string s.
Proof.
  intros Hc. pose proof (space_not_in_fence c Hc) as Hj.
  assert (Hf : ~ In c FENCE).
  { intros H. apply Hj. rewrite FENCE_JSON_eq. apply in_or_app. now left. }
  unfold clean_json_string.
  change FENCE_JSON with (96%N :: tl FENCE_JSON) in *.
  change FENCE with (96%N :: tl FENCE) in *.
  rewrite str_replace_head by assumption.
  rewrite str_replace_head by assumption.
  now apply strip_cons_space.
Qed.

Lemma clean_app_space (c : char) (s : str) :
  isspace c = true -> clean_json_string (s ++ [c]) = clean_json_string s.
Proof.
  intros Hc. pose proof (space_not_in_fence c Hc) as Hj.
  assert (Hf : ~ In c FENCE).
  { intros H. apply Hj. rewrite FENCE_JSON_eq. apply in_or_app. now left. }
  unfold clean_json_string.
  change FENCE_JSON with (96%N :: tl FENCE_JSON) in *.
  change FENCE with (96%N :: tl FENCE) in *.
  rewrite str_replace_last by assumption.
  rewrite str_replace_last by assumption.
  now apply strip_app_space.
Qed.

(** White space before and after a text does not change what it is cleaned
    to. *)
Lemma clean_padding (before after s : str) :
  forallb isspace before = true -> forallb isspace after = true ->
  clean_json_string (before ++ s ++ after) = clean_json_string s.
Proof.
  intros Hb Ha. induction before as [|c before IH].
  - cbn [app]. clear Hb. induction after as [|c after IH] using rev_ind.
    + now rewrite app_nil_r.
    + rewrite forallb_app in Ha. cbn [forallb] in Ha.
      apply andb_true_iff in Ha as [Ha Hc]. rewrite andb_true_r in Hc.
      rewrite app_assoc, clean_app_space by exact Hc. now apply IH.
  - cbn [forallb] in Hb. apply andb_true_iff in Hb as [Hc Hb].
    cbn [app]. rewrite clean_cons_space by exact Hc. now apply IH.
Qed.

End CleanFacts.

(* ------------------------------------------------------------------ *)
(** * Properties of the frame built from records *)

Module FrameFacts.
Import StrFacts.

Lemma str_in_iff (k : str) (l : list str) : str_in k l = true <-> In k l.
Proof.
  unfold str_in. rewrite existsb_exists. split.
  - intros [x [Hx E]]. apply str_eqb_eq in E. now subst.
  - intros H. exists k. split; [assumption | apply str_eqb_refl].
Qed.

Lemma str_in_false (k : str) (l : list str) : str_in k l = false <-> ~ In k l.
Proof.
  rewrite <- str_in_iff. destruct (str_in k l); split; congruence.
Qed.

Lemma str_in_app (k : str) (a b : list str) :
  str_in k (a ++ b) = str_in k a || str_in k b.
Proof. unfold str_in. apply existsb_app. Qed.

(** ** Keys in first-seen order *)

Lemma fold_buffers_concat (gen : list (list str)) (u : list str) :
  fold_left (fun uniques buf => fold_left append_unseen buf uniques) gen u =
  fold_left append_unseen (concat gen) u.
Proof.
  revert u. induction gen as [|buf gen IH]; intros u; [reflexivity|].
  cbn [fold_left concat]. now rewrite fold_left_app, IH.
Qed.

Lemma filter_filter (A : Type) (f g : A -> bool) (l : list A) :
  filter f (filter g l) = filter (fun x => g x && f x) l.
Proof.
  induction l as [|x l IH]; [reflexivity|].
  cbn [filter]. destruct (g x); cbn [filter andb]; [destruct (f x)|]; now rewrite IH.
Qed.

Lemma filter_all (A : Type) (f : A -> bool) (l : list A) :
  (forall x, In x l -> f x = true) -> filter f l = l.
Proof.
  induction l as [|x l IH]; intros H; [reflexivity|].
  cbn [filter]. rewrite (H x) by now left.
  f_equal. apply IH. intros y Hy. apply H. now right.
Qed.

Lemma filter_none (A : Type) (f : A -> bool) (l : list A) :
  (forall x, In x l -> f x = false) -> filter f l = [].
Proof.
  induction l as [|x l IH]; intros H; [reflexivity|].
  cbn [filter]. rewrite (H x) by now left.
  apply IH. intros y Hy. apply H. now right.
Qed.

(** The scan that appends what it has not seen gives the keys where they
    occur first. *)
Lemma fold_append_unseen (l u : list str) :
  fold_left append_unseen l u =
  u ++ filter (fun x => negb (str_in x u)) (first_seen l).
Proof.
  revert u. induction l as [|k l IH]; intros u.
  - cbn. now rewrite app_nil_r.
  - cbn [fold_left first_seen filter]. rewrite IH. unfold append_unseen.
    destruct (str_in k u) eqn:E; cbn [negb].
    + f_equal. rewrite filter_filter. apply filter_ext. intros x.
      destruct (str_eqb x k) eqn:Ex; cbn [negb andb]; [|reflexivity].
      apply str_eqb_eq in Ex. subst x. now rewrite E.
    + rewrite <- app_assoc. cbn [app]. do 2 f_equal.
      rewrite filter_filter. apply filter_ext. intros x.
      rewrite str_in_app. cbn [str_in existsb]. rewrite orb_false_r.
      rewrite negb_orb. apply andb_comm.
Qed.

Lemma columns_first_seen (gen : list (list str)) :
  fast_unique_multiple_list_gen gen = first_seen (concat gen).
Proof.
  unfold fast_unique_multiple_list_gen.
  rewrite fold_buffers_concat, fold_append_unseen. cbn [app].
  now apply filter_all.
Qed.

Lemma first_seen_In (l : list str) (x : str) : In x (first_seen l) <-> In x l.
Proof.
  induction l as [|k l IH]; [reflexivity|].
  cbn [first_seen In]. rewrite filter_In, IH, negb_true_iff, str_eqb_neq.
  destruct (list_eq_dec N.eq_dec k x) as [->|Hn]; [tauto|].
  split; [tauto|]. intros [H|H]; [tauto|]. right. split; [assumption|congruence].
Qed.

Lemma first_seen_NoDup (l : list str) : NoDup (first_seen l).
Proof.
  induction l as [|k l IH]; [constructor|].
  cbn [first_seen]. constructor.
  - rewrite filter_In, negb_true_iff, str_eqb_neq. tauto.
  - now apply NoDup_filter.
Qed.

Lemma first_seen_fixed (l : list str) : NoDup l -> first_seen l = l.
Proof.
  induction 1 as [|k l Hk Hl IH]; [reflexivity|].
  cbn [first_seen]. rewrite IH. f_equal. apply filter_all.
  intros x Hx. apply negb_true_iff, str_eqb_neq. congruence.
Qed.

Lemma first_seen_app (a b : list str) :
  first_seen (a ++ b) =
  first_seen a ++ filter (fun x => negb (str_in x a)) (first_seen b).
Proof.
  induction a as [|k a IH].
  - cbn [app first_seen]. symmetry. now apply filter_all.
  - cbn [app first_seen]. rewrite IH, filter_app. do 2 f_equal.
    rewrite filter_filter. apply filter_ext. intros x.
    cbn [str_in existsb]. rewrite negb_orb. apply andb_comm.
Qed.

(** Keys that were all seen before add nothing. *)
Lemma first_seen_app_seen (a b : list str) :
  (forall x, In x b -> In x a) -> first_seen (a ++ b) = first_seen a.
Proof.
  intros H. rewrite first_seen_app, filter_none; [apply app_nil_r|].
  intros x Hx. apply negb_false_iff, str_in_iff, H.
  now apply first_seen_In.
Qed.

(** ** Cells *)

Lemma dict_get_None (A : Type) (d : list (str * A)) (k : str) :
  dict_get d k = None <-> ~ In k (dict_keys d).
Proof.
  induction d as [|[k' v] d IH]; cbn [dict_get dict_keys map In fst].
  - tauto.
  - destruct (str_eqb k' k) eqn:E.
    + apply str_eqb_eq in E. split; [discriminate | tauto].
    + apply str_eqb_neq in E. unfold dict_keys in IH. rewrite IH. tauto.
Qed.

Lemma dict_get_Some_In (A : Type) (d : list (str * A)) (k : str) (v : A) :
  dict_get d k = Some v -> In (k, v) d.
Proof.
  induction d as [|[k' v'] d IH]; cbn [dict_get In]; [discriminate|].
  destruct (str_eqb k' k) eqn:E.
  - apply str_eqb_eq in E. intros [= ->]. left. now subst.
  - intros H. right. now apply IH.
Qed.

Lemma all_dicts_map (objs : list (list (str * json))) :
  all_dicts (map JObject objs) = Some objs.
Proof.
  induction objs as [|d objs IH]; [reflexivity|].
  cbn [map all_dicts]. now rewrite IH.
Qed.

(** ** The conversion of the columns *)

Lemma convert_columns_Ok (infer : list cell -> result (json -> cell))
  (arrays : list (list cell)) (casts : list (json -> cell)) :
  convert_columns infer arrays = Ok casts ->
  Forall2 (fun arr cast => infer arr = Ok cast) arrays casts.
Proof.
  revert casts. induction arrays as [|arr arrays IH]; intros casts;
    cbn [convert_columns].
  - intros [= <-]. constructor.
  - destruct (infer arr) as [cast|e] eqn:E; [|discriminate].
    destruct (convert_columns infer arrays) as [cs|e]; [|discriminate].
    intros [= <-]. constructor; [exact E | now apply IH].
Qed.

Lemma convert_columns_Raise (infer : list cell -> result (json -> cell))
  (arrays : list (list cell)) (e : exception) :
  convert_columns infer arrays = Raise e ->
  exists arr, In arr arrays /\ infer arr = Raise e.
Proof.
  induction arrays as [|arr arrays IH]; cbn [convert_columns];
    [discriminate|].
  destruct (infer arr) as [cast|e'] eqn:E.
  - destruct (convert_columns infer arrays) as [cs|e']; [discriminate|].
    intros [= ->]. destruct (IH eq_refl) as [a [Ha Hr]].
    exists a. split; [now right | exact Hr].
  - intros [= ->]. exists arr. split; [now left | exact E].
Qed.

Lemma convert_columns_all (infer : list cell -> result (json -> cell))
  (arrays : list (list cell)) :
  (forall arr, In arr arrays -> exists cast, infer arr = Ok cast) ->
  exists casts, convert_columns infer arrays = Ok casts.
Proof.
  induction arrays as [|arr arrays IH]; intros H; cbn [convert_columns].
  - now exists [].
  - destruct (H arr (or_introl eq_refl)) as [cast ->].
    destruct IH as [casts ->]; [intros a Ha; apply H; now right|].
    now eexists.
Qed.

Lemma column_array_cell (objs : list (list (str * json))) (col : str) :
  column_array objs col = map (fun d => cell_of d col) objs.
Proof. reflexivity. Qed.

Lemma pd_DataFrame_records (ensure : list str -> result unit)
  (infer : list cell -> result (json -> cell))
  (other : json -> result DataFrame) (d : list (str * json))
  (objs : list (list (str * json))) :
  pd_DataFrame ensure infer other (JArray (map JObject (d :: objs)))
  = from_records ensure infer (d :: objs).
Proof.
  cbn [map pd_DataFrame].
  change (JObject d :: map JObject objs) with (map JObject (d :: objs)).
  now rewrite all_dicts_map.
Qed.

(** The cells of a converted row, column by column. *)
Lemma converted_row (infer : list cell -> result (json -> cell))
  (objs : list (list (str * json))) (d : list (str * json))
  (cols : list str) (casts : list (json -> cell)) :
  Forall2 (fun arr cast => infer arr = Ok cast)
          (map (column_array objs) cols) casts ->
  Forall2 (fun col c =>
             exists cast, infer (column_array objs col) = Ok cast /\
                          c = apply_cast cast (cell_of d col))
          cols
          (map (fun cc => apply_cast (fst cc) (snd cc))
               (combine casts (map (cell_of d) cols))).
Proof.
  revert casts. induction cols as [|col cols IH]; intros casts H;
    inversion H as [|arr cast arrs cs Hc Hr]; subst; cbn [map combine].
  - constructor.
  - constructor; [now exists cast | now apply IH].
Qed.

(** What a frame of records is when the constructor returns one. *)
Lemma from_records_Ok (ensure : list str -> result unit)
  (infer : list cell -> result (json -> cell))
  (objs : list (list (str * json))) (df : DataFrame) :
  from_records ensure infer objs = Ok df ->
  columns df = first_seen (concat (map (@dict_keys json) objs)) /\
  length (rows df) = length objs /\
  (forall i d, nth_error objs i = Some d ->
     exists row, nth_error (rows df) i = Some row /\
       Forall2 (fun col c =>
                  exists cast, infer (column_array objs col) = Ok cast /\
                               c = apply_cast cast (cell_of d col))
               (columns df) row).
Proof.
  unfold from_records. destruct (ensure _) as [[]|e]; [|discriminate].
  destruct (convert_columns infer _) as [casts|e] eqn:E; [|discriminate].
  intros [= <-]. cbn [columns rows]. apply convert_columns_Ok in E.
  split; [apply columns_first_seen|]. split.
  - unfold dicts_to_array. now rewrite !length_map.
  - intros i d Hi. eexists. split.
    + unfold dicts_to_array. rewrite !nth_error_map, Hi. reflexivity.
    + now apply converted_row.
Qed.

Lemma from_records_Ok_accepted (ensure : list str -> result unit)
  (infer : list cell -> result (json -> cell))
  (objs : list (list (str * json))) (df : DataFrame) :
  from_records ensure infer objs = Ok df ->
  ensure (first_seen (concat (map (@dict_keys json) objs))) = Ok tt /\
  forall col, In col (first_seen (concat (map (@dict_keys json) objs))) ->
    exists cast, infer (column_array objs col) = Ok cast.
Proof.
  unfold from_records. rewrite columns_first_seen.
  destruct (ensure _) as [[]|e]; [|discriminate].
  destruct (convert_columns infer _) as [casts|e] eqn:E; [|discriminate].
  intros _. split; [reflexivity|]. apply convert_columns_Ok in E.
  intros col Hc. apply (in_map (column_array objs)) in Hc.
  revert Hc. generalize (column_array objs col).
  induction E as [|arr cast arrs cs Ha E IH]; intros a [].
  - subst. now exists cast.
  - now apply IH.
Qed.

(** The constructor raises what the construction of the index raises or
    what the conversion of one of the columns raises. *)
Lemma from_records_Raise (ensure : list str -> result unit)
  (infer : list cell -> result (json -> cell))
  (objs : list (list (str * json))) (e : exception) :
  from_records ensure infer objs = Raise e ->
  ensure (first_seen (concat (map (@dict_keys json) objs))) = Raise e \/
  exists col,
    In col (first_seen (concat (map (@dict_keys json) objs))) /\
    infer (column_array objs col) = Raise e.
Proof.
  unfold from_records. rewrite columns_first_seen.
  destruct (ensure _) as [[]|e0]; [|intros [= ->]; now left].
  destruct (convert_columns infer _) as [casts|e'] eqn:E; [discriminate|].
  intros [= ->]. apply convert_columns_Raise in E as [arr [Ha Hr]].
  apply in_map_iff in Ha as [col [<- Hc]]. right. exists col. now split.
Qed.

(** The constructor returns a frame when the index can be built and every
    column can be converted. *)
Lemma from_records_all (ensure : list str -> result unit)
  (infer : list cell -> result (json -> cell))
  (objs : list (list (str * json))) :
  ensure (first_seen (concat (map (@dict_keys json) objs))) = Ok tt ->
  (forall col, In col (first_seen (concat (map (@dict_keys json) objs))) ->
     exists cast, infer (column_array objs col) = Ok cast) ->
  exists df, from_records ensure infer objs = Ok df.
Proof.
  intros He H. unfold from_records. rewrite columns_first_seen, He.
  destruct (convert_columns_all infer
              (map (column_array objs)
                 (first_seen (concat (map (@dict_keys json) objs)))))
    as [casts ->]; [|now eexists].
  intros arr Ha. apply in_map_iff in Ha as [col [<- Hc]]. now apply H.
Qed.

(** The converted row of a flat record whose keys cover the columns holds
    the record's scalars, cast. *)
Lemma flat_row_cells (infer : list cell -> result (json -> cell))
  (objs : list (list (str * json))) (d : list (str * json))
  (cols : list str) (row : list cell) :
  (forall col, In col cols -> In col (dict_keys d)) ->
  flat d = true ->
  Forall2 (fun col c =>
             exists cast, infer (column_array objs col) = Ok cast /\
                          c = apply_cast cast (cell_of d col))
          cols row ->
  Forall2 (fun col c =>
             exists v cast,
               In (col, v) d /\ scalar v = true /\
               infer (column_array objs col) = Ok cast /\ c = cast v)
          cols row.
Proof.
  intros Hsub Hflat Hcells. unfold flat in Hflat.
  rewrite forallb_forall in Hflat.
  induction Hcells as [|col c cols cs [cast [Hc ->]] Hcs IH]; constructor.
  - unfold cell_of. destruct (dict_get d col) as [v|] eqn:E.
    + exists v, cast. apply dict_get_Some_In in E.
      split; [exact E|]. split; [exact (Hflat (col, v) E)|].
      split; [exact Hc | reflexivity].
    + exfalso. apply dict_get_None in E. apply E, Hsub. now left.
  - apply IH. intros col' Hc'. apply Hsub. now right.
Qed.

(** Records with one key set give the keys of the first record, in its
    order. *)
Lemma same_keys_columns (d : list (str * json))
  (objs : list (list (str * json))) :
  NoDup (dict_keys d) ->
  (forall d', In d' objs -> same_keys d d') ->
  first_seen (concat (map (@dict_keys json) (d :: objs))) = dict_keys d.
Proof.
  intros Hd Hs. cbn [map concat]. rewrite first_seen_app_seen.
  - now apply first_seen_fixed.
  - intros x Hx. apply in_concat in Hx as [ks [Hks Hx]].
    apply in_map_iff in Hks as [d' [<- Hd']]. now apply (Hs d' Hd').
Qed.

End FrameFacts.

(* ------------------------------------------------------------------ *)
(** * Properties of the decoder *)

Module JsonFacts.
Import StrFacts.

Lemma match_number_scalar (s : str) (v : json) (rest : str) :
  match_number s = Some (v, rest) -> scalar v = true.
Proof.
  unfold match_number. intros H.
  repeat (break_match_hyp H; try discriminate);
    injection H as <- _; reflexivity.
Qed.

Lemma scalar_well_formed (v : json) : scalar v = true -> well_formed v.
Proof. destruct v; cbn; try discriminate; trivial. Qed.

Lemma wf_items_Forall l : wf_items l <-> Forall well_formed l.
Proof.
  induction l as [|x l IH]; cbn.
  - split; constructor.
  - rewrite IH. split; [intros [? ?]; now constructor | intros H; now inversion H].
Qed.

Lemma dict_set_keys (d : list (str * json)) k v x :
  In x (map fst (dict_set d k v)) <-> x = k \/ In x (map fst d).
Proof.
  induction d as [|[k' v'] d IH]; cbn [dict_set map fst In].
  - intuition.
  - destruct (str_eqb k' k) eqn:E; cbn [map fst In].
    + apply str_eqb_eq in E. subst. intuition.
    + rewrite IH. intuition.
Qed.

Lemma dict_set_NoDup (d : list (str * json)) k v :
  NoDup (map fst d) -> NoDup (map fst (dict_set d k v)).
Proof.
  induction d as [|[k' v'] d IH]; cbn [dict_set map fst]; intros H.
  - constructor; [intros [] | constructor].
  - inversion H as [|? ? Hn Hd]; subst.
    destruct (str_eqb k' k) eqn:E; cbn [map fst].
    + now constructor.
    + constructor; [|now apply IH].
      rewrite dict_set_keys. apply str_eqb_neq in E. intuition.
Qed.

Lemma dict_set_wf_values (d : list (str * json)) k v :
  wf_values d -> well_formed v -> wf_values (dict_set d k v).
Proof.
  induction d as [|[k' v'] d IH]; cbn [dict_set wf_values fold_right snd].
  - intuition.
  - intros [H1 H2] Hv. destruct (str_eqb k' k); cbn [fold_right snd]; intuition.
Qed.

Lemma scan_once_well_formed (fuel : nat) :
  (forall s p v r p', scan_once fuel s p = Scanned v r p' -> well_formed v) /\
  (forall acc s p v r p', wf_items acc ->
     parse_array_items fuel acc s p = Scanned v r p' -> well_formed v) /\
  (forall d s p v r p', NoDup (map fst d) -> wf_values d ->
     parse_object_items fuel d s p = Scanned v r p' -> well_formed v).
Proof.
  induction fuel as [|fuel [IH1 [IH2 IH3]]].
  - repeat split; intros; discriminate.
  - repeat split.
    + intros s p v r p' H. cbn [scan_once] in H.
      destruct s as [|c s]; [discriminate|].
      repeat (break_match_hyp H; try discriminate);
        try (injection H as <- _ _; cbn; now repeat constructor).
      all: try (eapply IH3; [| |exact H]; [constructor | exact I]).
      all: try (eapply IH2; [|exact H]; exact I).
      all: try (injection H as <- _ _; apply scalar_well_formed;
                eapply match_number_scalar; eassumption).
      all: unfold scan_map in H; break_match_hyp H; try discriminate;
        injection H as <- _ _; exact I.
    + intros acc s p v r p' Hacc H. cbn [parse_array_items] in H.
      destruct (scan_once fuel s p) as [v0 r0 p0| | |] eqn:E0; try discriminate.
      apply IH1 in E0.
      repeat (break_match_hyp H; try discriminate).
      all: first
        [ eapply IH2; [|exact H]; cbn; tauto
        | injection H as <- _ _; change (wf_items (rev (v0 :: acc)));
          rewrite wf_items_Forall; apply Forall_rev;
          rewrite <- wf_items_Forall; cbn; tauto ].
    + intros d s p v r p' Hd Hv H. cbn [parse_object_items] in H.
      repeat (break_match_hyp H; try discriminate).
      all: match goal with
           | E : scan_once _ _ _ = Scanned _ _ _ |- _ => apply IH1 in E
           end.
      all: first
        [ eapply IH3; [| |exact H];
          [now apply dict_set_NoDup | now apply dict_set_wf_values]
        | injection H as <- _ _; cbn [well_formed]; split;
          [now apply dict_set_NoDup | now apply dict_set_wf_values] ].
Qed.

Lemma json_loads_well_formed (s : str) (v : json) :
  json_loads s = Ok v -> well_formed v.
Proof.
  unfold json_loads. intros H.
  repeat (break_match_hyp H; try discriminate).
  injection H as <-.
  eapply (proj1 (scan_once_well_formed _)). eassumption.
Qed.

(** ** Progress and fuel *)

Lemma skip_ws_length (s : str) (p : nat) :
  length (fst (skip_ws s p)) <= length s.
Proof.
  revert p. induction s as [|c s IH]; intros p; cbn [skip_ws]; [cbn; lia|].
  destruct (is_ws c); [|cbn; lia].
  specialize (IH (S p)). cbn [length]. lia.
Qed.

Lemma skip_ws_eq_length (s : str) (p : nat) (s' : str) (p' : nat) :
  skip_ws s p = (s', p') -> length s' <= length s.
Proof. intros H. pose proof (skip_ws_length s p) as L. now rewrite H in L. Qed.

Lemma span_digits_length (s : str) (ds rest : str) :
  span_digits s = (ds, rest) -> length rest <= length s.
Proof.
  revert ds rest. induction s as [|c s IH]; intros ds rest; cbn [span_digits].
  - intros [= <- <-]. cbn. lia.
  - destruct (is_digit c).
    + destruct (span_digits s) as [ds' rest'] eqn:E. intros [= <- <-].
      specialize (IH ds' rest' eq_refl). cbn [length]. lia.
    + intros [= <- <-]. lia.
Qed.

Ltac lengths :=
  repeat match goal with
    | E : skip_ws _ _ = (_, _) |- _ => apply skip_ws_eq_length in E
    | E : span_digits _ = (_, _) |- _ => apply span_digits_length in E
    end;
  cbn [length] in *; try lia.

Lemma match_number_progress (s : str) (v : json) (rest : str) :
  match_number s = Some (v, rest) -> length rest < length s.
Proof.
  unfold match_number. intros H.
  repeat (break_match_hyp H; try discriminate).
  all: repeat match goal with
         | E : (_, _) = (_, _) |- _ => injection E as ? ?
         | E : Some _ = Some _ |- _ => injection E as ? ?
         end; subst; lengths.
Qed.

Lemma scan_cons_Scanned (c : char) (res : scan str) (v r : str) (p : nat) :
  scan_cons c res = Scanned v r p ->
  exists v', res = Scanned v' r p.
Proof.
  destruct res; cbn; try discriminate. intros [= <- <- <-]. now eexists.
Qed.

Lemma scan_cons_fuel (c : char) (res : scan str) :
  scan_cons c res = OutOfFuel -> res = OutOfFuel.
Proof. destruct res; cbn; congruence. Qed.

Lemma scanstring_sound (n : nat) :
  forall s, length s <= n -> forall p b,
    scanstring s p b <> OutOfFuel /\
    forall v r p', scanstring s p b = Scanned v r p' -> length r < length s.
Proof.
  induction n as [|n IH]; intros s Hn p b.
  - destruct s; [|cbn [length] in Hn; lia]. cbn. split; [discriminate|].
    intros; discriminate.
  - destruct s as [|c s]; [cbn; split; [discriminate | intros; discriminate]|].
    cbn [length] in Hn. split.
    + cbn [scanstring]. intros H.
      repeat (break_match_hyp H; try discriminate).
      all: apply scan_cons_fuel in H.
      all: revert H; apply IH; cbn [length] in *; lia.
    + intros v r p' H. cbn [scanstring] in H.
      repeat (break_match_hyp H; try discriminate).
      all: try (injection H as <- <- <-; cbn [length]; lia).
      all: apply scan_cons_Scanned in H as [v' H].
      all: apply IH in H; cbn [length] in *; lia.
Qed.

Lemma scanstring_fuel (s : str) (p b : nat) : scanstring s p b <> OutOfFuel.
Proof. now apply (scanstring_sound (length s)). Qed.

Lemma scanstring_progress (s : str) (p b : nat) (v r : str) (p' : nat) :
  scanstring s p b = Scanned v r p' -> length r < length s.
Proof. now apply (scanstring_sound (length s)). Qed.

Lemma Scanned_rest (A : Type) (v v' : A) (r r' : str) (p p' : nat) :
  Scanned v r p = Scanned v' r' p' -> r = r'.
Proof. now intros [= _ -> _]. Qed.

Lemma scan_once_progress (fuel : nat) :
  (forall s p v r p',
     scan_once fuel s p = Scanned v r p' -> length r < length s) /\
  (forall acc s p v r p',
     parse_array_items fuel acc s p = Scanned v r p' -> length r < length s) /\
  (forall d s p v r p',
     parse_object_items fuel d s p = Scanned v r p' -> length r < length s).
Proof.
  induction fuel as [|fuel [IH1 [IH2 IH3]]].
  - repeat split; intros; discriminate.
  - split; [|split].
    + intros s p v r p' H. cbn [scan_once] in H.
      destruct s as [|c s]; [discriminate|].
      repeat (break_match_hyp H; try discriminate).
      all: try (apply Scanned_rest in H; subst r; rewrite ?length_skipn;
                lengths; fail).
      all: try (apply IH3 in H; lengths; fail).
      all: try (apply IH2 in H; lengths; fail).
      all: try (apply Scanned_rest in H; subst r;
                match goal with
                | E : match_number _ = Some _ |- _ =>
                    apply match_number_progress in E
                end; lengths; fail).
      all: unfold scan_map in H; break_match_hyp H; try discriminate;
        injection H as _ <- _;
        match goal with
        | E : scanstring _ _ _ = Scanned _ _ _ |- _ =>
            apply scanstring_progress in E
        end; lengths.
    + intros acc s p v r p' H. cbn [parse_array_items] in H.
      destruct (scan_once fuel s p) as [v0 r0 p0| | |] eqn:E0; try discriminate.
      apply IH1 in E0.
      repeat (break_match_hyp H; try discriminate).
      all: first [ apply IH2 in H; lengths
                 | injection H as _ <- _; lengths ].
    + intros d s p v r p' H. cbn [parse_object_items] in H.
      repeat (break_match_hyp H; try discriminate).
      all: repeat match goal with
           | E : scan_once _ _ _ = Scanned _ _ _ |- _ => apply IH1 in E
           | E : scanstring _ _ _ = Scanned _ _ _ |- _ =>
               apply scanstring_progress in E
           end.
      all: first [ apply IH3 in H; lengths
                 | injection H as _ <- _; lengths ].
Qed.

Lemma scan_map_fuel (A B : Type) (f : A -> B) (res : scan A) :
  scan_map f res = OutOfFuel -> res = OutOfFuel.
Proof. destruct res; cbn; congruence. Qed.

Ltac progress_facts :=
  repeat match goal with
    | E : scan_once _ _ _ = Scanned _ _ _ |- _ =>
        apply (proj1 (scan_once_progress _)) in E
    | E : scanstring _ _ _ = Scanned _ _ _ |- _ =>
        apply scanstring_progress in E
    end.

(** Two units of fuel for every character and one more are enough. *)
Lemma scan_once_enough_fuel (fuel : nat) :
  (forall s p, 2 * length s + 1 <= fuel -> scan_once fuel s p <> OutOfFuel) /\
  (forall acc s p, 2 * length s + 2 <= fuel ->
     parse_array_items fuel acc s p <> OutOfFuel) /\
  (forall d s p, 2 * length s + 1 <= fuel ->
     parse_object_items fuel d s p <> OutOfFuel).
Proof.
  induction fuel as [|fuel [IH1 [IH2 IH3]]].
  - repeat split; intros; lia.
  - split; [|split].
    + intros s p Hf H. cbn [scan_once] in H.
      destruct s as [|c s]; [discriminate|]. cbn [length] in Hf.
      repeat (break_match_hyp H; try discriminate).
      all: try (revert H; apply IH3; lengths; fail).
      all: try (revert H; apply IH2; lengths; fail).
      all: apply scan_map_fuel in H; revert H; apply scanstring_fuel.
    + intros acc s p Hf H. cbn [parse_array_items] in H.
      destruct (scan_once fuel s p) as [v0 r0 p0| | |] eqn:E0; try discriminate.
      * progress_facts.
        repeat (break_match_hyp H; try discriminate).
        all: revert H; apply IH2; lengths.
      * revert E0. apply IH1. lia.
    + intros d s p Hf H. cbn [parse_object_items] in H.
      repeat (break_match_hyp H; try discriminate).
      all: progress_facts.
      all: try (revert H; apply IH3; lengths; fail).
      all: try (match goal with
                | E : scan_once _ _ _ = OutOfFuel |- _ =>
                    revert E; apply IH1; lengths
                end; fail).
      all: match goal with
           | E : scanstring _ _ _ = OutOfFuel |- _ =>
               revert E; apply scanstring_fuel
           end.
Qed.

(** [json_loads] never runs out of fuel: it returns a value or raises a
    [JSONDecodeError]. *)
Lemma json_loads_total (s : str) :
  (exists v, json_loads s = Ok v) \/
  (exists msg pos, json_loads s = Raise (JSONDecodeError msg s pos)).
Proof.
  unfold json_loads.
  destruct (startswith [BOM] s); [right; now do 2 eexists|].
  destruct (skip_ws s 0) as [s0 p0] eqn:E0.
  destruct (scan_once (2 * length s + 2) s0 p0) as [v r p|p|msg p|] eqn:E.
  - destruct (skip_ws r p) as [[|c r'] p']; [left | right]; now repeat eexists.
  - right. now do 2 eexists.
  - right. now do 2 eexists.
  - exfalso. revert E. apply (proj1 (scan_once_enough_fuel _)). lengths.
Qed.

End JsonFacts.

(* ------------------------------------------------------------------ *)
(** * Properties of [get_text] *)

Module SoupFacts.

Lemma element_forall_ind (P : element -> Prop) :
  (forall cls text, P (Str cls text)) ->
  (forall name children, Forall P children -> P (Tag name children)) ->
  forall e, P e.
Proof.
  intros HS HT. fix IH 1. intros [cls text | name children].
  - apply HS.
  - apply HT. induction children as [|c cs IHcs]; constructor.
    + apply IH.
    + exact IHcs.
Qed.

Lemma all_strings_app (b : bool) (xs ys : list element) :
  all_strings b (xs ++ ys) = all_strings b xs ++ all_strings b ys.
Proof.
  induction xs as [|[cls text | name children] xs IH]; cbn [app all_strings].
  - reflexivity.
  - destruct (interesting cls); [|exact IH].
    destruct (b && _); [exact IH|]. cbn [app]. now rewrite IH.
  - exact IH.
Qed.

Lemma all_strings_flat_map (f g : element -> list element)
  (h : element -> list str) (children : list element) :
  Forall (fun e => all_strings true (f e) = h e) children ->
  all_strings true (flat_map f children) = flat_map h children.
Proof.
  induction 1 as [|c cs Hc Hcs IH]; [reflexivity|].
  cbn [flat_map]. now rewrite all_strings_app, Hc, IH.
Qed.

Lemma pieces_flat_map (h : element -> list str) (l : list element) :
  pieces (flat_map h l) = flat_map (fun e => pieces (h e)) l.
Proof.
  induction l as [|e l IH]; [reflexivity|].
  cbn [flat_map]. rewrite <- IH. unfold pieces.
  now rewrite map_app, filter_app.
Qed.

(** The strings [get_text] yields under an element are the pieces of its
    visible strings. *)
Lemma all_strings_element (e : element) :
  all_strings true (self_and_descendants e) = pieces (visible_strings e).
Proof.
  induction e as [cls text | name children IH] using element_forall_ind.
  - cbn [self_and_descendants all_strings visible_strings].
    destruct cls; cbn [interesting]; try reflexivity;
      unfold pieces; cbn [map filter andb];
      destruct (length (strip text) =? 0); reflexivity.
  - cbn [self_and_descendants all_strings visible_strings].
    rewrite pieces_flat_map.
    now apply (all_strings_flat_map self_and_descendants self_and_descendants).
Qed.

Lemma all_strings_soup (soup : list element) :
  all_strings true (descendants soup) = visible_pieces soup.
Proof.
  unfold descendants, visible_pieces.
  rewrite pieces_flat_map.
  apply (all_strings_flat_map self_and_descendants self_and_descendants).
  apply Forall_forall. intros e _. apply all_strings_element.
Qed.



Lemma get_text_pieces (sep : str) (soup : list element) :
  get_text sep true soup = join sep (visible_pieces soup).
Proof. unfold get_text. now rewrite all_strings_soup. Qed.

End SoupFacts.

(* ------------------------------------------------------------------ *)
(** * More on [strip] and fences *)

Module FenceFacts.
Import StrFacts StripFacts CleanFacts.

Lemma dropwhile_app_stop (f : char -> bool) (a : str) (c : char) (t : str) :
  f c = false -> dropwhile f (a ++ c :: t) = dropwhile f a ++ c :: t.
Proof.
  intros Hc. induction a as [|x a IH]; cbn [app dropwhile].
  - now rewrite Hc.
  - destruct (f x); [exact IH | reflexivity].
Qed.

(** [strip] keeps a run of backticks that the text holds. *)
Lemma strip_keeps_fence (a b : str) :
  strip (a ++ FENCE ++ b) = lstrip a ++ FENCE ++ rstrip b.
Proof.
  unfold strip, lstrip. rewrite FENCE_eq. cbn [app].
  rewrite dropwhile_app_stop by reflexivity.
  unfold rstrip.
  replace (rev (dropwhile isspace a
                  ++ BACKTICK :: BACKTICK :: BACKTICK :: b))
    with (rev b ++ BACKTICK :: BACKTICK :: BACKTICK
            :: rev (dropwhile isspace a)).
  - rewrite dropwhile_app_stop by reflexivity.
    rewrite rev_app_distr. cbn [rev]. rewrite rev_involutive.
    now rewrite <- !app_assoc.
  - rewrite rev_app_distr. cbn [rev]. now rewrite <- !app_assoc.
Qed.

Lemma strip_contains_fence (text : str) :
  contains FENCE text = true -> contains FENCE (strip text) = true.
Proof.
  intros H. apply contains_iff in H as [a [b ->]].
  rewrite strip_keeps_fence. apply contains_iff. now exists (lstrip a), (rstrip b).
Qed.

End FenceFacts.

(* ------------------------------------------------------------------ *)
(** * Properties of the extractor *)

Module ExtractorFacts.
Import StrFacts FrameFacts JsonFacts.

Lemma extractor_on_reply (X : externals) (prompt : str) (content : part)
  (text : str) :
  generate_content X (request_of prompt content) = Ok text ->
  gemini_data_extractor X prompt content = outcome_of X prompt content text.
Proof.
  intros H. unfold gemini_data_extractor, extract, outcome_of.
  rewrite H. reflexivity.
Qed.

Lemma extractor_with_reply (X : externals) (prompt : str) (content : part)
  (text : str) :
  gemini_data_extractor (with_reply X (Ok text)) prompt content =
  outcome_of X prompt content text.
Proof. reflexivity. Qed.

Lemma normalize_records (X : externals) (text : str)
  (objs : list (list (str * json))) :
  json_loads (clean_json_string text) = Ok (JArray (map JObject objs)) ->
  normalize X text =
  match objs with
  | [] => Ok empty_frame
  | _ :: _ => from_records (ensure_index X) (infer_dtype X) objs
  end.
Proof.
  intros H. unfold normalize. rewrite H. cbn [bind].
  destruct objs as [|d objs]; [reflexivity | apply pd_DataFrame_records].
Qed.

Lemma normalize_decode_error (X : externals) (text : str) (e : exception) :
  json_loads (clean_json_string text) = Raise e -> normalize X text = Raise e.
Proof. intros H. unfold normalize. now rewrite H. Qed.

Lemma accepts_or_raises (X : externals) (objs : list (list (str * json)))
  (e : exception) :
  constructor_accepts X objs -> constructor_raises X objs e -> False.
Proof.
  intros [->|[Hi Hc]] [Hn Hr]; [now apply Hn|].
  destruct Hr as [Hr|[col [Hin Hr]]]; [congruence|].
  destruct (Hc col Hin) as [cast Hcast]. congruence.
Qed.

(** The two outcomes of the extractor on a reply that decodes to an array
    of objects. *)
Lemma extractor_records (X : externals) (prompt : str) (content : part)
  (text : str) (objs : list (list (str * json))) :
  generate_content X (request_of prompt content) = Ok text ->
  json_loads (clean_json_string text) = Ok (JArray (map JObject objs)) ->
  (constructor_accepts X objs /\
   exists df,
     gemini_data_extractor X prompt content
       = (df, [sent (request_of prompt content)]) /\
     columns df = labels objs /\
     length (rows df) = length objs /\
     (forall i d, nth_error objs i = Some d ->
        exists row, nth_error (rows df) i = Some row /\
          Forall2 (fun col c =>
                     exists cast,
                       infer_dtype X (column_array objs col) = Ok cast /\
                       c = apply_cast cast (cell_of d col))
                  (columns df) row)) \/
  (exists e,
     constructor_raises X objs e /\
     gemini_data_extractor X prompt content
       = (empty_frame,
          [sent (request_of prompt content);
           st_error (py "AI Extraction Failed: " ++ exc_str e)])).
Proof.
  intros Hg Hj. rewrite (extractor_on_reply X prompt content text Hg).
  unfold outcome_of. rewrite (normalize_records X text objs Hj).
  destruct objs as [|d objs].
  - left. split; [now left|]. exists empty_frame.
    split; [reflexivity|]. split; [reflexivity|]. split; [reflexivity|].
    intros [|i] d' H; discriminate H.
  - destruct (from_records (ensure_index X) (infer_dtype X) (d :: objs))
      as [df|e] eqn:E.
    + left. split.
      * right. now apply (from_records_Ok_accepted _ _ _ df).
      * exists df. split; [reflexivity|].
        now apply from_records_Ok in E.
    + right. exists e. split; [|reflexivity].
      split; [discriminate|]. now apply from_records_Raise.
Qed.

(** The objects of a decoded array have no key twice. *)
Lemma decoded_records_NoDup (s : str) (objs : list (list (str * json)))
  (d : list (str * json)) :
  json_loads s = Ok (JArray (map JObject objs)) ->
  In d objs -> NoDup (dict_keys d).
Proof.
  intros H Hd. apply json_loads_well_formed in H. cbn [well_formed] in H.
  induction objs as [|d' objs IH]; [destruct Hd|].
  cbn [map fold_right] in H. destruct H as [[Hn _] H].
  destruct Hd as [->|Hd]; [exact Hn | now apply IH].
Qed.

End ExtractorFacts.

(* ------------------------------------------------------------------ *)
(** * The claims *)

Import StrFacts StripFacts CleanFacts FenceFacts FrameFacts JsonFacts.
Import SoupFacts ExtractorFacts.

(** C1, as stated, fails: the [DataFrame] constructor can refuse an array
    of flat objects with one key set.  Under pandas 3 with pyarrow, the reply
    with the one record whose k is the escaped lone surrogate d83d decodes
    to one flat object; the string column it gives cannot be built, so the
    extractor shows an error and returns the empty table, with no record
    where the claim has one. *)
Lemma extractor_refuses_lone_surrogate :
  let text := pyq "[{'k':'\ud83d'}]" in
  let objs := [[(py "k", JStr [55357%N])]] in
  let X := with_reply pandas3 (Ok text) in
  json_loads (clean_json_string text) = Ok (JArray (map JObject objs)) /\
  forallb flat objs = true /\
  (forall d d', In d objs -> In d' objs -> same_keys d d') /\
  gemini_data_extractor X [] (TextPart []) =
    (empty_frame,
     [sent (request_of [] (TextPart []));
      st_error (py "AI Extraction Failed: "
                ++ exc_str (surrogates_not_allowed 55357%N 0))]) /\
  length (rows (fst (gemini_data_extractor X [] (TextPart []))))
    <> length objs.
Proof.
  cbv zeta. split; [vm_compute; reflexivity|]. split; [reflexivity|].
  split; [|split; [vm_compute; reflexivity | vm_compute; discriminate]].
  intros d d' [<-|[]] [<-|[]] k. reflexivity.
Qed.

(** C1, amended.  When the cleaned reply decodes to an array of N flat
    objects (N >= 0) that all have the same key set, and the [DataFrame]
    constructor accepts them (the index of the labels is built and every
    column is converted to its dtype; nothing is asked for N = 0),
    [gemini_data_extractor] shows no error and returns a table with exactly
    N records, whose column list is that key set in first-seen order (the
    keys of the first object, in its order; no column for N = 0); every row
    has a cell per column, and the cell holds the scalar the record gives
    for the column, cast to the dtype of the column.  When the constructor
    raises, the extractor shows the message of an exception it raises and
    returns the empty table. *)
Theorem extractor_consistent_keys (X : externals) (prompt : str)
  (content : part) (text : str) (objs : list (list (str * json))) :
  generate_content X (request_of prompt content) = Ok text ->
  json_loads (clean_json_string text) = Ok (JArray (map JObject objs)) ->
  forallb flat objs = true ->
  (forall d d', In d objs -> In d' objs -> same_keys d d') ->
  let df := fst (gemini_data_extractor X prompt content) in
  let shown := snd (gemini_data_extractor X prompt content) in
  (constructor_accepts X objs ->
   shown = [sent (request_of prompt content)] /\
   length (rows df) = length objs /\
   columns df = match objs with [] => [] | d :: _ => dict_keys d end /\
   (forall d k, In d objs -> In k (columns df) <-> In k (dict_keys d)) /\
   (forall i d, nth_error objs i = Some d ->
      exists row, nth_error (rows df) i = Some row /\
        length row = length (columns df) /\
        Forall2 (fun col c =>
                   exists v cast,
                     In (col, v) d /\ scalar v = true /\
                     infer_dtype X (column_array objs col) = Ok cast /\
                     c = cast v)
                (columns df) row)) /\
  (forall e, constructor_raises X objs e ->
     exists e', constructor_raises X objs e' /\
       df = empty_frame /\
       shown = [sent (request_of prompt content);
                st_error (py "AI Extraction Failed: " ++ exc_str e')]) /\
  (constructor_accepts X objs \/ exists e, constructor_raises X objs e).
Proof.
  intros Hg Hj Hflat Hsame df shown. subst df shown.
  assert (Hlabels : labels objs
                    = match objs with [] => [] | d :: _ => dict_keys d end).
  { destruct objs as [|d objs]; [reflexivity|].
    apply same_keys_columns.
    - eapply decoded_records_NoDup; [exact Hj | now left].
    - intros d' Hd'. apply Hsame; [now left | now right]. }
  destruct (extractor_records X prompt content text objs Hg Hj)
    as [[Hacc [df [Hout [Hcols [Hlen Hrows]]]]] | [e' [Hr Hout]]];
    rewrite Hout; cbn [fst snd].
  - split; [|split; [|now left]].
    + intros _. split; [reflexivity|]. split; [exact Hlen|].
      rewrite Hcols, Hlabels. split; [reflexivity|]. split.
      * intros d k Hd. destruct objs as [|d0 objs]; [destruct Hd|].
        exact (Hsame d0 d (or_introl eq_refl) Hd k).
      * intros i d Hi. destruct (Hrows i d Hi) as [row [Hrow Hcells]].
        exists row. split; [exact Hrow|].
        rewrite Hcols, Hlabels in Hcells.
        split; [symmetry; exact (Forall2_length Hcells)|].
        assert (Hd : In d objs) by (eapply nth_error_In; exact Hi).
        assert (Hsub : forall col,
                  In col (match objs with [] => [] | d0 :: _ => dict_keys d0 end)
                  -> In col (dict_keys d)).
        { intros col Hc. destruct objs as [|d0 objs]; [destruct Hd|].
          exact (proj1 (Hsame d0 d (or_introl eq_refl) Hd col) Hc). }
        rewrite forallb_forall in Hflat.
        exact (flat_row_cells _ objs d _ row Hsub (Hflat d Hd) Hcells).
    + intros e Hr. exfalso. exact (accepts_or_raises X objs e Hacc Hr).
  - split; [|split; [|right; now exists e']].
    + intros Hacc. exfalso. exact (accepts_or_raises X objs e' Hacc Hr).
    + intros e _. exists e'. now split.
Qed.

Lemma extractor_consistent_keys_witness :
  let text := pyq "[{'Item':'Coffee','Price':4.5},{'Price':3,'Item':'Tea'}]" in
  let X := with_reply offline (Ok text) in
  let df := fst (gemini_data_extractor X [] (TextPart [])) in
  snd (gemini_data_extractor X [] (TextPart []))
    = [sent (request_of [] (TextPart []))] /\
  length (rows df) = 2 /\
  columns df = [py "Item"; py "Price"].
Proof.
  intros text X df.
  destruct (extractor_consistent_keys X [] (TextPart []) text
              [[(py "Item", JStr (py "Coffee")); (py "Price", JFloat (py "4.5"))];
               [(py "Price", JInt 3); (py "Item", JStr (py "Tea"))]])
    as [H _].
  - reflexivity.
  - vm_compute. reflexivity.
  - reflexivity.
  - intros d d' Hd Hd' k. cbn [In] in Hd, Hd'.
    destruct Hd as [<-|[<-|[]]]; destruct Hd' as [<-|[<-|[]]];
      cbn; intuition.
  - destruct H as [H1 [H2 [H3 _]]].
    + right. split; [reflexivity|]. intros col _. now exists Val.
    + split; [exact H1|]. split; [exact H2 | exact H3].
Defined.

(** The scenario of the specification: the reply [[]] gives a table with no
    record and no column, and no error is shown. *)
Example empty_array_reply (prompt : str) (content : part) :
  gemini_data_extractor (with_reply offline (Ok (py "[]"))) prompt content =
  ({| columns := []; rows := [] |}, [sent (request_of prompt content)]).
Proof. reflexivity. Qed.




(** The scenario of the specification: a reply that is no JSON at all. *)
Example not_json_reply (prompt : str) (content : part) :
  gemini_data_extractor (with_reply offline (Ok (py "not json at all")))
    prompt content =
  (empty_frame,
   [sent (request_of prompt content);
    st_error (py "AI Extraction Failed: Expecting value: line 1 column 1 (char 0)")]).
Proof. reflexivity. Qed.

(** C3.  [clean_json_string] does not strip every markdown code block: of
    the opening fences only the one with the tag json in lower case and the
    one with no tag are removed whole.  The reply with the one record Coffee,
    4.5, wrapped in a fence tagged JSON in capitals, is cleaned to the tag,
    a line break and the reply; the decoder rejects it, so the extractor
    returns the empty table and shows an error, where the bare reply gives
    the table of the one record.  A fence tagged javascript, a fence of
    tildes and a fence of four backticks are not stripped either. *)
Lemma fence_with_other_tag_is_not_stripped :
  let reply := pyq "[{'Item':'Coffee','Price':4.5}]" in
  let wrapped := wrap (py "```JSON") reply in
  clean_json_string wrapped = py "JSON" ++ [LF] ++ reply /\
  clean_json_string reply = reply /\
  (forall X prompt content,
     gemini_data_extractor (with_reply X (Ok wrapped)) prompt content =
     (empty_frame,
      [sent (request_of prompt content);
       st_error (py "AI Extraction Failed: Expecting value: line 1 column 1 (char 0)")])) /\
  (forall prompt content,
     gemini_data_extractor (with_reply offline (Ok reply)) prompt content =
     ({| columns := [py "Item"; py "Price"];
         rows := [[Val (JStr (py "Coffee")); Val (JFloat (py "4.5"))]] |},
      [sent (request_of prompt content)])) /\
  clean_json_string (wrap (py "```javascript") reply)
    = py "javascript" ++ [LF] ++ reply /\
  clean_json_string (py "~~~" ++ [LF] ++ reply ++ [LF] ++ py "~~~")
    = py "~~~" ++ [LF] ++ reply ++ [LF] ++ py "~~~" /\
  clean_json_string (py "````json" ++ [LF] ++ reply ++ [LF] ++ py "````")
    = py "`" ++ [LF] ++ reply ++ [LF] ++ py "`" /\
  (exists e,
     json_loads (clean_json_string (wrap (py "```javascript") reply))
     = Raise e) /\
  (exists e,
     json_loads (clean_json_string
                   (py "~~~" ++ [LF] ++ reply ++ [LF] ++ py "~~~"))
     = Raise e) /\
  (exists e,
     json_loads (clean_json_string
                   (py "````json" ++ [LF] ++ reply ++ [LF] ++ py "````"))
     = Raise e).
Proof.
  cbv zeta. split; [vm_compute; reflexivity|].
  split; [vm_compute; reflexivity|]. split.
  { intros X prompt content. rewrite extractor_with_reply. unfold outcome_of.
    rewrite (normalize_decode_error X _
               (JSONDecodeError (py "Expecting value")
                  (py "JSON" ++ [LF] ++ pyq "[{'Item':'Coffee','Price':4.5}]")
                  0)); [reflexivity | vm_compute; reflexivity]. }
  split; [reflexivity|].
  split; [vm_compute; reflexivity|]. split; [vm_compute; reflexivity|].
  split; [vm_compute; reflexivity|].
  split; [|split]; eexists; vm_compute; reflexivity.
Qed.

(** Wrapping a reply in a markdown code fence whose opening is the fence
    with the tag json or the fence with no tag (the opening, a line break,
    the reply, a line break, the closing fence), with or without white space
    around the fence, does not change what the normalizer produces: the
    wrapped reply is cleaned to the same text as the bare reply, so it gives
    the same frame with the same rows in the same order and the same
    messages; a bare reply that has no fence and no white space around it
    comes back as it is; and cleaning twice is cleaning once. *)
Theorem fence_wrapping_is_transparent (X : externals) (opening reply : str) :
  opening = FENCE_JSON \/ opening = FENCE ->
  clean_json_string (wrap opening reply) = clean_json_string reply /\
  (forall before after,
     forallb isspace before = true -> forallb isspace after = true ->
     clean_json_string (before ++ wrap opening reply ++ after)
     = clean_json_string reply) /\
  normalize X (wrap opening reply) = normalize X reply /\
  (forall prompt content,
     gemini_data_extractor (with_reply X (Ok (wrap opening reply)))
       prompt content =
     gemini_data_extractor (with_reply X (Ok reply)) prompt content) /\
  (contains FENCE reply = false -> strip reply = reply ->
   clean_json_string (wrap opening reply) = reply) /\
  clean_json_string (clean_json_string reply) = clean_json_string reply.
Proof.
  intros Ho. pose proof (clean_wrap opening reply Ho) as Hc.
  assert (Hn : normalize X (wrap opening reply) = normalize X reply).
  { unfold normalize. now rewrite Hc. }
  repeat split.
  - exact Hc.
  - intros before after Hb Ha. now rewrite clean_padding.
  - exact Hn.
  - intros prompt content. rewrite !extractor_with_reply.
    unfold outcome_of. now rewrite Hn.
  - intros Hf Hs. rewrite Hc. now apply clean_fixed.
  - apply clean_idempotent.
Qed.

Lemma fence_wrapping_is_transparent_witness :
  let reply := pyq "[{'Item':'Coffee','Price':4.5}]" in
  clean_json_string (wrap FENCE_JSON reply) = clean_json_string reply /\
  (forall before after,
     forallb isspace before = true -> forallb isspace after = true ->
     clean_json_string (before ++ wrap FENCE_JSON reply ++ after)
     = clean_json_string reply) /\
  normalize offline (wrap FENCE_JSON reply) = normalize offline reply /\
  (forall prompt content,
     gemini_data_extractor (with_reply offline (Ok (wrap FENCE_JSON reply)))
       prompt content =
     gemini_data_extractor (with_reply offline (Ok reply)) prompt content) /\
  (contains FENCE reply = false -> strip reply = reply ->
   clean_json_string (wrap FENCE_JSON reply) = reply) /\
  clean_json_string (clean_json_string reply) = clean_json_string reply.
Proof.
  intros reply.
  apply (fence_wrapping_is_transparent offline FENCE_JSON reply).
  left. reflexivity.
Defined.

(** The scenario of the specification: the fenced reply gives the columns
    Item and Price and the one record Coffee, 4.5. *)
Example fenced_coffee_reply (prompt : str) (content : part) :
  fst (gemini_data_extractor
         (with_reply offline
            (Ok (wrap FENCE_JSON (pyq "[{'Item':'Coffee','Price':4.5}]"))))
         prompt content) =
  {| columns := [py "Item"; py "Price"];
     rows := [[Val (JStr (py "Coffee")); Val (JFloat (py "4.5"))]] |}.
Proof. reflexivity. Qed.

(** C4, as stated, fails: a record that misses a key can end in an error.
    Under pandas 3 with pyarrow, of the two records of the reply the first
    has the key A only, with the escaped lone surrogate d83d, and the second
    the key B only; the string column A cannot be built, so the extractor
    shows an error and returns the empty table, with no column and no
    record. *)
Lemma extractor_refuses_differing_keys :
  let text := pyq "[{'A':'\ud83d'},{'B':1}]" in
  let objs := [[(py "A", JStr [55357%N])]; [(py "B", JInt 1)]] in
  let X := with_reply pandas3 (Ok text) in
  json_loads (clean_json_string text) = Ok (JArray (map JObject objs)) /\
  forallb flat objs = true /\
  labels objs = [py "A"; py "B"] /\
  gemini_data_extractor X [] (TextPart []) =
    (empty_frame,
     [sent (request_of [] (TextPart []));
      st_error (py "AI Extraction Failed: "
                ++ exc_str (surrogates_not_allowed 55357%N 0))]) /\
  columns (fst (gemini_data_extractor X [] (TextPart []))) <> labels objs.
Proof.
  cbv zeta. split; [vm_compute; reflexivity|]. split; [reflexivity|].
  split; [vm_compute; reflexivity|].
  split; [vm_compute; reflexivity | vm_compute; discriminate].
Qed.

(** C4, amended.  When the cleaned reply decodes to an array of objects,
    whatever their key sets, and the [DataFrame] constructor accepts them
    (the index of the labels is built and every column is converted to its
    dtype), [gemini_data_extractor] shows no error and returns a table whose
    column list is the union of the keys of all records in first-seen order;
    every key of a record is a column, and row i holds for each column the
    value record i gives for it, cast to the dtype of the column, and a null
    ([NaN]) where the record has no such key.  When the constructor raises,
    the extractor shows the message of an exception it raises and returns
    the empty table.  For the reply [{A:1},{A:2,B:x}], when no error is
    shown, the columns are A, B and the first record's B is null. *)
Theorem extractor_union_of_keys (X : externals) (prompt : str)
  (content : part) (text : str) (objs : list (list (str * json))) :
  generate_content X (request_of prompt content) = Ok text ->
  json_loads (clean_json_string text) = Ok (JArray (map JObject objs)) ->
  let df := fst (gemini_data_extractor X prompt content) in
  let shown := snd (gemini_data_extractor X prompt content) in
  (constructor_accepts X objs ->
   shown = [sent (request_of prompt content)] /\
   columns df = first_seen (concat (map (@dict_keys json) objs)) /\
   NoDup (columns df) /\
   (forall k, In k (columns df) <-> exists d, In d objs /\ In k (dict_keys d)) /\
   length (rows df) = length objs /\
   (forall i d, nth_error objs i = Some d ->
      exists row, nth_error (rows df) i = Some row /\
        Forall2 (fun col c =>
                   exists cast,
                     infer_dtype X (column_array objs col) = Ok cast /\
                     (~ In col (dict_keys d) -> c = NaN) /\
                     (forall v, dict_get d col = Some v -> c = cast v) /\
                     (In col (dict_keys d) ->
                      exists v, In (col, v) d /\ dict_get d col = Some v))
                (columns df) row)) /\
  (forall e, constructor_raises X objs e ->
     exists e', constructor_raises X objs e' /\
       df = empty_frame /\
       shown = [sent (request_of prompt content);
                st_error (py "AI Extraction Failed: " ++ exc_str e')]) /\
  (constructor_accepts X objs \/ exists e, constructor_raises X objs e) /\
  (forall X',
     let out :=
       gemini_data_extractor
         (with_reply X' (Ok (pyq "[{'A':1},{'A':2,'B':'x'}]"))) prompt content
     in
     snd out = [sent (request_of prompt content)] ->
     columns (fst out) = [py "A"; py "B"] /\
     exists a a' b, rows (fst out) = [[a; NaN]; [a'; b]]) /\
  fst (gemini_data_extractor
         (with_reply offline (Ok (pyq "[{'A':1},{'A':2,'B':'x'}]")))
         prompt content)
  = {| columns := [py "A"; py "B"];
       rows := [[Val (JInt 1); NaN]; [Val (JInt 2); Val (JStr (py "x"))]] |}.
Proof.
  intros Hg Hj df shown. subst df shown.
  assert (Hex : forall X',
     let out :=
       gemini_data_extractor
         (with_reply X' (Ok (pyq "[{'A':1},{'A':2,'B':'x'}]"))) prompt content
     in
     snd out = [sent (request_of prompt content)] ->
     columns (fst out) = [py "A"; py "B"] /\
     exists a a' b, rows (fst out) = [[a; NaN]; [a'; b]]).
  { intros X' out. subst out. rewrite extractor_with_reply. unfold outcome_of.
    rewrite (normalize_records X' _
               [[(py "A", JInt 1)];
                [(py "A", JInt 2); (py "B", JStr (py "x"))]]);
      [|vm_compute; reflexivity].
    unfold from_records. rewrite columns_first_seen.
    change (first_seen _) with [py "A"; py "B"].
    destruct (ensure_index X' _) as [[]|e]; [|discriminate].
    cbn [map convert_columns].
    destruct (infer_dtype X' _) as [castA|e]; [|discriminate].
    destruct (infer_dtype X' _) as [castB|e]; [|discriminate].
    intros _. cbn [fst columns rows]. split; [reflexivity|].
    do 3 eexists. reflexivity. }
  destruct (extractor_records X prompt content text objs Hg Hj)
    as [[Hacc [df [Hout [Hcols [Hlen Hrows]]]]] | [e' [Hr Hout]]];
    rewrite Hout; cbn [fst snd].
  - split; [|split; [|split; [now left|split; [exact Hex | reflexivity]]]].
    + intros _. split; [reflexivity|]. unfold labels in Hcols.
      split; [exact Hcols|].
      split; [rewrite Hcols; apply first_seen_NoDup|]. split.
      { intros k. rewrite Hcols, first_seen_In, in_concat. split.
        - intros [ks [Hks Hk]]. apply in_map_iff in Hks as [d [<- Hd]].
          now exists d.
        - intros [d [Hd Hk]]. exists (dict_keys d). split; [|exact Hk].
          now apply in_map. }
      split; [exact Hlen|].
      intros i d Hi. destruct (Hrows i d Hi) as [row [Hrow Hcells]].
      exists row. split; [exact Hrow|].
      eapply Forall2_impl; [|exact Hcells].
      intros col c [cast [Hc ->]]. exists cast. split; [exact Hc|].
      unfold cell_of. split; [|split].
      * intros Hn. apply dict_get_None in Hn. now rewrite Hn.
      * intros v Hv. now rewrite Hv.
      * intros Hk. destruct (dict_get d col) as [v|] eqn:E.
        -- exists v. split; [now apply dict_get_Some_In | reflexivity].
        -- apply dict_get_None in E. contradiction.
    + intros e Hr. exfalso. exact (accepts_or_raises X objs e Hacc Hr).
  - split; [|split; [|split; [right; now exists e'
                             |split; [exact Hex | reflexivity]]]].
    + intros Hacc. exfalso. exact (accepts_or_raises X objs e' Hacc Hr).
    + intros e _. exists e'. now split.
Qed.

Lemma extractor_union_of_keys_witness :
  let text := pyq "[{'A':1},{'A':2,'B':'x'}]" in
  let X := with_reply offline (Ok text) in
  let df := fst (gemini_data_extractor X [] (TextPart [])) in
  columns df = first_seen [py "A"; py "A"; py "B"] /\
  length (rows df) = 2.
Proof.
  intros text X df.
  destruct (extractor_union_of_keys X [] (TextPart []) text
              [[(py "A", JInt 1)];
               [(py "A", JInt 2); (py "B", JStr (py "x"))]])
    as [H _].
  - reflexivity.
  - vm_compute. reflexivity.
  - destruct H as [_ [H2 [_ [_ [H5 _]]]]].
    + right. split; [reflexivity|]. intros col _. now exists Val.
    + split; [exact H2 | exact H5].
Defined.




(** C6, as stated, fails for an HTTP failure: [requests.get] returns the
    response of a failed request as it does any other, so a 503 with an
    empty body is scraped to the empty text, which describes no error. *)
Lemma scrape_url_http_failure_is_not_reported :
  let X := site 503 [] [] in
  let url := py "http://example.org/down" in
  requests_get X url = Ok {| status_code := 503; content := [] |} /\
  http_failure {| status_code := 503; content := [] |} = true /\
  scrape_url X url = [] /\
  error_description (scrape_url X url) = false.
Proof. cbv zeta. repeat split. Qed.

(** C6, amended.  For a URL whose fetch raises (a network failure, an
    unreachable host), [scrape_url] does not raise: it returns the text
    Error scraping URL followed by the message of the exception, and the
    sidebar goes on normally with it. *)
Theorem scrape_url_reports_raised_faults (X : externals) (url : str)
  (e : exception) :
  requests_get X url = Raise e ->
  scrape_url X url = py "Error scraping URL: " ++ exc_str e /\
  error_description (scrape_url X url) = true /\
  (forall button, exists df,
     fst (sidebar X (WebsiteURL url button)) = Ok df).
Proof.
  intros H.
  assert (E : scrape_url X url = py "Error scraping URL: " ++ exc_str e).
  { unfold scrape_url. now rewrite H. }
  split; [exact E|]. split.
  - rewrite E. apply startswith_app.
  - intros button. destruct url as [|c url], button; cbn [sidebar fst];
      try (now exists None).
    destruct (gemini_data_extractor X URL_PROMPT
                (TextPart (scrape_url X (c :: url)))) as [df events].
    now exists (Some df).
Qed.

Lemma scrape_url_reports_raised_faults_witness :
  scrape_url offline (py "http://nowhere.invalid") =
    py "Error scraping URL: unreachable" /\
  error_description (scrape_url offline (py "http://nowhere.invalid")) = true.
Proof.
  destruct (scrape_url_reports_raised_faults offline
              (py "http://nowhere.invalid")
              (Exception OtherErrorT (py "unreachable")))
    as [H1 [H2 _]].
  - reflexivity.
  - split; [exact H1 | exact H2].
Defined.



(** C8, as stated, fails: the run also stops when the key is there.  With
    an empty entry in the secrets store and a key in the environment, the
    entry of the store is taken, it counts as missing, and the run stops. *)
Lemma startup_stops_with_key_in_environment :
  let secrets := Some [(GOOGLE_API_KEY, [])] in
  let environ := [(GOOGLE_API_KEY, py "AIzaSy-key")] in
  os_getenv environ GOOGLE_API_KEY = Some (py "AIzaSy-key") /\
  ~ absent_from_both secrets environ /\
  (forall X input,
     script secrets environ X input =
     (StoppedAtStartup, [st_error API_KEY_MISSING])).
Proof.
  cbv zeta. split; [reflexivity|]. split; [|reflexivity].
  intros [_ H]. discriminate H.
Qed.

(** C8, amended.  If the key is absent from the secrets store and from the
    environment, the run stops at startup: it shows that the key is missing
    and nothing else, sends no request and reaches no view.  The run stops
    at startup exactly when the key the setup resolves (the entry of the
    secrets store when there is one, else the environment variable) is
    missing or empty. *)
Theorem startup_stops_without_usable_key
  (secrets : option (list (str * str))) (environ : list (str * str))
  (X : externals) (input : sidebar_input) :
  (absent_from_both secrets environ ->
   script secrets environ X input =
   (StoppedAtStartup, [st_error API_KEY_MISSING])) /\
  (fst (script secrets environ X input) = StoppedAtStartup <->
   api_key secrets environ = None \/ api_key secrets environ = Some []) /\
  (fst (script secrets environ X input) = StoppedAtStartup ->
   snd (script secrets environ X input) = [st_error API_KEY_MISSING]).
Proof.
  assert (Hstop : not_ (api_key secrets environ) = true ->
                  script secrets environ X input =
                  (StoppedAtStartup, [st_error API_KEY_MISSING])).
  { intros H. unfold script, api_setup. cbv zeta. now rewrite H. }
  assert (Hiff : fst (script secrets environ X input) = StoppedAtStartup <->
                 not_ (api_key secrets environ) = true).
  { split.
    - unfold script, api_setup. cbv zeta.
      destruct (not_ (api_key secrets environ)); [reflexivity|].
      destruct (sidebar X input) as [[df|e] events]; discriminate.
    - intros H. now rewrite (Hstop H). }
  split; [|split].
  - intros [Hs He]. apply Hstop. unfold api_key.
    destruct Hs as [-> | [d [-> Hd]]]; cbn [secrets_getitem].
    + now rewrite He.
    + rewrite Hd, He. reflexivity.
  - rewrite Hiff. destruct (api_key secrets environ) as [[|c k]|]; cbn [not_].
    + split; [now right | reflexivity].
    + split; [discriminate | intros [H|H]; discriminate].
    + split; [now left | reflexivity].
  - intros H. apply Hiff in H. now rewrite (Hstop H).
Qed.

Lemma startup_stops_without_usable_key_witness :
  absent_from_both (Some [(py "OTHER_KEY", py "x")]) [(py "PATH", py "/bin")] /\
  script (Some [(py "OTHER_KEY", py "x")]) [(py "PATH", py "/bin")] offline
    VideoIntelligence
  = (StoppedAtStartup, [st_error API_KEY_MISSING]).
Proof.
  assert (H : absent_from_both (Some [(py "OTHER_KEY", py "x")])
                [(py "PATH", py "/bin")]).
  { split; [right; eexists; split; reflexivity | reflexivity]. }
  split; [exact H|].
  exact (proj1 (startup_stops_without_usable_key
                  (Some [(py "OTHER_KEY", py "x")]) [(py "PATH", py "/bin")]
                  offline VideoIntelligence) H).
Defined.

(** C9.  A failed extraction and the extraction of an empty JSON array
    return the same value, the empty table with no record and no column; only
    the message shown tells them apart, and on both the dashboard guard
    falls back to the landing state. *)
Theorem failure_and_empty_array_return_alike (X X' : externals)
  (prompt prompt' : str) (content content' : part) (e : exception)
  (text : str) :
  extract X prompt content = Raise e ->
  generate_content X' (request_of prompt' content') = Ok text ->
  json_loads (clean_json_string text) = Ok (JArray []) ->
  let failed := gemini_data_extractor X prompt content in
  let emptied := gemini_data_extractor X' prompt' content' in
  fst failed = fst emptied /\
  fst failed = {| columns := []; rows := [] |} /\
  main_dashboard (Some (fst failed)) = Landing /\
  main_dashboard (Some (fst emptied)) = Landing /\
  snd failed = [sent (request_of prompt content);
                st_error (py "AI Extraction Failed: " ++ exc_str e)] /\
  snd emptied = [sent (request_of prompt' content')].
Proof.
  intros He Hg Hj failed emptied. subst failed emptied.
  rewrite (extractor_on_reply X' prompt' content' text Hg).
  unfold outcome_of, normalize. rewrite Hj. cbn [bind pd_DataFrame].
  unfold gemini_data_extractor. rewrite He. cbn [fst snd].
  repeat split.
Qed.

Lemma failure_and_empty_array_return_alike_witness :
  let failed :=
    gemini_data_extractor (with_reply offline (Ok (pyq "[{'A':1},]"))) []
      (TextPart []) in
  let emptied :=
    gemini_data_extractor (with_reply offline (Ok (py "[]"))) []
      (TextPart []) in
  fst failed = fst emptied /\
  main_dashboard (Some (fst failed)) = Landing /\
  main_dashboard (Some (fst emptied)) = Landing.
Proof.
  intros failed emptied.
  destruct (failure_and_empty_array_return_alike
              (with_reply offline (Ok (pyq "[{'A':1},]")))
              (with_reply offline (Ok (py "[]")))
              [] [] (TextPart []) (TextPart [])
              (JSONDecodeError (py "Expecting value") (pyq "[{'A':1},]") 9)
              (py "[]"))
    as [H1 [_ [H3 [H4 _]]]].
  - vm_compute. reflexivity.
  - reflexivity.
  - vm_compute. reflexivity.
  - split; [exact H1|]. split; [exact H3 | exact H4].
Defined.

(** C10.  Wrapper stripping removes the fences wherever they stand in the
    reply: the cleaned text holds no run of three backticks, with or without
    the json tag, so a reply that holds one anywhere is not parsed as it was
    written, not even up to the white space around it; a fence inside a JSON
    string value is cut out of the value before parsing. *)
Theorem clean_removes_every_fence (text : str) :
  contains FENCE (clean_json_string text) = false /\
  contains FENCE_JSON (clean_json_string text) = false /\
  (contains FENCE text = true ->
   clean_json_string text <> text /\ clean_json_string text <> strip text) /\
  clean_json_string (pyq "[{'note':'a```json b```c'}]")
    = pyq "[{'note':'a bc'}]" /\
  json_loads (clean_json_string (pyq "[{'note':'a```json b```c'}]"))
    = Ok (JArray [JObject [(py "note", JStr (py "a bc"))]]).
Proof.
  pose proof (clean_no_fence text) as Hf.
  split; [exact Hf|]. split; [apply clean_no_fence_json|].
  split; [|split; vm_compute; reflexivity].
  intros H. split; intros E.
  - rewrite E in Hf. congruence.
  - apply strip_contains_fence in H. rewrite E in Hf. congruence.
Qed.

Lemma clean_removes_every_fence_witness :
  let text := pyq "[{'note':'a```json b```c'}]" in
  contains FENCE text = true /\
  clean_json_string text <> text /\ clean_json_string text <> strip text.
Proof.
  intros text. split; [reflexivity|].
  apply (clean_removes_every_fence text). reflexivity.
Defined.
(* ------------------------------------------------------------------ *)
(** * Further properties of the helper functions *)

Module MoreFacts.

Lemma subsequence_refl (s : str) : subsequence s s.
Proof. induction s; constructor; assumption. Qed.

Lemma subsequence_trans (a b c : str) :
  subsequence a b -> subsequence b c -> subsequence a c.
Proof.
  intros Hab Hbc. revert a Hab.
  induction Hbc as [|x b c Hbc IH|x b c Hbc IH]; intros a Hab.
  - exact Hab.
  - inversion Hab; subst.
    + constructor. now apply IH.
    + apply subsequence_drop. now apply IH.
  - apply subsequence_drop. now apply IH.
Qed.

Lemma subsequence_length (a b : str) :
  subsequence a b -> length a <= length b.
Proof. induction 1; cbn [length]; lia. Qed.

Lemma subsequence_infix (before s after : str) :
  subsequence s (before ++ s ++ after).
Proof.
  induction before as [|c before IH]; cbn [app].
  - induction s as [|c s IH]; cbn [app].
    + induction after; constructor; assumption.
    + now constructor.
  - now apply subsequence_drop.
Qed.

(** [replace] by nothing only leaves characters out. *)
Lemma replace_from_subsequence (old : str) (s : str) (k : nat) :
  subsequence (replace_from old [] k s) s.
Proof.
  revert k. induction s as [|c s IH]; intros k; [constructor|].
  cbn [replace_from]. destruct k as [|k].
  - destruct (startswith old (c :: s)); cbn [app].
    + apply subsequence_drop, IH.
    + apply subsequence_keep, IH.
  - apply subsequence_drop, IH.
Qed.

Lemma str_replace_subsequence (o : char) (old s : str) :
  subsequence (str_replace (o :: old) [] s) s.
Proof. apply replace_from_subsequence. Qed.

Lemma strip_subsequence (s : str) : subsequence (strip s) s.
Proof.
  destruct (StripFacts.strip_infix s) as [before [after E]].
  rewrite E at 2. apply subsequence_infix.
Qed.

Lemma strip_trimmed (s : str) : trimmed (strip s).
Proof.
  split.
  - unfold strip. apply StripFacts.rstrip_head.
    apply (StripFacts.dropwhile_head isspace).
  - unfold strip, rstrip. rewrite rev_involutive.
    apply (StripFacts.dropwhile_head isspace).
Qed.

Lemma contains_head_In (c : char) (p s : str) :
  contains (c :: p) s = true -> In c s.
Proof.
  intros H. apply StrFacts.contains_iff in H as [a [b ->]].
  apply in_or_app. right. now left.
Qed.

Lemma no_backtick_no_fence (p s : str) :
  ~ In BACKTICK s -> contains (BACKTICK :: p) s = false.
Proof.
  intros H. destruct (contains (BACKTICK :: p) s) eqn:E; [|reflexivity].
  apply contains_head_In in E. contradiction.
Qed.

End MoreFacts.

(** X1.  [clean_json_string] only deletes: what it returns is the reply
    with some characters left out, in the same order, so it is never longer
    than the reply. *)
Theorem clean_only_deletes (text : str) :
  subsequence (clean_json_string text) text /\
  length (clean_json_string text) <= length text.
Proof.
  assert (H : subsequence (clean_json_string text) text).
  { unfold clean_json_string.
    eapply MoreFacts.subsequence_trans; [apply MoreFacts.strip_subsequence|].
    eapply MoreFacts.subsequence_trans.
    - apply (MoreFacts.str_replace_subsequence BACKTICK (tl FENCE)).
    - apply (MoreFacts.str_replace_subsequence BACKTICK (tl FENCE_JSON)). }
  split; [exact H | now apply MoreFacts.subsequence_length].
Qed.

(** X2.  What [clean_json_string] returns neither starts nor ends with
    white space. *)
Theorem clean_is_trimmed (text : str) : trimmed (clean_json_string text).
Proof. unfold clean_json_string. apply MoreFacts.strip_trimmed. Qed.

(** X3.  On a reply without any backtick, [clean_json_string] is [strip]:
    the text between the white space is handed to the decoder as it is. *)
Theorem clean_without_backtick (text : str) :
  ~ In BACKTICK text -> clean_json_string text = strip text.
Proof.
  intros H. unfold clean_json_string.
  change FENCE_JSON with (BACKTICK :: tl FENCE_JSON).
  rewrite StrFacts.str_replace_absent
    by now apply MoreFacts.no_backtick_no_fence.
  change FENCE with (BACKTICK :: tl FENCE).
  rewrite StrFacts.str_replace_absent
    by now apply MoreFacts.no_backtick_no_fence.
  reflexivity.
Qed.

Lemma clean_without_backtick_witness :
  ~ In BACKTICK ([LF] ++ pyq " [{'A': 1}] " ++ [LF]) /\
  clean_json_string ([LF] ++ pyq " [{'A': 1}] " ++ [LF]) = pyq "[{'A': 1}]".
Proof.
  assert (H : ~ In BACKTICK ([LF] ++ pyq " [{'A': 1}] " ++ [LF])).
  { cbv. intuition discriminate. }
  split; [exact H|].
  exact (clean_without_backtick _ H).
Defined.

(** X4.  A reply that is cleaned to the empty text (a reply of white space
    and fences only) is a failed extraction: the decoder finds no value at
    the first character, the message says so and the empty table is
    returned. *)
Theorem extractor_empty_reply (X : externals) (prompt : str)
  (content : part) (text : str) :
  generate_content X (request_of prompt content) = Ok text ->
  clean_json_string text = [] ->
  gemini_data_extractor X prompt content =
  (empty_frame,
   [sent (request_of prompt content);
    st_error (py "AI Extraction Failed: Expecting value: line 1 column 1 (char 0)")]).
Proof.
  intros Hg Hc. rewrite (ExtractorFacts.extractor_on_reply X _ _ text Hg).
  unfold outcome_of, normalize. rewrite Hc. reflexivity.
Qed.

Lemma extractor_empty_reply_witness :
  let text := py "```json" ++ [LF] ++ py "```" ++ [LF] in
  gemini_data_extractor (with_reply offline (Ok text)) [] (TextPart []) =
  (empty_frame,
   [sent (request_of [] (TextPart []));
    st_error (py "AI Extraction Failed: Expecting value: line 1 column 1 (char 0)")]).
Proof.
  intros text.
  apply (extractor_empty_reply (with_reply offline (Ok text)) []
           (TextPart []) text); reflexivity.
Defined.

(** X5.  [gemini_data_extractor] never returns data together with an error:
    whenever it shows a message, the table it returns is the empty one, and
    the dashboard guard then gives the landing state. *)
Theorem extractor_error_means_empty (X : externals) (prompt : str)
  (content : part) (msg : str) :
  In (st_error msg) (snd (gemini_data_extractor X prompt content)) ->
  fst (gemini_data_extractor X prompt content) = empty_frame /\
  main_dashboard (Some (fst (gemini_data_extractor X prompt content)))
  = Landing /\
  exists e, extract X prompt content = Raise e /\
            msg = py "AI Extraction Failed: " ++ exc_str e.
Proof.
  unfold gemini_data_extractor.
  destruct (extract X prompt content) as [df|e]; cbn [fst snd].
  - intros [H|[]]. discriminate H.
  - intros [H|[H|[]]]; [discriminate H|]. injection H as <-.
    split; [reflexivity|]. split; [reflexivity|]. now exists e.
Qed.

Lemma extractor_error_means_empty_witness :
  let X := with_reply offline (Ok (pyq "[{'A':1}")) in
  let msg := py "AI Extraction Failed: Expecting ',' delimiter: line 1 column 9 (char 8)" in
  In (st_error msg) (snd (gemini_data_extractor X [] (TextPart []))) /\
  fst (gemini_data_extractor X [] (TextPart [])) = empty_frame.
Proof.
  intros X msg.
  assert (H : In (st_error msg) (snd (gemini_data_extractor X [] (TextPart [])))).
  { right. left. reflexivity. }
  split; [exact H|].
  exact (proj1 (extractor_error_means_empty X [] (TextPart []) msg H)).
Defined.

(** X6.  For a reply that decodes to an array of objects, no error is shown
    exactly when the [DataFrame] constructor accepts the objects.  Then the
    dashboard is shown exactly when some object has a key: an empty array,
    and an array of empty objects however long, give the landing state
    although no error is shown.  When the constructor raises, an error is
    shown and the landing state follows. *)
Theorem dashboard_needs_a_key (X : externals) (prompt : str)
  (content : part) (text : str) (objs : list (list (str * json))) :
  generate_content X (request_of prompt content) = Ok text ->
  json_loads (clean_json_string text) = Ok (JArray (map JObject objs)) ->
  let df := fst (gemini_data_extractor X prompt content) in
  let shown := snd (gemini_data_extractor X prompt content) in
  (shown = [sent (request_of prompt content)] <-> constructor_accepts X objs) /\
  (constructor_accepts X objs ->
   (main_dashboard (Some df) = Landing <-> forall d, In d objs -> d = []) /\
   (main_dashboard (Some df) = Dashboard df <->
    exists d, In d objs /\ d <> [])) /\
  (forall e, constructor_raises X objs e ->
     main_dashboard (Some df) = Landing /\
     exists e', constructor_raises X objs e' /\
       shown = [sent (request_of prompt content);
                st_error (py "AI Extraction Failed: " ++ exc_str e')]) /\
  (constructor_accepts X objs \/ exists e, constructor_raises X objs e).
Proof.
  intros Hg Hj df shown. subst df shown.
  destruct (ExtractorFacts.extractor_records X prompt content text objs Hg Hj)
    as [[Hacc [df [Hout [Hcols [Hlen _]]]]] | [e' [Hr Hout]]];
    rewrite Hout; cbn [fst snd].
  - split; [split; [intros _; exact Hacc | reflexivity]|].
    split; [|split; [|now left]].
    + intros _. unfold main_dashboard, empty. rewrite Hcols, Hlen.
      unfold labels.
      assert (Hk : first_seen (concat (map (@dict_keys json) objs)) = [] <->
                   forall d, In d objs -> d = []).
      { split.
        - intros E d Hd. destruct d as [|[k v] d]; [reflexivity|]. exfalso.
          assert (Hin : In k (first_seen
                                (concat (map (@dict_keys json) objs)))).
          { apply FrameFacts.first_seen_In, in_concat.
            exists (dict_keys ((k, v) :: d)).
            split; [now apply in_map | now left]. }
          rewrite E in Hin. destruct Hin.
        - intros H. destruct (first_seen _) as [|k ks] eqn:E; [reflexivity|].
          exfalso.
          assert (Hin : In k (first_seen
                                (concat (map (@dict_keys json) objs))))
            by (rewrite E; now left).
          apply FrameFacts.first_seen_In, in_concat in Hin as [ks' [Hks Hin]].
          apply in_map_iff in Hks as [d [<- Hd]]. rewrite (H d Hd) in Hin.
          destruct Hin. }
      assert (Hall : (forall d, In d objs -> d = []) \/
                     exists d, In d objs /\ d <> []).
      { clear. induction objs as [|d objs [IH|[d' [Hd' Hn]]]].
        - left. intros d [].
        - destruct d as [|kv d].
          + left. intros d' [<-|H]; [reflexivity | now apply IH].
          + right. exists (kv :: d). split; [now left | discriminate].
        - right. exists d'. split; [now right | exact Hn]. }
      destruct Hall as [Hall|[d [Hd Hn]]].
      * rewrite (proj2 Hk Hall). cbn.
        split; split; try reflexivity; try discriminate.
        -- intros _. exact Hall.
        -- intros [d [Hd Hn]]. elim Hn. now apply Hall.
      * assert (Hc : first_seen (concat (map (@dict_keys json) objs)) <> []).
        { intros E. apply Hn. now apply (proj1 Hk E). }
        destruct (first_seen _) as [|k ks]; [contradiction|].
        destruct objs as [|d0 objs]; [destruct Hd|]. cbn. split; split.
        -- discriminate.
        -- intros H. elim Hn. now apply H.
        -- intros _. now exists d.
        -- reflexivity.
    + intros e Hr. exfalso.
      exact (ExtractorFacts.accepts_or_raises X objs e Hacc Hr).
  - split; [split; [discriminate|]|].
    { intros Hacc. exfalso.
      exact (ExtractorFacts.accepts_or_raises X objs e' Hacc Hr). }
    split; [|split; [|right; now exists e']].
    + intros Hacc. exfalso.
      exact (ExtractorFacts.accepts_or_raises X objs e' Hacc Hr).
    + intros e _. split; [reflexivity|]. exists e'. now split.
Qed.

Lemma dashboard_needs_a_key_witness :
  let X := with_reply offline (Ok (pyq "[{}, {}]")) in
  main_dashboard (Some (fst (gemini_data_extractor X [] (TextPart []))))
  = Landing /\
  snd (gemini_data_extractor X [] (TextPart []))
  = [sent (request_of [] (TextPart []))].
Proof.
  intros X.
  assert (Hacc : constructor_accepts X [[]; []]).
  { right. split; [reflexivity|]. intros col []. }
  destruct (dashboard_needs_a_key X [] (TextPart []) (pyq "[{}, {}]")
              [[]; []] eq_refl eq_refl) as [H1 [H2 _]].
  split.
  - apply (proj1 (H2 Hacc)). intros d [<-|[<-|[]]]; reflexivity.
  - apply (proj2 H1 Hacc).
Defined.

(* ------------------------------------------------------------------ *)
(** * Further properties of the sidebar and of the setup *)

Module SidebarFacts.

Lemma join_not_empty (sep p : str) (ps : list str) :
  p <> [] -> join sep (p :: ps) <> [].
Proof.
  intros Hp. destruct p as [|c p]; [contradiction|].
  destruct ps; cbn [join app]; discriminate.
Qed.

Lemma head_app (P : char -> Prop) (a b : str) :
  a <> [] ->
  match a with [] => True | c :: _ => P c end ->
  match a ++ b with [] => True | c :: _ => P c end.
Proof. destruct a; [contradiction | now cbn]. Qed.

(** Pieces that are trimmed and not empty are joined to a trimmed text. *)
Lemma join_trimmed (sep : str) (ps : list str) :
  Forall (fun t => t <> [] /\ trimmed t) ps -> trimmed (join sep ps).
Proof.
  induction 1 as [|p ps [Hn [Hh Hl]] Hps IH]; [split; exact I|].
  destruct ps as [|q ps]; [now split|].
  change (join sep (p :: q :: ps)) with (p ++ sep ++ join sep (q :: ps)).
  split.
  - now apply (head_app (fun c => isspace c = false)).
  - rewrite !rev_app_distr, <- app_assoc.
    apply (head_app (fun c => isspace c = false)); [|apply IH].
    inversion Hps as [|? ? [Hq _] _]; subst.
    intros E. apply (join_not_empty sep q ps Hq).
    apply (f_equal (@rev char)) in E. now rewrite rev_involutive in E.
Qed.

Lemma visible_pieces_trimmed (soup : list element) :
  Forall (fun t => t <> [] /\ trimmed t) (visible_pieces soup).
Proof.
  apply Forall_forall. intros t Ht. unfold visible_pieces, pieces in Ht.
  apply filter_In in Ht as [Ht Hn]. apply in_map_iff in Ht as [t0 [<- _]].
  split; [|apply MoreFacts.strip_trimmed].
  intros E. rewrite E in Hn. discriminate.
Qed.

Lemma firstn_head (P : char -> Prop) (n : nat) (s : str) :
  match s with [] => True | c :: _ => P c end ->
  match firstn n s with [] => True | c :: _ => P c end.
Proof. destruct n, s; cbn; trivial. Qed.

Lemma requests_extractor (X : externals) (prompt : str) (content : part) :
  requests (snd (gemini_data_extractor X prompt content))
  = [request_of prompt content].
Proof.
  unfold gemini_data_extractor.
  destruct (extract X prompt content); reflexivity.
Qed.

Lemma endswith_iff (p s : str) :
  endswith p s = true <-> exists stem, s = stem ++ p.
Proof.
  unfold endswith. rewrite StrFacts.startswith_iff. split.
  - intros [t E]. exists (rev t).
    rewrite <- (rev_involutive s), E, rev_app_distr, rev_involutive.
    reflexivity.
  - intros [stem ->]. exists (rev stem). apply rev_app_distr.
Qed.

End SidebarFacts.

(** X7.  For a URL whose GET and parse succeed, the text [scrape_url]
    returns never starts with white space; it does not end with white space
    either when the page's text fits in the 10,000 characters (a cut at the
    limit may leave white space at the end). *)
Theorem scrape_url_is_trimmed (X : externals) (url : str) (page : Response)
  (soup : list element) :
  requests_get X url = Ok page ->
  html_parser X (content page) = Ok soup ->
  match scrape_url X url with [] => True | c :: _ => isspace c = false end /\
  (length (get_text (py " ") true soup) <= TEXT_LIMIT ->
   scrape_url X url = get_text (py " ") true soup /\
   trimmed (scrape_url X url)).
Proof.
  intros Hg Hp.
  assert (E : scrape_url X url
              = firstn TEXT_LIMIT (get_text (py " ") true soup)).
  { unfold scrape_url. rewrite Hg. cbn [bind]. now rewrite Hp. }
  assert (T : trimmed (get_text (py " ") true soup)).
  { rewrite SoupFacts.get_text_pieces.
    apply SidebarFacts.join_trimmed, SidebarFacts.visible_pieces_trimmed. }
  rewrite E. split.
  - apply (SidebarFacts.firstn_head (fun c => isspace c = false)), T.
  - intros L. rewrite firstn_all2 by exact L. now split.
Qed.

Lemma scrape_url_is_trimmed_witness :
  let soup := [Str NavigableString [LF];
               Tag (py "p") [Str NavigableString (py "  Tea  3 ")];
               Str NavigableString [LF]] in
  let X := site 200 [] soup in
  scrape_url X (py "http://shop.example") = py "Tea  3" /\
  trimmed (scrape_url X (py "http://shop.example")).
Proof.
  intros soup X.
  destruct (scrape_url_is_trimmed X (py "http://shop.example")
              {| status_code := 200; content := [] |} soup eq_refl eq_refl)
    as [_ H].
  apply H. apply Nat.leb_le. vm_compute. reflexivity.
Defined.

(** X8.  A fetch that raises does not stop the URL path: the error
    description takes the place of the page's text and is sent to the model
    in the one request of the run, under the same instruction and hint. *)
Theorem failed_fetch_is_sent_to_model (X : externals) (c : char)
  (url : str) (e : exception) :
  requests_get X (c :: url) = Raise e ->
  requests (snd (sidebar X (WebsiteURL (c :: url) true))) =
  [[TextPart system_prompt; TextPart URL_PROMPT;
    TextPart (py "Error scraping URL: " ++ exc_str e)]] /\
  exists df, fst (sidebar X (WebsiteURL (c :: url) true)) = Ok (Some df).
Proof.
  intros H. cbn [sidebar].
  assert (E : scrape_url X (c :: url) = py "Error scraping URL: " ++ exc_str e).
  { unfold scrape_url. now rewrite H. }
  rewrite E.
  pose proof (SidebarFacts.requests_extractor X URL_PROMPT
                (TextPart (py "Error scraping URL: " ++ exc_str e))) as R.
  destruct (gemini_data_extractor X URL_PROMPT
              (TextPart (py "Error scraping URL: " ++ exc_str e)))
    as [df events].
  cbn [fst snd] in *. split; [exact R | now exists df].
Qed.

Lemma failed_fetch_is_sent_to_model_witness :
  requests (snd (sidebar offline (WebsiteURL (py "http://nowhere.invalid") true)))
  = [[TextPart system_prompt; TextPart URL_PROMPT;
      TextPart (py "Error scraping URL: unreachable")]].
Proof.
  exact (proj1 (failed_fetch_is_sent_to_model offline 104%N
                  (py "ttp://nowhere.invalid")
                  (Exception OtherErrorT (py "unreachable")) eq_refl)).
Defined.

(** X9.  The only exceptions that leave the sidebar (lines 113 to 154)
    uncaught are those of the file readers and of [Image.open]: the sidebar
    ends with an exception exactly when an uploaded file could not be read
    by the reader its name selects or an uploaded image could not be
    opened after the click, and then nothing was sent to the model or
    shown.  The URL path and the video path never end that way, whatever
    the fetch, the parser, the model, the decoder or the [DataFrame]
    constructor raise. *)
Theorem uncaught_only_from_uploads (X : externals) (input : sidebar_input)
  (e : exception) :
  (fst (sidebar X input) = Raise e <->
   (exists f, input = UploadFile (Some f) /\
              (if endswith (py ".csv") (name f)
               then read_csv X (data f) = Raise e
               else read_excel X (data f) = Raise e)) \/
   (exists f, input = ImageAnalysis (Some f) true /\
              Image_open X (data f) = Raise e)) /\
  (fst (sidebar X input) = Raise e -> snd (sidebar X input) = []) /\
  (forall url button, fst (sidebar X (WebsiteURL url button)) <> Raise e) /\
  fst (sidebar X VideoIntelligence) <> Raise e.
Proof.
  split; [|split; [|split]].
  - split.
    + destruct input as [[f|] | [f|] [|] | [|c url] [|] | ]; cbn [sidebar];
        try discriminate.
      * intros H. left. exists f. split; [reflexivity|].
        destruct (endswith (py ".csv") (name f)); cbn [fst] in H.
        -- destruct (read_csv X (data f)); [discriminate|].
           cbn [bind] in H. now injection H as ->.
        -- destruct (read_excel X (data f)); [discriminate|].
           cbn [bind] in H. now injection H as ->.
      * destruct (Image_open X (data f)) as [img|e'] eqn:E.
        -- destruct (gemini_data_extractor X IMAGE_PROMPT (ImagePart img)).
           discriminate.
        -- cbn [fst]. intros [= ->]. right. now exists f.
      * destruct (gemini_data_extractor X URL_PROMPT
                    (TextPart (scrape_url X (c :: url)))).
        discriminate.
    + intros [[f [-> H]]|[f [-> H]]]; cbn [sidebar].
      * destruct (endswith (py ".csv") (name f)); rewrite H; reflexivity.
      * rewrite H. reflexivity.
  - destruct input as [[f|] | [f|] [|] | [|c url] [|] | ]; cbn [sidebar];
      try discriminate.
    + destruct (endswith (py ".csv") (name f)); reflexivity.
    + destruct (Image_open X (data f)) as [img|e'] eqn:E; [|reflexivity].
      destruct (gemini_data_extractor X IMAGE_PROMPT (ImagePart img)).
      discriminate.
    + destruct (gemini_data_extractor X URL_PROMPT
                  (TextPart (scrape_url X (c :: url)))).
      discriminate.
  - intros [|c url] [|]; cbn [sidebar]; try discriminate.
    destruct (gemini_data_extractor X URL_PROMPT
                (TextPart (scrape_url X (c :: url)))).
    discriminate.
  - discriminate.
Qed.

Lemma uncaught_only_from_uploads_witness :
  let X :=
    {| generate_content := generate_content offline;
       requests_get := requests_get offline;
       html_parser := html_parser offline;
       ensure_index := ensure_index offline;
       infer_dtype := infer_dtype offline;
       DataFrame_other := DataFrame_other offline;
       read_csv := read_csv offline;
       read_excel := read_excel offline;
       Image_open := fun _ =>
         Raise (Exception OtherErrorT (py "cannot identify image file")) |} in
  let input :=
    ImageAnalysis (Some {| name := py "bill.png"; data := [] |}) true in
  let e := Exception OtherErrorT (py "cannot identify image file") in
  fst (sidebar X input) = Raise e /\
  snd (sidebar X input) = [].
Proof.
  intros X input e.
  assert (H : fst (sidebar X input) = Raise e) by reflexivity.
  split; [exact H|].
  exact (proj1 (proj2 (uncaught_only_from_uploads X input e)) H).
Defined.

(** X10.  An uploaded file is read as CSV exactly when its name ends with
    the four characters .csv in lower case, and as Excel otherwise; the
    table read is handed on as it is, a reader's exception is not caught, and
    the model is not called. *)
Theorem upload_dispatch_by_extension (X : externals) (f : UploadedFile) :
  let reader :=
    if endswith (py ".csv") (name f) then read_csv X else read_excel X in
  sidebar X (UploadFile (Some f)) =
  (match reader (data f) with
   | Ok df => Ok (Some df)
   | Raise e => Raise e
   end, []) /\
  (endswith (py ".csv") (name f) = true <->
   exists stem, name f = stem ++ py ".csv").
Proof.
  cbv zeta. split; [|apply SidebarFacts.endswith_iff].
  cbn [sidebar]. destruct (endswith (py ".csv") (name f)); reflexivity.
Qed.

Lemma upload_dispatch_by_extension_witness :
  endswith (py ".csv") (py "SALES.CSV") = false /\
  (endswith (py ".csv") (py "sales.csv") = true <->
   exists stem, py "sales.csv" = stem ++ py ".csv").
Proof.
  split; [reflexivity|].
  exact (proj2 (upload_dispatch_by_extension offline
                  {| name := py "sales.csv"; data := [] |})).
Defined.

(** X11.  A run of the sidebar calls the model at most once, and not at
    all for an uploaded file, for the video mode, or when no button was
    clicked. *)
Theorem at_most_one_request (X : externals) (input : sidebar_input) :
  length (requests (snd (sidebar X input))) <= 1 /\
  (idle input = true -> requests (snd (sidebar X input)) = []) /\
  (forall f, input = UploadFile f -> requests (snd (sidebar X input)) = []).
Proof.
  destruct input as [[f|] | [f|] [|] | [|c url] [|] | ]; cbn [sidebar idle];
    try (repeat split; try discriminate; cbn; intros; trivial; lia).
  - destruct (endswith _ _); cbn; repeat split; try discriminate; trivial; lia.
  - destruct (Image_open X (data f)) as [img|e].
    + pose proof (SidebarFacts.requests_extractor X IMAGE_PROMPT
                    (ImagePart img)) as R.
      destruct (gemini_data_extractor X IMAGE_PROMPT (ImagePart img)).
      cbn [snd] in *. rewrite R. cbn. repeat split; try discriminate; lia.
    + cbn. repeat split; try discriminate; trivial; lia.
  - pose proof (SidebarFacts.requests_extractor X URL_PROMPT
                  (TextPart (scrape_url X (c :: url)))) as R.
    destruct (gemini_data_extractor X URL_PROMPT
                (TextPart (scrape_url X (c :: url)))).
    cbn [snd] in *. rewrite R. cbn. repeat split; try discriminate; lia.
Qed.

Lemma at_most_one_request_witness :
  idle (WebsiteURL (py "http://shop.example") false) = true /\
  requests (snd (sidebar offline (WebsiteURL (py "http://shop.example") false)))
  = [].
Proof.
  split; [reflexivity|].
  exact (proj1 (proj2 (at_most_one_request offline
                         (WebsiteURL (py "http://shop.example") false)))
               eq_refl).
Defined.

(** X12.  The sidebar leaves no table exactly when it is idle (no file, no
    URL, or no click in this run): nothing extracted in an earlier run is
    kept, and the run shows the landing state. *)
Theorem idle_sidebar_shows_landing (secrets : option (list (str * str)))
  (environ : list (str * str)) (X : externals) (input : sidebar_input) :
  (idle input = true <-> sidebar X input = (Ok None, [])) /\
  (idle input = true -> not_ (api_key secrets environ) = false ->
   script secrets environ X input = (Shown Landing, [])).
Proof.
  assert (H : idle input = true <-> sidebar X input = (Ok None, [])).
  { destruct input as [[f|] | [f|] [|] | [|c url] [|] | ];
      cbn [sidebar idle]; try (split; [reflexivity | reflexivity]).
    - split; [discriminate|]. destruct (endswith _ _);
        [destruct (read_csv X (data f)) | destruct (read_excel X (data f))];
        discriminate.
    - split; [discriminate|]. destruct (Image_open X (data f)) as [img|e];
        [|discriminate].
      destruct (gemini_data_extractor X IMAGE_PROMPT (ImagePart img)).
      discriminate.
    - split; [discriminate|].
      destruct (gemini_data_extractor X URL_PROMPT
                  (TextPart (scrape_url X (c :: url)))).
      discriminate. }
  split; [exact H|]. intros Hi Hk. apply H in Hi.
  unfold script, api_setup. cbv zeta. now rewrite Hk, Hi.
Qed.

Lemma idle_sidebar_shows_landing_witness :
  script None [(GOOGLE_API_KEY, py "key")] offline
    (ImageAnalysis (Some {| name := py "bill.png"; data := [] |}) false)
  = (Shown Landing, []).
Proof.
  exact (proj2 (idle_sidebar_shows_landing None [(GOOGLE_API_KEY, py "key")]
                  offline
                  (ImageAnalysis (Some {| name := py "bill.png"; data := [] |})
                     false))
               eq_refl eq_refl).
Defined.

(** X13.  The setup never configures a missing or empty key, and the
    environment is consulted only when the secrets store has no entry for
    the key: a configured key is the entry of the store when there is one,
    and the environment variable otherwise. *)
Theorem configured_key_is_usable (secrets : option (list (str * str)))
  (environ : list (str * str)) (key : option str) :
  api_setup secrets environ = Configured key ->
  exists c k,
    key = Some (c :: k) /\
    (secrets_getitem secrets GOOGLE_API_KEY = Ok (c :: k) \/
     ((exists e, secrets_getitem secrets GOOGLE_API_KEY = Raise e) /\
      os_getenv environ GOOGLE_API_KEY = Some (c :: k))).
Proof.
  unfold api_setup, api_key. cbv zeta.
  destruct (secrets_getitem secrets GOOGLE_API_KEY) as [v|e] eqn:E.
  - destruct v as [|c k]; cbn [not_]; [discriminate|].
    intros [= <-]. exists c, k. split; [reflexivity | now left].
  - destruct (os_getenv environ GOOGLE_API_KEY) as [[|c k]|] eqn:Ee;
      cbn [not_]; try discriminate.
    intros [= <-]. exists c, k. split; [reflexivity|]. right.
    split; [now exists e | reflexivity].
Qed.

Lemma configured_key_is_usable_witness :
  api_setup (Some [(GOOGLE_API_KEY, py "from-store")])
    [(GOOGLE_API_KEY, py "from-env")]
  = Configured (Some (py "from-store")) /\
  exists c k,
    Some (py "from-store") = Some (c :: k) /\
    (secrets_getitem (Some [(GOOGLE_API_KEY, py "from-store")]) GOOGLE_API_KEY
     = Ok (c :: k) \/
     ((exists e, secrets_getitem (Some [(GOOGLE_API_KEY, py "from-store")])
                   GOOGLE_API_KEY = Raise e) /\
      os_getenv [(GOOGLE_API_KEY, py "from-env")] GOOGLE_API_KEY
      = Some (c :: k))).
Proof.
  split; [reflexivity|].
  exact (configured_key_is_usable (Some [(GOOGLE_API_KEY, py "from-store")])
           [(GOOGLE_API_KEY, py "from-env")] (Some (py "from-store")) eq_refl).
Defined.

(* ------------------------------------------------------------------ *)
(** * Properties of the main area *)

Module MainAreaFacts.


Lemma enumerate_index (A : Type) (l : list A) (i : nat) (x : A) :
  In (i, x) (enumerate l) -> i < length l.
Proof.
  intros H. apply in_combine_l in H. apply in_seq in H. lia.
Qed.

Lemma combine_seq_nth_error (A : Type) (l : list A) (start i : nat) (x : A) :
  nth_error l i = Some x ->
  nth_error (combine (seq start (length l)) l) i = Some (start + i, x).
Proof.
  revert start i. induction l as [|y l IH]; intros start [|i] H;
    try discriminate.
  - cbn in *. injection H as ->. now rewrite Nat.add_0_r.
  - cbn [length seq combine nth_error] in *.
    rewrite (IH (S start) i H). do 2 f_equal. lia.
Qed.

Lemma enumerate_nth_error (A : Type) (l : list A) (i : nat) (x : A) :
  nth_error l i = Some x -> nth_error (enumerate l) i = Some (i, x).
Proof. intros H. apply (combine_seq_nth_error A l 0 i x H). Qed.

Lemma length_enumerate (A : Type) (l : list A) :
  length (enumerate l) = length l.
Proof.
  unfold enumerate. rewrite length_combine, length_seq. apply Nat.min_id.
Qed.

Lemma then_lift_Ok (A B : Type) (a : A) (k : A -> shown B) :
  then_ (lift (Ok a)) k = k a.
Proof. unfold then_, lift. now destruct (k a). Qed.

Lemma then_emit (B : Type) (w : widget) (k : unit -> shown B) :
  then_ (emit w) k = (w :: fst (k tt), snd (k tt)).
Proof. reflexivity. Qed.



(** The cards are metric cards or the warning: no chart is among them. *)
Lemma metric_loop_no_chart (Y : charting) (cols : list nat)
  (l : list (nat * str)) (s : side) :
  chart_at s (fst (metric_loop Y cols l)) = None.
Proof.
  induction l as [|[i col] l IH]; [reflexivity|].
  cbn [metric_loop fst snd].
  destruct (column_sum Y col) as [sum|e]; [|reflexivity].
  rewrite then_lift_Ok.
  destruct (getitem cols i) as [slot|e]; [|reflexivity].
  rewrite then_lift_Ok.
  destruct (format_total Y sum) as [value|e]; [|reflexivity].
  rewrite then_lift_Ok, then_emit. cbn [fst chart_at]. exact IH.
Qed.

Lemma paired_app_question (h : list message) (b : bool) (p : str) :
  paired b (h ++ [{| msg_role := user; msg_content := p |}]) = paired b h.
Proof.
  revert b. induction h as [|m h IH]; intros b; [reflexivity|].
  cbn [app paired]. destruct (msg_role m); now rewrite IH.
Qed.

Lemma paired_app_answer (h : list message) (b : bool) (p t : str) :
  paired b (h ++ [{| msg_role := user; msg_content := p |};
                  {| msg_role := assistant; msg_content := t |}])
  = paired b h.
Proof.
  revert b. induction h as [|m h IH]; intros b; [reflexivity|].
  cbn [app paired]. destruct (msg_role m); now rewrite IH.
Qed.

(** One run of the assistant tab keeps every answer after its question. *)
Lemma vi_assistant_paired (X : externals) (ctx : str)
  (h : option (list message)) (input : option str) :
  answers_follow_questions (stored h) = true ->
  answers_follow_questions (fst (vi_assistant X ctx h input)) = true.
Proof.
  intros H. unfold vi_assistant. fold (stored h).
  destruct input as [[|c p]|]; [exact H | | exact H].
  destruct (generate_content X _) as [t|e]; cbn [fst];
    unfold answers_follow_questions in *.
  - rewrite <- app_assoc. cbn [app]. now rewrite paired_app_answer.
  - now rewrite paired_app_question.
Qed.

End MainAreaFacts.



(** X15.  The two charts of the overview follow from the numeric and the
    categorical columns and from what plotly does with the call.  The left
    chart is the treemap of the first categorical column and the first
    numeric column when both exist, else a notice; the right chart is the
    sunburst of the first two categorical columns when there are two and a
    numeric column, else the scatter plot of the first two numeric columns,
    coloured by the first categorical column if there is one, else a notice.
    A figure that cannot be built or shown ends the tab where it stands:
    after a treemap that raises, the right chart is not reached.  The charts
    raise nothing but what plotly express or [st.plotly_chart] raises.  So a sunburst is shown only beside a treemap; a scatter
    plot is shown only when there is at most one categorical column, and it
    is coloured exactly when the treemap is shown too; and when nothing
    raises, no chart at all is shown exactly when there is no numeric
    column, or one numeric column and no categorical column. *)
Theorem overview_charts (Y : charting)
  (numeric_cols categorical_cols : list str) :
  let l := left_chart Y numeric_cols categorical_cols in
  let r := right_chart Y numeric_cols categorical_cols in
  let run := visuals Y numeric_cols categorical_cols in
  (forall c cs n ns, categorical_cols = c :: cs -> numeric_cols = n :: ns ->
     l = match drawn Y (treemap [c] n c) with
         | Ok _ => ([caption left_side TREEMAP_CAPTION;
                     plotly_chart left_side (treemap [c] n c)], Ok tt)
         | Raise e => ([caption left_side TREEMAP_CAPTION], Raise e)
         end) /\
  (categorical_cols = [] \/ numeric_cols = [] ->
   l = ([info left_side NO_TREEMAP], Ok tt)) /\
  (forall c0 c1 cs n ns,
     categorical_cols = c0 :: c1 :: cs -> numeric_cols = n :: ns ->
     r = match drawn Y (sunburst [c0; c1] n) with
         | Ok _ => ([caption right_side SUNBURST_CAPTION;
                     plotly_chart right_side (sunburst [c0; c1] n)], Ok tt)
         | Raise e => ([caption right_side SUNBURST_CAPTION], Raise e)
         end) /\
  (forall x y ns, length categorical_cols <= 1 -> numeric_cols = x :: y :: ns ->
     r = match drawn Y (scatter x y (hd_error categorical_cols)) with
         | Ok _ => ([caption right_side SCATTER_CAPTION;
                     plotly_chart right_side
                       (scatter x y (hd_error categorical_cols))], Ok tt)
         | Raise e => ([caption right_side SCATTER_CAPTION], Raise e)
         end) /\
  (length numeric_cols <= 1 ->
   length categorical_cols <= 1 \/ numeric_cols = [] ->
   r = ([info right_side NO_SECOND_CHART], Ok tt)) /\
  (forall e, snd l = Raise e -> run = (fst l, Raise e)) /\
  (snd l = Ok tt -> run = (fst l ++ fst r, snd r)) /\
  (forall e, snd run = Raise e -> exists call, drawn Y call = Raise e) /\
  (forall call, chart_at left_side (fst run) = Some call \/
                chart_at right_side (fst run) = Some call ->
     drawn Y call = Ok tt) /\
  (forall path values,
     chart_at right_side (fst run) = Some (sunburst path values) ->
     chart_at left_side (fst run) <> None /\ 2 <= length categorical_cols) /\
  (forall x y color,
     chart_at right_side (fst run) = Some (scatter x y color) ->
     length categorical_cols <= 1 /\ 2 <= length numeric_cols /\
     (color = None <-> chart_at left_side (fst run) = None)) /\
  (snd run = Ok tt ->
   (chart_at left_side (fst run) <> None <->
    numeric_cols <> [] /\ categorical_cols <> []) /\
   (chart_at left_side (fst run) = None /\
    chart_at right_side (fst run) = None <->
    numeric_cols = [] \/
    (categorical_cols = [] /\ length numeric_cols = 1))).
Proof.
  intros l r run. subst l r run.
  assert (C : forall s call,
            chart Y s call =
            match drawn Y call with
            | Ok _ => ([plotly_chart s call], Ok tt)
            | Raise e => ([], Raise e)
            end).
  { intros s call. unfold chart, drawn.
    destruct (px Y call) as [[]|e]; [|reflexivity].
    rewrite MainAreaFacts.then_lift_Ok. cbn [bind].
    destruct (st_plotly_chart Y call) as [[]|e]; reflexivity. }
  unfold visuals, left_chart, right_chart.
  destruct categorical_cols as [|c0 [|c1 cat]],
           numeric_cols as [|x [|y num]];
    cbn [length Nat.ltb Nat.leb andb getitem nth_error hd_error st_columns
         Nat.eqb];
    rewrite ?MainAreaFacts.then_lift_Ok, ?MainAreaFacts.then_emit;
    cbn [fst snd];
    rewrite ?MainAreaFacts.then_lift_Ok, ?MainAreaFacts.then_emit;
    cbn [fst snd];
    rewrite ?C;
    repeat match goal with
      | |- context [drawn Y ?call] =>
          let E := fresh "E" in
          destruct (drawn Y call) as [[]|?] eqn:E;
          rewrite ?MainAreaFacts.then_lift_Ok, ?MainAreaFacts.then_emit;
          cbn [fst snd then_ lift emit app chart_at]
      end;
    cbn [fst snd then_ lift emit app chart_at];
    repeat split; intros;
    repeat match goal with
      | H : _ /\ _ |- _ => destruct H
      | H : _ \/ _ |- _ => destruct H
      | H : _ :: _ = _ :: _ |- _ => injection H as ? ?; subst
      | H : Some _ = Some _ |- _ => injection H as ?; subst
      | H : Raise _ = Raise _ |- _ => injection H as ?; subst
      | H : scatter _ _ _ = scatter _ _ _ |- _ => injection H as ? ? ?; subst
      end;
    cbn [length] in *;
    try discriminate; try congruence; try lia; try reflexivity;
    try (rewrite ?E, ?E0; reflexivity);
    try (eexists; eassumption);
    try (left; reflexivity); try (right; split; reflexivity).
Qed.

Lemma overview_charts_witness :
  let num := [py "Price"; py "Qty"] in
  let cat := [py "Item"] in
  visuals plain num cat =
    ([caption left_side TREEMAP_CAPTION;
      plotly_chart left_side (treemap [py "Item"] (py "Price") (py "Item"));
      caption right_side SCATTER_CAPTION;
      plotly_chart right_side
        (scatter (py "Price") (py "Qty") (Some (py "Item")))], Ok tt) /\
  visuals refused_path num cat =
    ([caption left_side TREEMAP_CAPTION],
     Raise (Exception ValueErrorT
              (py "None entries cannot have not-None children"))).
Proof.
  intros num cat.
  destruct (overview_charts plain num cat)
    as [Hl [_ [_ [Hr [_ [_ [Hok _]]]]]]].
  destruct (overview_charts refused_path num cat)
    as [Hl' [_ [_ [_ [_ [Hraise _]]]]]].
  split.
  - rewrite Hok.
    + rewrite (Hl (py "Item") [] (py "Price") [py "Qty"] eq_refl eq_refl).
      rewrite (Hr (py "Price") (py "Qty") [] (le_n 1) eq_refl).
      reflexivity.
    + rewrite (Hl (py "Item") [] (py "Price") [py "Qty"] eq_refl eq_refl).
      reflexivity.
  - rewrite (Hraise (Exception ValueErrorT
                       (py "None entries cannot have not-None children"))).
    + rewrite (Hl' (py "Item") [] (py "Price") [py "Qty"] eq_refl eq_refl).
      reflexivity.
    + rewrite (Hl' (py "Item") [] (py "Price") [py "Qty"] eq_refl eq_refl).
      reflexivity.
Defined.

(** X16.  The chat history only grows, and only at its end: a run of the
    assistant tab writes the stored messages again, in order, and stores
    them followed by nothing (no question submitted), by the question alone
    (the model raised: the error is shown and the question stays
    unanswered) or by the question and then the answer (the model returned
    it: the answer is written and stored).  A submitted question is stored
    once, even when the call fails; an answer is stored exactly when the
    model gave it. *)
Theorem chat_history_grows_at_end (X : externals) (data_context : str)
  (chat_history : option (list message)) (chat_input : option str) :
  let run := vi_assistant X data_context chat_history chat_input in
  let written :=
    map (fun m => chat_message (msg_role m) (msg_content m))
        (stored chat_history) in
  exists added,
    fst run = stored chat_history ++ added /\
    length added <= 2 /\
    firstn (length (stored chat_history)) (snd run) = written /\
    (added = [] <-> chat_input = None \/ chat_input = Some []) /\
    (added = [] -> snd run = written) /\
    (forall c p, chat_input = Some (c :: p) ->
       hd_error added = Some {| msg_role := user; msg_content := c :: p |}) /\
    (forall t, In {| msg_role := assistant; msg_content := t |} added ->
       exists p, chat_input = Some p /\
         generate_content X [TextPart (ai_prompt data_context p)] = Ok t) /\
    (forall p t, chat_input = Some p -> p <> [] ->
       generate_content X [TextPart (ai_prompt data_context p)] = Ok t ->
       added = [{| msg_role := user; msg_content := p |};
                {| msg_role := assistant; msg_content := t |}] /\
       snd run = written
                 ++ [chat_message user p;
                     chat_sent [TextPart (ai_prompt data_context p)];
                     chat_message assistant t]) /\
    (forall p e, chat_input = Some p -> p <> [] ->
       generate_content X [TextPart (ai_prompt data_context p)] = Raise e ->
       added = [{| msg_role := user; msg_content := p |}] /\
       snd run = written
                 ++ [chat_message user p;
                     chat_sent [TextPart (ai_prompt data_context p)];
                     chat_error (py "Error: " ++ exc_str e)]).
Proof.
  cbv zeta. unfold vi_assistant. fold (stored chat_history).
  set (written := map _ (stored chat_history)).
  assert (W : length written = length (stored chat_history))
    by apply length_map.
  assert (F : forall more, firstn (length (stored chat_history))
                             (written ++ more) = written).
  { intros more. rewrite <- W, firstn_app, Nat.sub_diag, firstn_all.
    cbn [firstn]. apply app_nil_r. }
  destruct chat_input as [[|c p]|].
  - exists []. cbn [fst snd]. rewrite app_nil_r.
    split; [reflexivity|]. split; [cbn; lia|].
    split; [rewrite <- W; apply firstn_all|].
    split; [split; [now right | reflexivity]|].
    split; [reflexivity|].
    split; [discriminate|]. split; [intros t []|].
    split; intros p ? [= <-] H; contradiction.
  - destruct (generate_content X [TextPart (ai_prompt data_context (c :: p))])
      as [t|e] eqn:G; cbn [fst snd].
    + exists [{| msg_role := user; msg_content := c :: p |};
              {| msg_role := assistant; msg_content := t |}].
      split; [now rewrite <- app_assoc|]. split; [cbn; lia|].
      split; [apply F|].
      split; [split; [discriminate | intros [H|H]; discriminate]|].
      split; [discriminate|].
      split; [now intros ? ? [= <- <-]|]. split; [|split].
      * intros t' [H|[H|[]]]; [discriminate|]. injection H as <-.
        now exists (c :: p).
      * intros p' t' [= <-] _ H. rewrite G in H. injection H as <-.
        split; reflexivity.
      * intros p' e [= <-] _ H. congruence.
    + exists [{| msg_role := user; msg_content := c :: p |}].
      split; [reflexivity|]. split; [cbn; lia|]. split; [apply F|].
      split; [split; [discriminate | intros [H|H]; discriminate]|].
      split; [discriminate|].
      split; [now intros ? ? [= <- <-]|]. split; [|split].
      * intros t' [H|[]]. discriminate.
      * intros p' t' [= <-] _ H. congruence.
      * intros p' e' [= <-] _ H. rewrite G in H. injection H as <-.
        split; reflexivity.
  - exists []. cbn [fst snd]. rewrite app_nil_r.
    split; [reflexivity|]. split; [cbn; lia|].
    split; [rewrite <- W; apply firstn_all|].
    split; [split; [now left | reflexivity]|].
    split; [reflexivity|].
    split; [discriminate|]. split; [intros t []|].
    split; intros p ? H; discriminate.
Qed.

Lemma chat_history_grows_at_end_witness :
  let before := Some [{| msg_role := user; msg_content := py "Total?" |};
                      {| msg_role := assistant; msg_content := py "7.5" |}] in
  let answered := vi_assistant (with_reply offline (Ok (py "Coffee")))
                    (py "Item Price") before (Some (py "Top item?")) in
  let failed := vi_assistant offline (py "Item Price") before
                  (Some (py "Top item?")) in
  fst answered = stored before
                 ++ [{| msg_role := user; msg_content := py "Top item?" |};
                     {| msg_role := assistant; msg_content := py "Coffee" |}] /\
  In (chat_message assistant (py "Coffee")) (snd answered) /\
  fst failed = stored before
               ++ [{| msg_role := user; msg_content := py "Top item?" |}] /\
  In (chat_error (py "Error: offline")) (snd failed).
Proof.
  intros before answered failed.
  destruct (chat_history_grows_at_end (with_reply offline (Ok (py "Coffee")))
              (py "Item Price") before (Some (py "Top item?")))
    as [added [E [_ [_ [_ [_ [_ [_ [H _]]]]]]]]].
  destruct (H (py "Top item?") (py "Coffee") eq_refl)
    as [-> Hw]; [discriminate | reflexivity |].
  destruct (chat_history_grows_at_end offline (py "Item Price") before
              (Some (py "Top item?")))
    as [added' [E' [_ [_ [_ [_ [_ [_ [_ H']]]]]]]]].
  destruct (H' (py "Top item?") (Exception OtherErrorT (py "offline")) eq_refl)
    as [-> Hw']; [discriminate | reflexivity |].
  split; [exact E|]. split.
  - fold answered in Hw. rewrite Hw. apply in_or_app. right.
    right. right. now left.
  - split; [exact E'|]. fold failed in Hw'. rewrite Hw'.
    apply in_or_app. right. right. right. now left.
Defined.

(** X17.  In a session that starts without a history, after any sequence of
    runs of the assistant tab, whatever was submitted and whatever the model
    did, every answer in the stored history stands right after a question
    (the history never starts with an answer and never holds two answers in
    a row); the same holds from any stored history that has the property. *)
Theorem chat_answers_follow_questions (data_context : str)
  (runs : list (externals * option str)) :
  answers_follow_questions
    (stored (chat_session data_context None runs)) = true /\
  (forall chat_history,
     answers_follow_questions (stored chat_history) = true ->
     answers_follow_questions
       (stored (chat_session data_context chat_history runs)) = true).
Proof.
  assert (H : forall chat_history,
     answers_follow_questions (stored chat_history) = true ->
     answers_follow_questions
       (stored (chat_session data_context chat_history runs)) = true).
  { induction runs as [|[X input] runs IH]; intros h Hh; [exact Hh|].
    cbn [chat_session]. apply IH. cbn [stored].
    now apply MainAreaFacts.vi_assistant_paired. }
  split; [now apply H | exact H].
Qed.

Lemma chat_answers_follow_questions_witness :
  let runs := [(offline, Some (py "Total?"));
               (with_reply offline (Ok (py "7.5")), Some (py "Total?"));
               (offline, None)] in
  stored (chat_session (py "Item Price") None runs)
  = [{| msg_role := user; msg_content := py "Total?" |};
     {| msg_role := user; msg_content := py "Total?" |};
     {| msg_role := assistant; msg_content := py "7.5" |}] /\
  answers_follow_questions
    (stored (chat_session (py "Item Price") None runs)) = true.
Proof.
  intros runs. split; [reflexivity|].
  exact (proj1 (chat_answers_follow_questions (py "Item Price") runs)).
Defined.

(** X18.  Past the guard of line 158 nothing is caught but the call of the
    model in the assistant tab.  A run ends with an uncaught exception
    exactly when the sidebar does or when, on a frame that is not empty, the
    overview tab, [st.dataframe] or the CSV export raises.  The tabs run in
    order: an exception leaves no download and no chat, so a question
    submitted in that run is not stored, while what the sidebar sent and
    showed stays as it was; when nothing raises, the download holds the
    export and the assistant tab has run.  On the URL path with the reply
    [{A:1},{A:2,B:x}] and a frame plotly refuses as a path, the request is
    sent, no error is shown by the extractor, and the run ends with the
    exception of plotly after the first metric card and the caption of the
    treemap. *)
Theorem uncaught_in_the_dashboard (secrets : option (list (str * str)))
  (environ : list (str * str)) (X : externals)
  (view : DataFrame -> frame_view) (chat_history : option (list message))
  (chat_input : option str) (input : sidebar_input) (e : exception) :
  let run := page secrets environ X view chat_history chat_input input in
  (page_end run = Uncaught e <->
   fst (script secrets environ X input) = Uncaught e \/
   exists df, fst (script secrets environ X input) = Shown (Dashboard df) /\
              tabs_raise (view df) e) /\
  page_events run = snd (script secrets environ X input) /\
  (forall d, page_dashboard run = Some d ->
     exists df, fst (script secrets environ X input) = Shown (Dashboard df) /\
       d = dashboard X (view df) chat_history chat_input /\
       (raised d <> None -> download d = None /\ chat d = None) /\
       (raised d = None <-> tabs_raise_nothing (view df)) /\
       (raised d = None ->
        exists csv,
          to_csv (view df) = Ok csv /\ download d = Some csv /\
          chat d = Some (vi_assistant X (to_string (view df)) chat_history
                           chat_input))) /\
  page None [(GOOGLE_API_KEY, py "key")]
    (with_reply (site 200 [] [Str NavigableString (py "A B")])
       (Ok (pyq "[{'A':1},{'A':2,'B':'x'}]")))
    (fun _ => refused_view) None (Some (py "Total?"))
    (WebsiteURL (py "http://shop.example") true)
  = {| page_end :=
         Uncaught (Exception ValueErrorT
                     (py "None entries cannot have not-None children"));
       page_events :=
         [sent [TextPart system_prompt; TextPart URL_PROMPT;
                TextPart (py "A B")]];
       page_dashboard :=
         Some {| overview :=
                   [subheader (py "Executive Overview");
                    metric 0 (py "A") (py "0.00");
                    divider;
                    caption left_side TREEMAP_CAPTION];
                 download := None;
                 chat := None;
                 raised :=
                   Some (Exception ValueErrorT
                           (py "None entries cannot have not-None children"))
              |} |}.
Proof.
  cbv zeta. unfold page, tabs_raise, tabs_raise_nothing.
  destruct (script secrets environ X input) as [[|e'|[df|]] events];
    cbn [fst snd page_end page_events page_dashboard].
  1,2,4: split; [|split; [reflexivity|split; [discriminate|reflexivity]]].
  - split; [discriminate|]. intros [H|[df [H _]]]; discriminate.
  - split; [intros H; now left|].
    intros [H|[df [H _]]]; [exact H|discriminate].
  - split; [discriminate|]. intros [H|[df [H _]]]; discriminate.
  - split; [|split; [reflexivity|split; [|reflexivity]]].
    + unfold dashboard.
      destruct (executive_overview _ _ _) as [ws [[]|eo]] eqn:Eo;
        [destruct (st_dataframe (view df)) as [[]|es] eqn:Es;
         [destruct (to_csv (view df)) as [csv|ec] eqn:Ec|]|];
        cbn [bind fst snd raised]; split;
        try (intros [H|[df' [Hd H]]]; [discriminate|];
             injection Hd as <-; rewrite Eo in H; cbn [snd] in H;
             rewrite ?Es, ?Ec in H;
             destruct H as [H|[H0 [H|[H1 H]]]]; try discriminate; congruence).
      * discriminate.
      * intros [= ->]. right. exists df. split; [reflexivity|].
        rewrite Eo. right. split; [reflexivity|]. right. now split.
      * intros [= ->]. right. exists df. split; [reflexivity|].
        rewrite Eo. right. split; [reflexivity|]. now left.
      * intros [= ->]. right. exists df. split; [reflexivity|].
        rewrite Eo. now left.
    + intros d [= <-]. exists df.
      split; [reflexivity|]. split; [reflexivity|].
      unfold dashboard.
      destruct (executive_overview _ _ _) as [ws [[]|eo]];
        [destruct (st_dataframe (view df)) as [[]|es];
         [destruct (to_csv (view df)) as [csv|ec]|]|];
        cbn [bind fst snd raised download chat].
      * split; [intros H; now elim H|]. split.
        -- split; [|reflexivity]. intros _.
           split; [reflexivity|]. split; [reflexivity | now exists csv].
        -- intros _. now exists csv.
      * split; [intros _; now split|]. split; [|discriminate].
        split; [discriminate|]. intros [_ [_ [csv H]]]. discriminate.
      * split; [intros _; now split|]. split; [|discriminate].
        split; [discriminate|]. intros [_ [H _]]. discriminate.
      * split; [intros _; now split|]. split; [|discriminate].
        split; [discriminate|]. intros [H _]. discriminate.
Qed.

Lemma uncaught_in_the_dashboard_witness :
  let X := with_reply (site 200 [] [Str NavigableString (py "A B")])
             (Ok (pyq "[{'A':1},{'A':2,'B':'x'}]")) in
  let input := WebsiteURL (py "http://shop.example") true in
  let e := Exception ValueErrorT
             (py "None entries cannot have not-None children") in
  let run := page None [(GOOGLE_API_KEY, py "key")] X (fun _ => refused_view)
               None (Some (py "Total?")) input in
  page_end run = Uncaught e /\
  page_events run = [sent [TextPart system_prompt; TextPart URL_PROMPT;
                           TextPart (py "A B")]].
Proof.
  intros X input e run.
  destruct (uncaught_in_the_dashboard None [(GOOGLE_API_KEY, py "key")] X
              (fun _ => refused_view) None (Some (py "Total?")) input e)
    as [[_ H] [Hev _]].
  split.
  - apply H. right. eexists. split; [reflexivity|]. left. reflexivity.
  - exact Hev.
Defined.
